(** * asmo-01-health: retention store, threshold evaluator, entity health
      aggregation and problem ranking

    A shallow embedding of [src/utils/storage.py], of
    [SystemMetrics.check_thresholds] in [src/utils/metrics.py] and of
    [analyze_container_health] / [identify_problematic_containers] in
    [src/reporter.py], followed by the properties proved about them.

    Conventions of the embedding.
    - A Python [dict] with a fixed set of keys is a record whose fields are
      [option]s: [None] is an absent key.  [d['k']] is [Py.getitem] (raises
      [KeyError]), [d.get('k', v)] is [Py.get].
    - JSON numbers that the code treats as gauges are binary64 floats
      ([PrimFloat.float]); counters are integers ([Z]).
    - An exception is a value of [Py.exn] carried by [Py.result].
    - A point in time (a naive [datetime]) is the number of microseconds
      since the start of the calendar, a [Z]; a [timedelta] is a number of
      microseconds.  Each call of [datetime.now()] is an explicit argument.
    - The store is embedded twice.  [HealthStorage] is the class on the
      histories its writers produce, where no exception escapes and the
      methods are total functions.  [HealthStorageJson] is the class on
      whatever the history file may hold, with the exceptions that escape
      the [try] blocks ([TypeError], [OverflowError], [UnicodeDecodeError],
      [OSError]); the two agree where the first applies. *)

From Stdlib Require Import ZArith Floats Lia Sorted Permutation.
From stdpp Require Import base option list strings gmap.

Local Open Scope Z_scope.

(** ** Python values and builtins *)

Module Py.

Inductive exn : Type :=
| KeyError (key : string)
| ValueError.

Inductive result (A : Type) : Type :=
| Ok (a : A)
| Raise (e : exn).
Arguments Ok {A} a.
Arguments Raise {A} e.

Definition bind {A B} (r : result A) (k : A -> result B) : result B :=
  match r with
  | Ok a => k a
  | Raise e => Raise e
  end.

(** [d['key']] *)
Definition getitem {A} (key : string) (field : option A) : result A :=
  match field with
  | Some a => Ok a
  | None => Raise (KeyError key)
  end.

(** [d.get('key', dflt)] *)
Definition get {A} (field : option A) (dflt : A) : A :=
  match field with
  | Some a => a
  | None => dflt
  end.

(** [x >= y], [x > y] and [x < y] on floats. *)
Definition ge (x y : float) : bool := PrimFloat.leb y x.
Definition gt (x y : float) : bool := PrimFloat.ltb y x.
Definition lt (x y : float) : bool := PrimFloat.ltb x y.

(** Truth value of a float: everything but zero, NaN included. *)
Definition truthy (x : float) : bool := negb (PrimFloat.eqb x 0%float).

(** [float(z)], rounded to nearest even. *)
Definition float_of_Z (z : Z) : float :=
  SF2Prim (binary_normalize prec emax z 0 false).

Definition SF_of_Z (z : Z) : spec_float :=
  match z with
  | Z0 => S754_zero false
  | Zpos p => S754_finite false p 0
  | Zneg p => S754_finite true p 0
  end.

(** [a / b] on integers, for a divisor known to be positive: the float
    nearest to the exact quotient. *)
Definition int_truediv (a : Z) (b : positive) : float :=
  SF2Prim (SF64div (SF_of_Z a) (S754_finite false b 0)).

(** [round(x, 2)]: the decimal with two fractional digits nearest to the
    exact value of [x], ties to the even digit, then the float nearest to
    that decimal.  Infinities, NaN and zeros are returned as they are. *)
Definition round2 (x : float) : float :=
  match Prim2SF x with
  | S754_finite s m e =>
      if 0 <=? e then x
      else
        let n := Zpos m * 100 in
        let d := 2 ^ (- e) in
        let q := n / d in
        let r := n mod d in
        if r =? 0 then x
        else
          let k := match 2 * r ?= d with
                   | Lt => q
                   | Gt => q + 1
                   | Eq => if Z.even q then q else q + 1
                   end in
          match k with
          | Zpos k =>
              SF2Prim (SF64div (S754_finite s k 0) (S754_finite false 100 0))
          | _ => if s then (-0)%float else 0%float
          end
  | S754_zero _ | S754_infinity _ | S754_nan => x
  end.

(** [max(l)] on a non-empty list of floats: the first element that no
    later one exceeds under [>]. *)
Definition max_float (first : float) (rest : list float) : float :=
  fold_left (fun m x => if PrimFloat.ltb m x then x else m) rest first.

(** [d.get(key, dflt)] on a dictionary with string keys. *)
Definition dict_get {V} (d : gmap string V) (key : string) (dflt : V) : V :=
  match d !! key with
  | Some v => v
  | None => dflt
  end.

(** [for x in l: s = body(s, x)], stopping at the first exception. *)
Fixpoint for_ {A S} (l : list A) (body : S -> A -> result S) (s : S)
    : result S :=
  match l with
  | [] => Ok s
  | x :: l => bind (body s x) (for_ l body)
  end.

(** [l[:n]], negative [n] counting from the end. *)
Definition slice_to {A} (n : Z) (l : list A) : list A :=
  if 0 <=? n then take (Z.to_nat n) l
  else take (Z.to_nat (Z.of_nat (length l) + n)) l.

End Py.

#[export] Instance result_bind : MBind Py.result :=
  fun A B k r => Py.bind r k.
#[export] Instance result_ret : MRet Py.result := @Py.Ok.

(** ** Time *)

Module datetime.

Definition timedelta_days (days : Z) : Z := days * 86400000000.
Definition timedelta_hours (hours : Z) : Z := hours * 3600000000.

(** A string stored under ['timestamp'], given by what
    [datetime.fromisoformat] makes of it: the naive datetime it denotes,
    or a [ValueError].  [isoformat] and [fromisoformat] are inverse to
    each other on naive datetimes, so [Iso t] is also the string
    [t.isoformat()].  Every writer in the repository stamps with
    [datetime.now().isoformat()]; strings carrying a UTC offset are not
    represented. *)
Inductive isostring : Type :=
| Iso (t : Z)
| NotIso (raw : string).

Definition fromisoformat (s : isostring) : Py.result Z :=
  match s with
  | Iso t => Py.Ok t
  | NotIso _ => Py.Raise Py.ValueError
  end.

Definition isoformat (t : Z) : isostring := Iso t.

End datetime.

(** ** Snapshots *)

Module Disk.
Record t : Type := mk {
  mount : option string;
  used_percent : option float;
}.
End Disk.

Module Container.
Record t : Type := mk {
  name : option string;
  status : option string;
  restarts : option Z;
  mem_mb : option float;
  cpu_percent : option float;
  errors : option (list string);
}.
End Container.

(** The flat record built by [collect_metrics]: it is both the [metrics]
    argument of [check_thresholds] and the entry handed to [add_entry].
    Only the keys read by the embedded functions are kept. *)
Module Snapshot.
Record t : Type := mk {
  timestamp : option datetime.isostring;
  cpu_percent : option float;
  ram_percent : option float;
  disks : option (list Disk.t);
  containers : option (list Container.t);
}.

(** [entry['timestamp'] = s] *)
Definition set_timestamp (s : datetime.isostring) (entry : t) : t :=
  mk (Some s) (cpu_percent entry) (ram_percent entry) (disks entry)
     (containers entry).
End Snapshot.

(** ** [utils/storage.py] *)

(** The class on a history file that can be opened and read as text, with
    entries that are objects whose ['timestamp'] is absent or a string
    without UTC offset, and with cutoffs inside the calendar.  A file that
    cannot be opened or is not text, an entry that is not an object, a
    ['timestamp'] that is not a string or carries an offset, and a cutoff
    before year 1 make the methods raise; these are in
    [HealthStorageJson] below. *)
Module HealthStorage.

(** What [json.load] finds at [history_file], the file being absent or
    readable text; [HealthStorageJson.file] has the other cases. *)
Inductive file : Type :=
| NoFile                              (* FileNotFoundError *)
| Undecodable                         (* json.JSONDecodeError *)
| NotAList                            (* valid JSON, not a list *)
| Document (data : list Snapshot.t).

Record t : Type := mk {
  history_file : file;
  retention_days : Z;
}.

Definition _write_history (self : t) (data : list Snapshot.t) : t :=
  mk (Document data) (retention_days self).

Definition __init__ (history_file : file) (retention_days : Z) : t :=
  let self := mk history_file retention_days in
  match history_file with
  | NoFile => _write_history self []
  | _ => self
  end.

Definition load_history (self : t) : list Snapshot.t :=
  match history_file self with
  | Document data => data
  | NotAList => []
  | Undecodable | NoFile => []
  end.

(** [datetime.fromisoformat(entry['timestamp'])], on a timestamp that is
    absent or a string: [KeyError] or [ValueError], the two exceptions
    the loops catch.  [HealthStorageJson.entry_time] has the [TypeError]
    of the other timestamps. *)
Definition entry_time (entry : Snapshot.t) : Py.result Z :=
  s ← Py.getitem "timestamp" (Snapshot.timestamp entry);
  datetime.fromisoformat s.

(** [now] is the reading of [datetime.now()] taken here. *)
Definition _cleanup_old_entries (self : t) (now : Z)
    (history : list Snapshot.t) : list Snapshot.t :=
  let cutoff := now - datetime.timedelta_days (retention_days self) in
  fold_left (fun filtered entry =>
    match entry_time entry with
    | Py.Ok entry_time =>
        if cutoff <=? entry_time then filtered ++ [entry] else filtered
    | Py.Raise (Py.KeyError _) | Py.Raise Py.ValueError =>
        filtered ++ [entry]
    end) history [].

(** [now0] is the reading of [datetime.now()] that stamps an entry
    without timestamp, [now] the later one taken by the cleanup. *)
Definition add_entry (self : t) (now0 now : Z) (entry : Snapshot.t) : t :=
  let entry :=
    match Snapshot.timestamp entry with
    | None => Snapshot.set_timestamp (datetime.isoformat now0) entry
    | Some _ => entry
    end in
  let history := load_history self in
  let history := history ++ [entry] in
  let history := _cleanup_old_entries self now history in
  _write_history self history.

Definition get_last_24h (self : t) (now : Z) : list Snapshot.t :=
  let history := load_history self in
  let cutoff := now - datetime.timedelta_hours 24 in
  fold_left (fun filtered entry =>
    match entry_time entry with
    | Py.Ok entry_time =>
        if cutoff <=? entry_time then filtered ++ [entry] else filtered
    | Py.Raise (Py.KeyError _) | Py.Raise Py.ValueError => filtered
    end) history [].

Definition get_entries_between (self : t) (start end_ : Z)
    : list Snapshot.t :=
  let history := load_history self in
  fold_left (fun filtered entry =>
    match entry_time entry with
    | Py.Ok entry_time =>
        if (start <=? entry_time) && (entry_time <=? end_)
        then filtered ++ [entry] else filtered
    | Py.Raise (Py.KeyError _) | Py.Raise Py.ValueError => filtered
    end) history [].

Definition get_latest_entry (self : t) : option Snapshot.t :=
  let history := load_history self in
  match history with
  | [] => None
  | _ => last history
  end.

End HealthStorage.

(** ** [utils/metrics.py] *)

Module SystemMetrics.

(** The messages of [check_thresholds], one constructor per f-string,
    its arguments the values substituted into it. *)
Inductive message : Type :=
| CpuCritical (cpu : float)                (* "CPU usage critical: {cpu}%" *)
| CpuHigh (cpu : float)                    (* "CPU usage high: {cpu}%" *)
| RamCritical (ram_pct : float)            (* "RAM usage critical: {ram_pct}%" *)
| RamHigh (ram_pct : float)                (* "RAM usage high: {ram_pct}%" *)
| DiskCritical (mount : string) (used : float)  (* "Disk {mount} critical: {used}%" *)
| DiskHigh (mount : string) (used : float).     (* "Disk {mount} high: {used}%" *)

Record violations : Type := mk {
  warnings : list message;
  critical : list message;
}.

(** [violations['critical'].append(msg)], [violations['warnings'].append(msg)] *)
Definition append_critical (v : violations) (msg : message) : violations :=
  mk (warnings v) (critical v ++ [msg]).
Definition append_warning (v : violations) (msg : message) : violations :=
  mk (warnings v ++ [msg]) (critical v).

Definition check_thresholds (metrics : Snapshot.t)
    (thresholds : gmap string float) : Py.result violations :=
  let violations := mk [] [] in
  (* Check CPU *)
  let cpu := Py.get (Snapshot.cpu_percent metrics) 0%float in
  let violations :=
    if Py.ge cpu (Py.dict_get thresholds "cpu_critical" 95%float)
    then append_critical violations (CpuCritical cpu)
    else if Py.ge cpu (Py.dict_get thresholds "cpu_warning" 80%float)
    then append_warning violations (CpuHigh cpu)
    else violations in
  (* Check RAM *)
  let ram_pct := Py.get (Snapshot.ram_percent metrics) 0%float in
  let violations :=
    if Py.ge ram_pct (Py.dict_get thresholds "ram_critical" 95%float)
    then append_critical violations (RamCritical ram_pct)
    else if Py.ge ram_pct (Py.dict_get thresholds "ram_warning" 85%float)
    then append_warning violations (RamHigh ram_pct)
    else violations in
  (* Check disks *)
  Py.for_ (Py.get (Snapshot.disks metrics) [])
    (fun violations disk =>
       used ← Py.getitem "used_percent" (Disk.used_percent disk);
       mount ← Py.getitem "mount" (Disk.mount disk);
       mret (
         if Py.ge used (Py.dict_get thresholds "disk_critical" 90%float)
         then append_critical violations (DiskCritical mount used)
         else if Py.ge used (Py.dict_get thresholds "disk_warning" 80%float)
         then append_warning violations (DiskHigh mount used)
         else violations))
    violations.

End SystemMetrics.

(** ** [reporter.py] *)

Module Reporting.
Record t : Type := mk {
  top_memory_containers : option Z;
  top_cpu_containers : option Z;
  max_errors_in_report : option Z;
}.
End Reporting.

Module Config.
Record t : Type := mk {
  reporting : option Reporting.t;
}.
End Config.

(** A [dict] keyed by container name, in insertion order. *)
Module Dict.
Section Dict.
Context {V : Type}.

(** [d.get(key)] *)
Fixpoint lookup (key : string) (d : list (string * V)) : option V :=
  match d with
  | [] => None
  | (k, v) :: d => if String.eqb key k then Some v else lookup key d
  end.

(** [key in d] *)
Definition mem (key : string) (d : list (string * V)) : bool :=
  match lookup key d with
  | Some _ => true
  | None => false
  end.

(** [d[key] = v]: in place when the key is there, at the end otherwise. *)
Fixpoint store (key : string) (v : V) (d : list (string * V))
    : list (string * V) :=
  match d with
  | [] => [(key, v)]
  | (k, w) :: d =>
      if String.eqb key k then (k, v) :: d else (k, w) :: store key v d
  end.
End Dict.
End Dict.

(** The per-container dictionary while the first loop of
    [analyze_container_health] runs. *)
Module Tally.
Record t : Type := mk {
  name : string;
  uptime_checks : Z;
  down_checks : Z;
  total_restarts : Z;
  errors : list string;
  mem_values : list float;
  cpu_values : list float;
}.
End Tally.

(** The same dictionary once the second loop has added its keys. *)
Module Stats.
Record t : Type := mk {
  name : string;
  uptime_checks : Z;
  down_checks : Z;
  total_restarts : Z;
  errors : list string;
  mem_values : list float;
  cpu_values : list float;
  uptime_percent : float;
  avg_mem_mb : float;
  max_mem_mb : float;
  avg_cpu_percent : float;
  max_cpu_percent : float;
}.
End Stats.

Inductive severity : Type := info | warning | critical.

Inductive issue : Type :=
| UptimeIssue (uptime_percent : float)      (* "Uptime: {uptime_percent}%" *)
| RestartsIssue (total_restarts : Z)        (* "{total_restarts} restarts" *)
| ErrorTypesIssue (count : nat).            (* "{len(errors)} error types" *)

Module Problem.
Record summary : Type := mk_summary {
  uptime_percent : float;
  restarts : Z;
  avg_mem_mb : float;
}.
Record t : Type := mk {
  name : string;
  severity_ : severity;
  issues : list issue;
  errors : list string;
  stats : summary;
}.
End Problem.

Module Reporter.
Section Reporter.

(** The builtin [sum] on a list of floats.  Its rounding is not the same
  in every CPython release (a plain left fold, or a compensated sum), so
  the embedding does not fix it. *)
Variable py_sum : list float -> float.

(** [round(sum(values) / len(values), 2)] and [round(max(values), 2)],
  or [0] twice for no sample. *)
Definition avg_max (values : list float) : float * float :=
match values with
| [] => (0%float, 0%float)
| v :: rest =>
    (Py.round2 (py_sum values / Py.float_of_Z (Z.of_nat (length values))),
     Py.round2 (Py.max_float v rest))
end.

(** The body of the loop over [entry.get('containers', [])]. *)
Definition observe (container_stats : list (string * Tally.t))
  (container : Container.t) : Py.result (list (string * Tally.t)) :=
name ← Py.getitem "name" (Container.name container);
let container_stats :=
  if negb (Dict.mem name container_stats)
  then Dict.store name (Tally.mk name 0 0 0 [] [] []) container_stats
  else container_stats in
stats ← Py.getitem name (Dict.lookup name container_stats);
(* Count uptime *)
status ← Py.getitem "status" (Container.status container);
let '(uptime_checks, down_checks) :=
  if String.eqb status "running"
  then (Tally.uptime_checks stats + 1, Tally.down_checks stats)
  else (Tally.uptime_checks stats, Tally.down_checks stats + 1) in
(* Track restarts *)
let total_restarts :=
  Z.max (Tally.total_restarts stats)
        (Py.get (Container.restarts container) 0) in
(* Collect resource usage *)
let mem_values :=
  match Container.mem_mb container with
  | Some mem_mb =>
      if Py.truthy mem_mb then Tally.mem_values stats ++ [mem_mb]
      else Tally.mem_values stats
  | None => Tally.mem_values stats
  end in
let cpu_values :=
  match Container.cpu_percent container with
  | Some cpu_percent =>
      if Py.truthy cpu_percent then Tally.cpu_values stats ++ [cpu_percent]
      else Tally.cpu_values stats
  | None => Tally.cpu_values stats
  end in
(* Collect unique errors *)
let errors :=
  fold_left (fun errors error =>
               if existsb (String.eqb error) errors then errors
               else errors ++ [error])
            (Py.get (Container.errors container) [])
            (Tally.errors stats) in
mret (Dict.store name
        (Tally.mk (Tally.name stats) uptime_checks down_checks
                  total_restarts errors mem_values cpu_values)
        container_stats).

(** The body of the loop over [container_stats.items()]. *)
Definition summarize (config : Config.t) (stats : Tally.t)
  : Py.result Stats.t :=
let total_checks := Tally.uptime_checks stats + Tally.down_checks stats in
let uptime_percent :=
  match total_checks with
  | Zpos total_checks =>          (* total_checks > 0 *)
      Py.round2
        (PrimFloat.mul
           (Py.int_truediv (Tally.uptime_checks stats) total_checks)
           100%float)
  | Z0 | Zneg _ => 0%float
  end in
let '(avg_mem_mb, max_mem_mb) := avg_max (Tally.mem_values stats) in
let '(avg_cpu_percent, max_cpu_percent) :=
  avg_max (Tally.cpu_values stats) in
(* Keep only first N errors *)
reporting ← Py.getitem "reporting" (Config.reporting config);
let errors :=
  Py.slice_to (Py.get (Reporting.max_errors_in_report reporting) 10)
              (Tally.errors stats) in
mret (Stats.mk (Tally.name stats) (Tally.uptime_checks stats)
        (Tally.down_checks stats) (Tally.total_restarts stats) errors
        (Tally.mem_values stats) (Tally.cpu_values stats)
        uptime_percent avg_mem_mb max_mem_mb
        avg_cpu_percent max_cpu_percent).

Definition analyze_container_health (history : list Snapshot.t)
  (config : Config.t) : Py.result (list (string * Stats.t)) :=
(* Aggregate container stats *)
container_stats ←
  Py.for_ history
    (fun container_stats entry =>
       Py.for_ (Py.get (Snapshot.containers entry) []) observe
               container_stats)
    [];
(* Calculate averages and uptime percentages *)
Py.for_ container_stats
  (fun done_ '(name, stats) =>
     stats ← summarize config stats;
     mret (done_ ++ [(name, stats)]))
  [].

End Reporter.

(** The three checks of [identify_problematic_containers] on one entry of
    [container_stats], each taking and returning [(issues, severity)]. *)
Definition check_uptime (stats : Stats.t) (st : list issue * severity)
    : list issue * severity :=
  let '(issues, severity) := st in
  if Py.lt (Stats.uptime_percent stats) 100%float
  then (issues ++ [UptimeIssue (Stats.uptime_percent stats)],
        if Py.gt (Stats.uptime_percent stats) 90%float
        then warning else critical)
  else (issues, severity).

Definition check_restarts (stats : Stats.t) (st : list issue * severity)
    : list issue * severity :=
  let '(issues, severity) := st in
  if Stats.total_restarts stats >? 0
  then (issues ++ [RestartsIssue (Stats.total_restarts stats)],
        if Stats.total_restarts stats >=? 5 then critical
        else if Stats.total_restarts stats >=? 3 then warning
        else severity)
  else (issues, severity).

Definition check_errors (stats : Stats.t) (st : list issue * severity)
    : list issue * severity :=
  let '(issues, severity) := st in
  match Stats.errors stats with
  | [] => (issues, severity)
  | _ :: _ =>
      (issues ++ [ErrorTypesIssue (length (Stats.errors stats))],
       match severity with
       | info => warning
       | _ => severity
       end)
  end.

(** [issues] and [severity] at the end of the loop body. *)
Definition assess (stats : Stats.t) : list issue * severity :=
  check_errors stats (check_restarts stats (check_uptime stats ([], info))).

Definition severity_order (s : severity) : Z :=
  match s with
  | critical => 0
  | warning => 1
  | info => 2
  end.

(** [problems.sort(key=...)]: a stable sort on the key.  The list is
    built from its end, so a problem goes in front of those of equal
    key already placed, which came after it. *)
Fixpoint insert_by_key (p : Problem.t) (sorted : list Problem.t)
    : list Problem.t :=
  match sorted with
  | [] => [p]
  | q :: rest =>
      if severity_order (Problem.severity_ p)
           <=? severity_order (Problem.severity_ q)
      then p :: q :: rest
      else q :: insert_by_key p rest
  end.

Definition sort_by_severity (problems : list Problem.t) : list Problem.t :=
  fold_right insert_by_key [] problems.

Definition identify_problematic_containers
    (container_stats : list (string * Stats.t)) : list Problem.t :=
  let problems :=
    fold_left (fun problems '(name, stats) =>
      let '(issues, severity) := assess stats in
      match issues with
      | [] => problems
      | _ :: _ =>
          problems ++
          [Problem.mk name severity issues (take 3 (Stats.errors stats))
             (Problem.mk_summary (Stats.uptime_percent stats)
                (Stats.total_restarts stats) (Stats.avg_mem_mb stats))]
      end) container_stats [] in
  sort_by_severity problems.

End Reporter.

(** ** Notions used by the statements *)

(** A run of the store: the appends of [ops], oldest first, each with its
    two clock readings. *)
Definition add_entries (self : HealthStorage.t)
    (ops : list (Z * Z * Snapshot.t)) : HealthStorage.t :=
  fold_left (fun self '(now0, now, entry) =>
               HealthStorage.add_entry self now0 now entry) ops self.

(** The instant an entry's timestamp denotes, when it has one that parses. *)
Definition parsed_time (entry : Snapshot.t) : option Z :=
  match Snapshot.timestamp entry with
  | Some (datetime.Iso t) => Some t
  | Some (datetime.NotIso _) | None => None
  end.

(** The entry as [add_entry] stores it. *)
Definition stamped (now0 : Z) (entry : Snapshot.t) : Snapshot.t :=
  match Snapshot.timestamp entry with
  | None => Snapshot.set_timestamp (datetime.Iso now0) entry
  | Some _ => entry
  end.

(** The window of the spec's [query(24h)]: both ends closed. *)
Definition in_closed_window (now : Z) (entry : Snapshot.t) : bool :=
  match parsed_time entry with
  | Some t => (now - datetime.timedelta_hours 24 <=? t) && (t <=? now)
  | None => false
  end.

(** The window [get_last_24h] implements: closed below, open-ended above. *)
Definition in_last_24h (now : Z) (entry : Snapshot.t) : bool :=
  match parsed_time entry with
  | Some t => now - datetime.timedelta_hours 24 <=? t
  | None => false
  end.

(** The test the cleanup loop applies to an entry. *)
Definition survives (cutoff : Z) (entry : Snapshot.t) : bool :=
  match parsed_time entry with
  | Some t => cutoff <=? t
  | None => true
  end.


(** The classification rule of the threshold evaluator, as the spec words
    it: critical from the critical level up, else warning from the warning
    level up, else nothing. *)
Definition classify (warning_level critical_level value : float)
    : option severity :=
  if (critical_level <=? value)%float then Some critical
  else if (warning_level <=? value)%float then Some warning
  else None.

(** The message a classification puts into one of the two buckets. *)
Definition reported (bucket : severity) (c : option severity)
    (msg : SystemMetrics.message) : list SystemMetrics.message :=
  match c, bucket with
  | Some critical, critical | Some warning, warning => [msg]
  | _, _ => []
  end.

Record levels : Type := mk_levels {
  cpu_warning : float;  cpu_critical : float;
  ram_warning : float;  ram_critical : float;
  disk_warning : float; disk_critical : float;
}.

(** The report the rule yields for CPU, RAM and each disk on its own. *)
Definition expected_violations (l : levels) (cpu ram : float)
    (disks : list (string * float)) : SystemMetrics.violations :=
  SystemMetrics.mk
    (reported warning (classify (cpu_warning l) (cpu_critical l) cpu)
              (SystemMetrics.CpuHigh cpu)
     ++ reported warning (classify (ram_warning l) (ram_critical l) ram)
              (SystemMetrics.RamHigh ram)
     ++ flat_map (fun '(mount, used) =>
          reported warning (classify (disk_warning l) (disk_critical l) used)
                   (SystemMetrics.DiskHigh mount used)) disks)
    (reported critical (classify (cpu_warning l) (cpu_critical l) cpu)
              (SystemMetrics.CpuCritical cpu)
     ++ reported critical (classify (ram_warning l) (ram_critical l) ram)
              (SystemMetrics.RamCritical ram)
     ++ flat_map (fun '(mount, used) =>
          reported critical (classify (disk_warning l) (disk_critical l) used)
                   (SystemMetrics.DiskCritical mount used)) disks).

(** A threshold configuration supplies the levels [l]. *)
Definition configures (thresholds : gmap string float) (l : levels) : Prop :=
  thresholds !! "cpu_warning" = Some (cpu_warning l)
  /\ thresholds !! "cpu_critical" = Some (cpu_critical l)
  /\ thresholds !! "ram_warning" = Some (ram_warning l)
  /\ thresholds !! "ram_critical" = Some (ram_critical l)
  /\ thresholds !! "disk_warning" = Some (disk_warning l)
  /\ thresholds !! "disk_critical" = Some (disk_critical l).

(** The levels [check_thresholds] falls back on. *)
Definition builtin_levels : levels :=
  mk_levels 80%float 95%float 85%float 95%float 80%float 90%float.

Definition levels_dict (l : levels) : gmap string float :=
  list_to_map
    [("cpu_warning", cpu_warning l); ("cpu_critical", cpu_critical l);
     ("ram_warning", ram_warning l); ("ram_critical", ram_critical l);
     ("disk_warning", disk_warning l); ("disk_critical", disk_critical l)].

(** The levels in force under a configuration. *)
Definition effective_levels (thresholds : gmap string float) : levels :=
  mk_levels
    (Py.dict_get thresholds "cpu_warning" 80%float)
    (Py.dict_get thresholds "cpu_critical" 95%float)
    (Py.dict_get thresholds "ram_warning" 85%float)
    (Py.dict_get thresholds "ram_critical" 95%float)
    (Py.dict_get thresholds "disk_warning" 80%float)
    (Py.dict_get thresholds "disk_critical" 90%float).

(** A disk record with both of its keys. *)
Definition disk_fields (disk : Disk.t) : option (string * float) :=
  match Disk.mount disk, Disk.used_percent disk with
  | Some mount, Some used => Some (mount, used)
  | _, _ => None
  end.

(** Every container record of a window, in the order the aggregation
    meets them. *)
Definition observations (history : list Snapshot.t) : list Container.t :=
  flat_map (fun entry => Py.get (Snapshot.containers entry) []) history.

Definition is_named (name : string) (container : Container.t) : bool :=
  match Container.name container with
  | Some n => String.eqb n name
  | None => false
  end.

Definition is_running (container : Container.t) : bool :=
  match Container.status container with
  | Some status => String.eqb status "running"
  | None => false
  end.

(** How often an entity was observed running, and not running. *)
Definition running_count (name : string) (seen : list Container.t) : Z :=
  Z.of_nat (length (List.filter
    (fun c => is_named name c && is_running c) seen)).
Definition down_count (name : string) (seen : list Container.t) : Z :=
  Z.of_nat (length (List.filter
    (fun c => is_named name c && negb (is_running c)) seen)).

(** The spec's [running / (running + down) * 100], rounded to two
    decimals, and 0 without observation. *)
Definition uptime_ratio (running down : Z) : float :=
  match (running + down)%Z with
  | Zpos total =>
      Py.round2 (PrimFloat.mul (Py.int_truediv running total) 100%float)
  | Z0 | Zneg _ => 0%float
  end.

(** A container record with its optional keys set to what their absence
    stands for. *)
Definition container_with_defaults (c : Container.t) : Container.t :=
  Container.mk (Container.name c) (Container.status c)
    (Some (Py.get (Container.restarts c) 0))
    (Some (Py.get (Container.mem_mb c) 0%float))
    (Some (Py.get (Container.cpu_percent c) 0%float))
    (Some (Py.get (Container.errors c) [])).

Definition snapshot_with_defaults (entry : Snapshot.t) : Snapshot.t :=
  Snapshot.mk (Snapshot.timestamp entry) (Snapshot.cpu_percent entry)
    (Snapshot.ram_percent entry) (Snapshot.disks entry)
    (Some (map container_with_defaults
             (Py.get (Snapshot.containers entry) []))).

(** A container record carries the two keys the aggregation indexes. *)
Definition identified (c : Container.t) : Prop :=
  is_Some (Container.name c) /\ is_Some (Container.status c).

(** The tallies [container_stats] agree with the records seen so far: an
    entity that has a tally was counted right, one that has none was not
    seen. *)
Definition tallied (seen : list Container.t)
    (container_stats : list (string * Tally.t)) : Prop :=
  forall name,
    match Dict.lookup name container_stats with
    | Some t =>
        Tally.uptime_checks t = running_count name seen
        /\ Tally.down_checks t = down_count name seen
    | None => running_count name seen = 0 /\ down_count name seen = 0
    end.

(** ** Sample data *)

Module Examples.

Definition day : Z := 86400000000.

(** An entry with nothing but the given timestamp. *)
Definition entry_at (t : Z) : Snapshot.t :=
  Snapshot.mk (Some (datetime.Iso t)) None None None None.
Definition entry_unstamped : Snapshot.t :=
  Snapshot.mk None None None None None.
Definition entry_garbled : Snapshot.t :=
  Snapshot.mk (Some (datetime.NotIso "yesterday")) None None None None.

(** A snapshot with nothing but a CPU reading. *)
Definition cpu_only (cpu : float) : Snapshot.t :=
  Snapshot.mk None (Some cpu) None None None.

(** [{"cpu_warning": 80, "cpu_critical": 95}] *)
Definition cpu_levels : gmap string float :=
  <["cpu_warning" := 80%float]> (<["cpu_critical" := 95%float]> ∅).

Definition two_disks : Snapshot.t :=
  Snapshot.mk None (Some 50%float) (Some 50%float)
    (Some [Disk.mk (Some "/") (Some 95%float);
           Disk.mk (Some "/data") (Some 85%float)]) None.

(** [sum] as a left fold of float additions from 0. *)
Definition plain_sum (values : list float) : float :=
  fold_left PrimFloat.add values 0%float.

Definition config : Config.t :=
  Config.mk (Some (Reporting.mk (Some 5) (Some 5) (Some 10))).

(** A snapshot holding one record of container "web". *)
Definition web (status : option string) : Snapshot.t :=
  Snapshot.mk None None None None
    (Some [Container.mk (Some "web") status None None None None]).

Definition nine_of_ten : list Snapshot.t :=
  repeat (web (Some "running")) 9 ++ [web (Some "exited")].

Definition stats_of (uptime_percent : float) (total_restarts : Z)
    (errors : list string) : Stats.t :=
  Stats.mk "web" 0 0 total_restarts errors [] []
           uptime_percent 0%float 0%float 0%float 0%float.

End Examples.

(** ** Further notions: the store *)

(** The entries a run of appends hands to the store, as stored. *)
Definition stamps (ops : list (Z * Z * Snapshot.t)) : list Snapshot.t :=
  map (fun '(now0, _, entry) => stamped now0 entry) ops.

(** The cleanup clock of an append. *)
Definition cleanup_clock (op : Z * Z * Snapshot.t) : Z :=
  let '(_, now, _) := op in now.

(** The test of [get_entries_between]. *)
Definition in_range (start end_ : Z) (entry : Snapshot.t) : bool :=
  match parsed_time entry with
  | Some t => (start <=? t) && (t <=? end_)
  | None => false
  end.

(** ** [utils/storage.py] on arbitrary file contents

    [HealthStorage] above reads the class on the histories its own writers
    produce: a file that opens and decodes, entries that are objects whose
    ['timestamp'] is absent or a string without UTC offset, and clock
    readings far from the ends of the calendar.  The methods themselves
    assume none of this.  The module below embeds them again on everything
    [json.load] can return and with the exceptions the [try] blocks do not
    catch; on the histories of [HealthStorage] the two readings agree
    (lemmas [json_add_entry_plain], [json_last_24h_plain] and
    [json_latest_plain]). *)

Module HealthStorageJson.

Inductive exn : Type :=
| KeyError (key : string)
| ValueError
| TypeError
| OverflowError
| UnicodeDecodeError
| OSError.

Inductive result (A : Type) : Type :=
| Ok (a : A)
| Raise (e : exn).
Arguments Ok {A} a.
Arguments Raise {A} e.

Definition bind {A B} (r : result A) (k : A -> result B) : result B :=
  match r with
  | Ok a => k a
  | Raise e => Raise e
  end.

(** [for x in l: s = body(s, x)], stopping at the first exception. *)
Fixpoint for_ {A S} (l : list A) (body : S -> A -> result S) (s : S)
    : result S :=
  match l with
  | [] => Ok s
  | x :: l => bind (body s x) (for_ l body)
  end.

(** An element of the list [json.load] returns.  [entry] holds the keys
    of an object other than ['timestamp'] when the constructor says what
    that key holds. *)
Inductive item : Type :=
| Plain (entry : Snapshot.t)
    (* an object; 'timestamp' is absent or a string without UTC offset *)
| OffsetStamped (t : Z) (entry : Snapshot.t)
    (* 'timestamp' is an ISO string with a UTC offset, the instant t *)
| NonStringStamped (entry : Snapshot.t)
    (* 'timestamp' is null, a number, a list or an object *)
| NotAnObject.
    (* a number, a string, null or a list *)

(** What [open] and [json.load] find at [history_file]. *)
Inductive file : Type :=
| NoFile                              (* FileNotFoundError *)
| Unopenable                          (* another OSError: PermissionError,
                                         IsADirectoryError *)
| NotText                             (* UnicodeDecodeError on reading *)
| InvalidJson                         (* json.JSONDecodeError *)
| NotAList                            (* valid JSON, not a list *)
| Document (data : list item).

Record t : Type := mk {
  history_file : file;
  retention_days : Z;
}.

(** Microseconds from [datetime.min] to the end of 9999-12-31. *)
Definition calendar_end : Z := 3652059 * 86400000000.

(** [timedelta(days=days)] *)
Definition timedelta_days (days : Z) : result Z :=
  if Z.abs days <=? 999999999 then Ok (datetime.timedelta_days days)
  else Raise OverflowError.

(** [t - delta] on a naive datetime. *)
Definition sub (t delta : Z) : result Z :=
  let r := t - delta in
  if (0 <=? r) && (r <? calendar_end) then Ok r else Raise OverflowError.

(** The result of [datetime.fromisoformat]. *)
Inductive parsed : Type :=
| NaiveTime (t : Z)
| AwareTime (t : Z).

(** [datetime.fromisoformat(entry['timestamp'])] *)
Definition entry_time (entry : item) : result parsed :=
  match entry with
  | Plain entry =>
      match Snapshot.timestamp entry with
      | None => Raise (KeyError "timestamp")
      | Some (datetime.Iso t) => Ok (NaiveTime t)
      | Some (datetime.NotIso _) => Raise ValueError
      end
  | OffsetStamped t _ => Ok (AwareTime t)
  | NonStringStamped _ => Raise TypeError
  | NotAnObject => Raise TypeError
  end.

(** [entry_time >= cutoff], [cutoff] being naive. *)
Definition ge_naive (entry_time : parsed) (cutoff : Z) : result bool :=
  match entry_time with
  | NaiveTime t => Ok (cutoff <=? t)
  | AwareTime _ => Raise TypeError
  end.

Definition _write_history (self : t) (data : list item) : t :=
  mk (Document data) (retention_days self).

Definition load_history (self : t) : result (list item) :=
  match history_file self with
  | Document data => Ok data
  | NotAList => Ok []
  | InvalidJson | NoFile => Ok []
  | NotText => Raise UnicodeDecodeError
  | Unopenable => Raise OSError
  end.

(** The body of the cleanup loop: [except (KeyError, ValueError)] keeps
    the entry, any other exception leaves the loop. *)
Definition cleanup_step (cutoff : Z) (filtered : list item) (entry : item)
    : result (list item) :=
  match bind (entry_time entry) (fun t => ge_naive t cutoff) with
  | Ok true => Ok (filtered ++ [entry])
  | Ok false => Ok filtered
  | Raise (KeyError _) | Raise ValueError => Ok (filtered ++ [entry])
  | Raise e => Raise e
  end.

Definition _cleanup_old_entries (self : t) (now : Z) (history : list item)
    : result (list item) :=
  bind (timedelta_days (retention_days self)) (fun delta =>
  bind (sub now delta) (fun cutoff =>
  for_ history (cleanup_step cutoff) [])).

(** ['timestamp' not in entry] and the assignment that follows. *)
Definition stamp (now0 : Z) (entry : item) : result item :=
  match entry with
  | Plain entry =>
      match Snapshot.timestamp entry with
      | None =>
          Ok (Plain (Snapshot.set_timestamp (datetime.isoformat now0) entry))
      | Some _ => Ok (Plain entry)
      end
  | OffsetStamped _ _ | NonStringStamped _ => Ok entry
  | NotAnObject => Raise TypeError
  end.

(** A raised exception leaves the file as it was: [_write_history] is the
    last statement. *)
Definition add_entry (self : t) (now0 now : Z) (entry : item) : result t :=
  bind (stamp now0 entry) (fun entry =>
  bind (load_history self) (fun history =>
  let history := history ++ [entry] in
  bind (_cleanup_old_entries self now history) (fun history =>
  Ok (_write_history self history)))).

(** The body of the query loop: [except (KeyError, ValueError)] skips the
    entry. *)
Definition query_step (cutoff : Z) (filtered : list item) (entry : item)
    : result (list item) :=
  match bind (entry_time entry) (fun t => ge_naive t cutoff) with
  | Ok true => Ok (filtered ++ [entry])
  | Ok false => Ok filtered
  | Raise (KeyError _) | Raise ValueError => Ok filtered
  | Raise e => Raise e
  end.

Definition get_last_24h (self : t) (now : Z) : result (list item) :=
  bind (load_history self) (fun history =>
  bind (sub now (datetime.timedelta_hours 24)) (fun cutoff =>
  for_ history (query_step cutoff) [])).

Definition get_latest_entry (self : t) : result (option item) :=
  bind (load_history self) (fun history =>
  Ok (match history with
      | [] => None
      | _ => last history
      end)).

End HealthStorageJson.

(** The histories of [HealthStorage] as file contents. *)
Definition file_of (f : HealthStorage.file) : HealthStorageJson.file :=
  match f with
  | HealthStorage.NoFile => HealthStorageJson.NoFile
  | HealthStorage.Undecodable => HealthStorageJson.InvalidJson
  | HealthStorage.NotAList => HealthStorageJson.NotAList
  | HealthStorage.Document data =>
      HealthStorageJson.Document (map HealthStorageJson.Plain data)
  end.

Definition store_of (self : HealthStorage.t) : HealthStorageJson.t :=
  HealthStorageJson.mk (file_of (HealthStorage.history_file self))
                       (HealthStorage.retention_days self).

(** The clock reading and the horizon keep the cleanup's cutoff inside
    the calendar. *)
Definition cutoff_in_calendar (now days : Z) : Prop :=
  Z.abs days <= 999999999
  /\ 0 <= now - datetime.timedelta_days days < HealthStorageJson.calendar_end.

(** The file holds JSON text, or does not exist. *)
Definition loads (f : HealthStorageJson.file) : bool :=
  match f with
  | HealthStorageJson.Unopenable | HealthStorageJson.NotText => false
  | _ => true
  end.

(** The file holds a JSON list. *)
Definition holds_list (f : HealthStorageJson.file) : bool :=
  match f with
  | HealthStorageJson.Document _ => true
  | _ => false
  end.

(** The entry is an object whose ['timestamp'] is absent or a string
    without UTC offset. *)
Definition plain (entry : HealthStorageJson.item) : bool :=
  match entry with
  | HealthStorageJson.Plain _ => true
  | _ => false
  end.

(** The entry's ['timestamp'] is there and is not a string. *)
Definition non_string_stamped (entry : HealthStorageJson.item) : bool :=
  match entry with
  | HealthStorageJson.NonStringStamped _ => true
  | _ => false
  end.


(** 2026-11-03T00:00:00, and a history one day old at that time. *)
Definition sample_now : Z := 739922 * 86400000000.
Definition sample_history : list Snapshot.t :=
  [Examples.entry_garbled; Examples.entry_at (sample_now - Examples.day)].

(** ** Rounding to two decimals *)

(** [k] is the integer nearest to [100 * m * 2^e], the even one of the
    two when that value lies halfway between them. *)
Definition nearest_hundredth (m : positive) (e k : Z) : Prop :=
  let num := 100 * Zpos m * 2 ^ Z.max e 0 in
  let den := 2 ^ Z.max (- e) 0 in
  2 * Z.abs (num - k * den) <= den
  /\ (2 * Z.abs (num - k * den) = den -> Z.even k = true).

(** The float for the decimal [k / 100] with the sign [s]: [x] when it is
    that decimal, else the quotient of the integers [k] and [100],
    correctly rounded. *)
Definition hundredths_float (s : bool) (m : positive) (e k : Z) (x : float)
    : float :=
  if 100 * Zpos m * 2 ^ Z.max e 0 =? k * 2 ^ Z.max (- e) 0 then x
  else
    match k with
    | Zpos p => SF2Prim (SF64div (S754_finite s p 0) (S754_finite false 100 0))
    | _ => if s then (-0)%float else 0%float
    end.

(** A window in which "web" runs in 2 of 3 snapshots, and its statistics. *)
Definition two_of_three : list Snapshot.t :=
  [Examples.web (Some "running"); Examples.web (Some "exited");
   Examples.web (Some "running")].

Definition two_of_three_stats : list (string * Stats.t) :=
  Eval vm_compute in
    match Reporter.analyze_container_health
            Examples.plain_sum two_of_three Examples.config with
    | Py.Ok stats => stats
    | Py.Raise _ => []
    end.

(** ** Further notions: the problem ranker *)

(** An entity has something to report. *)
Definition flagged (stats : Stats.t) : bool :=
  Py.lt (Stats.uptime_percent stats) 100%float
  || (Stats.total_restarts stats >? 0)
  || match Stats.errors stats with [] => false | _ :: _ => true end.

(** The record [identify_problematic_containers] appends for a flagged
    entity. *)
Definition problem_of (name : string) (stats : Stats.t) : Problem.t :=
  Problem.mk name (snd (Reporter.assess stats)) (fst (Reporter.assess stats))
    (take 3 (Stats.errors stats))
    (Problem.mk_summary (Stats.uptime_percent stats)
       (Stats.total_restarts stats) (Stats.avg_mem_mb stats)).

Definition has_severity (s : severity) (p : Problem.t) : bool :=
  Reporter.severity_order (Problem.severity_ p) =? Reporter.severity_order s.

(** ** Further notions: the entity health aggregation *)

(** [if x not in l: l.append(x)] *)
Definition add_unique (l : list string) (x : string) : list string :=
  if existsb (String.eqb x) l then l else l ++ [x].

(** The distinct strings of a list, each at its first occurrence. *)
Definition first_seen (l : list string) : list string :=
  fold_left add_unique l [].

(** The names carried by the records of a window. *)
Definition observed_names (seen : list Container.t) : list string :=
  omap Container.name seen.

(** The records of one entity, in the order they are met. *)
Definition records_of (name : string) (seen : list Container.t)
    : list Container.t :=
  List.filter (is_named name) seen.

(** The dictionary created for a name not met before. *)
Definition fresh_tally (name : string) : Tally.t :=
  Tally.mk name 0 0 0 [] [] [].

(** The non-zero sample a record contributes, if any. *)
Definition sample (field : option float) : list float :=
  match field with
  | Some v => if Py.truthy v then [v] else []
  | None => []
  end.

(** What one record of an entity does to the tally of that entity. *)
Definition tally_update (t : Tally.t) (c : Container.t) : Tally.t :=
  Tally.mk (Tally.name t)
    (if is_running c then Tally.uptime_checks t + 1 else Tally.uptime_checks t)
    (if is_running c then Tally.down_checks t else Tally.down_checks t + 1)
    (Z.max (Tally.total_restarts t) (Py.get (Container.restarts c) 0))
    (fold_left add_unique (Py.get (Container.errors c) []) (Tally.errors t))
    (Tally.mem_values t ++ sample (Container.mem_mb c))
    (Tally.cpu_values t ++ sample (Container.cpu_percent c)).

(** The tally of an entity computed from its own records. *)
Definition tally_of (name : string) (seen : list Container.t) : Tally.t :=
  fold_left tally_update (records_of name seen) (fresh_tally name).

(** [container_stats] after the records [seen]: its keys are the names in
    first-seen order, and under each name lies the tally of that entity's
    own records. *)
Definition aggregated (seen : list Container.t)
    (container_stats : list (string * Tally.t)) : Prop :=
  map fst container_stats = first_seen (observed_names seen)
  /\ forall name,
       Dict.lookup name container_stats =
       match records_of name seen with
       | [] => None
       | _ :: _ => Some (tally_of name seen)
       end.

Module Samples.

(** A record of container [name] with the given optional keys. *)
Definition record (name status : string) (restarts : option Z)
    (mem_mb : option float) (errors : option (list string)) : Container.t :=
  Container.mk (Some name) (Some status) restarts mem_mb None errors.

Definition snapshot (containers : list Container.t) : Snapshot.t :=
  Snapshot.mk None None None None (Some containers).

(** Two polls: "web" and "db", then "db" stopped and "web" with a repeated
    error line. *)
Definition window : list Snapshot.t :=
  [snapshot [record "web" "running" (Some 2) (Some 120%float) (Some ["E1"]);
             record "db" "running" None (Some 300%float) None];
   snapshot [record "db" "exited" (Some 4) (Some 0%float) (Some []);
             record "web" "running" (Some 1) None (Some ["E1"; "E2"])]].

Definition no_reporting : Config.t := Config.mk None.

(** What the aggregation returns on [window]. *)
Definition window_stats : list (string * Stats.t) :=
  Eval vm_compute in
    match Reporter.analyze_container_health Examples.plain_sum window
            Examples.config with
    | Py.Ok stats => stats
    | Py.Raise _ => []
    end.

(** [window] with the records of "db" left out. *)
Definition web_window : list Snapshot.t :=
  [snapshot [record "web" "running" (Some 2) (Some 120%float) (Some ["E1"])];
   snapshot [record "web" "running" (Some 1) None (Some ["E1"; "E2"])]].

Definition web_window_stats : list (string * Stats.t) :=
  Eval vm_compute in
    match Reporter.analyze_container_health Examples.plain_sum web_window
            Examples.config with
    | Py.Ok stats => stats
    | Py.Raise _ => []
    end.

End Samples.

(** ** [reporter.py]: top resource consumers *)

Module TopEntry.
Record t : Type := mk {
  name : string;
  avg : float;      (* 'avg_mb' or 'avg_percent' *)
  max : float;      (* 'max_mb' or 'max_percent' *)
}.
End TopEntry.

Module TopResources.
Record t : Type := mk {
  top_memory : list TopEntry.t;
  top_cpu : list TopEntry.t;
}.
End TopResources.

Module Ranking.

(** [sorted(values, key=key, reverse=True)], as the stable sort it is: an
    element goes in front of the first later element whose key is not
    greater than its own.  The list is built from its end.  This is what
    [sorted] returns when no key is NaN; with a NaN among the keys the
    order [sorted] produces is not determined by the comparisons alone. *)
Fixpoint insert_desc {A} (key : A -> float) (x : A) (sorted : list A)
    : list A :=
  match sorted with
  | [] => [x]
  | y :: rest =>
      if Py.lt (key x) (key y) then y :: insert_desc key x rest
      else x :: y :: rest
  end.

Definition sorted_desc {A} (key : A -> float) (values : list A) : list A :=
  fold_right (insert_desc key) [] values.

Definition get_top_resource_consumers
    (container_stats : list (string * Stats.t)) (config : Config.t)
    : Py.result TopResources.t :=
  reporting ← Py.getitem "reporting" (Config.reporting config);
  let top_n := Py.get (Reporting.top_memory_containers reporting) 5 in
  (* Sort by memory *)
  let by_memory :=
    Py.slice_to top_n (sorted_desc Stats.avg_mem_mb (map snd container_stats)) in
  (* Sort by CPU *)
  let by_cpu :=
    Py.slice_to top_n
      (sorted_desc Stats.avg_cpu_percent (map snd container_stats)) in
  mret (TopResources.mk
          (map (fun c => TopEntry.mk (Stats.name c) (Stats.avg_mem_mb c)
                           (Stats.max_mem_mb c)) by_memory)
          (map (fun c => TopEntry.mk (Stats.name c) (Stats.avg_cpu_percent c)
                           (Stats.max_cpu_percent c)) by_cpu)).

End Ranking.

(** A float that is a number. *)
Definition is_number (x : float) : Prop := Prim2SF x <> S754_nan.

(** Statistics of an entity with the given average memory, for samples. *)
Definition consumer (name : string) (avg_mem_mb : float) : string * Stats.t :=
  (name, Stats.mk name 1 0 0 [] [avg_mem_mb] [] 100%float
           avg_mem_mb avg_mem_mb 0%float 0%float).

(** [listed] is a selection of the largest keys of [all]: [all] splits
    into [listed] and a rest, [listed] is in descending key order, and no
    key of the rest exceeds a key of [listed]. *)
Definition top_selection {A} (key : A -> float) (listed all : list A) : Prop :=
  exists rest,
    Permutation (listed ++ rest) all
    /\ StronglySorted (fun a b => (key b <=? key a)%float = true) listed
    /\ forall x y, In x listed -> In y rest ->
                   (key y <=? key x)%float = true.

Definition memory_entry (c : Stats.t) : TopEntry.t :=
  TopEntry.mk (Stats.name c) (Stats.avg_mem_mb c) (Stats.max_mem_mb c).
Definition cpu_entry (c : Stats.t) : TopEntry.t :=
  TopEntry.mk (Stats.name c) (Stats.avg_cpu_percent c)
              (Stats.max_cpu_percent c).

(** ** [monitor.py] *)

(** [i >= x] for an integer and a float: Python compares the exact
    values. *)
Definition int_ge_float (i : Z) (x : float) : bool :=
  match Prim2SF x with
  | S754_nan => false
  | S754_infinity s => s
  | S754_zero _ => 0 <=? i
  | S754_finite s m e =>
      let v := if s then Zneg m else Zpos m in
      if 0 <=? e then v * 2 ^ e <=? i else v <=? i * 2 ^ (- e)
  end.

(** A container as [get_all_containers] lists it: the keys of
    [Container.t] and ['health']. *)
Module Listing.
Record t : Type := mk {
  info : Container.t;
  health : option string;
}.
End Listing.

(** The dictionary [collect_metrics] returns: the snapshot and the
    container counts beside it. *)
Module Collected.
Record t : Type := mk {
  snapshot : Snapshot.t;
  containers_total : option Z;
  containers_running : option Z;
  containers_stopped : option Z;
  containers_unhealthy : option Z;
}.
End Collected.

Module MonitorConfig.
Record t : Type := mk {
  thresholds : option (gmap string float);
}.
End MonitorConfig.

Module Monitor.

(** [len([c for c in containers if test(c['status'])])] *)
Definition count_status (test : string -> bool) (containers : list Listing.t)
    : Py.result Z :=
  Py.for_ containers
    (fun n c =>
       status ← Py.getitem "status" (Container.status (Listing.info c));
       mret (if test status then n + 1 else n)) 0.

(** [len([c for c in containers if c.get('health') == 'unhealthy'])] *)
Definition count_unhealthy (containers : list Listing.t) : Z :=
  Z.of_nat (length (List.filter
    (fun c => match Listing.health c with
              | Some h => String.eqb h "unhealthy"
              | None => false
              end) containers)).

(** [collect_metrics]: [now] is the clock reading, [cpu_percent],
    [ram_percent] and [disks] what [get_all_system_metrics] measured, and
    [docker] the list [get_all_containers] returned, or [None] when the
    [try] block raised before it (no ['docker'] section, no connection, a
    failed listing).  [get_docker_info] catches its own exceptions and
    [close] is taken not to raise.  The keys of the result that no embedded
    function reads are left out. *)
Definition collect_metrics (now : Z) (cpu_percent ram_percent : float)
    (disks : list Disk.t) (docker : option (list Listing.t))
    : Py.result Collected.t :=
  let snapshot containers :=
    Snapshot.mk (Some (datetime.isoformat now)) (Some cpu_percent)
      (Some ram_percent) (Some disks) containers in
  let metrics :=
    match docker with
    | Some containers =>
        let listed := Some (map Listing.info containers) in
        let total := Some (Z.of_nat (length containers)) in
        match
          running ← count_status (fun s => String.eqb s "running") containers;
          stopped ← count_status (fun s => negb (String.eqb s "running"))
                      containers;
          mret (running, stopped)
        with
        | Py.Ok (running, stopped) =>
            Collected.mk (snapshot listed) total (Some running) (Some stopped)
              (Some (count_unhealthy containers))
        | Py.Raise _ =>
            (* except Exception: the keys set so far stay *)
            Collected.mk (snapshot (Some [])) total None None None
        end
    | None =>
        Collected.mk (snapshot (Some [])) None None None None
    end in
  (* logger.info(f"... {metrics['containers_total']} containers ...") *)
  _ ← Py.getitem "containers_total" (Collected.containers_total metrics);
  mret metrics.

Inductive alert_message : Type :=
| Violation (msg : SystemMetrics.message)
| ContainersStopped (stopped : Z)        (* "{stopped} container(s) stopped" *)
| ContainersUnhealthy (unhealthy : Z)    (* "{unhealthy} container(s) unhealthy" *)
| ContainerRestarts (name : string) (restarts : Z).
                                         (* "{name}: {restarts} restarts" *)

Record alert : Type := mk_alert {
  has_critical : bool;
  critical_issues : list alert_message;
  warnings : list alert_message;
}.

Definition analyze_for_critical_alerts (metrics : Collected.t)
    (config : MonitorConfig.t) : Py.result alert :=
  let alert := mk_alert false [] [] in
  thresholds ← Py.getitem "thresholds" (MonitorConfig.thresholds config);
  (* Check system thresholds *)
  violations ←
    SystemMetrics.check_thresholds (Collected.snapshot metrics) thresholds;
  let alert :=
    match SystemMetrics.critical violations with
    | [] => alert
    | _ :: _ =>
        mk_alert true
          (critical_issues alert
           ++ map Violation (SystemMetrics.critical violations))
          (warnings alert)
    end in
  let alert :=
    mk_alert (has_critical alert) (critical_issues alert)
      (warnings alert ++ map Violation (SystemMetrics.warnings violations)) in
  (* Check for stopped containers *)
  let stopped := Py.get (Collected.containers_stopped metrics) 0 in
  let alert :=
    if stopped >? 0
    then mk_alert (has_critical alert) (critical_issues alert)
           (warnings alert ++ [ContainersStopped stopped])
    else alert in
  (* Check for unhealthy containers *)
  let unhealthy := Py.get (Collected.containers_unhealthy metrics) 0 in
  let alert :=
    if unhealthy >? 0
    then mk_alert true
           (critical_issues alert ++ [ContainersUnhealthy unhealthy])
           (warnings alert)
    else alert in
  (* Check for containers with high restart counts *)
  Py.for_
    (Py.get (Snapshot.containers (Collected.snapshot metrics)) [])
    (fun alert container =>
       let restarts := Py.get (Container.restarts container) 0 in
       if int_ge_float restarts
            (Py.dict_get thresholds "container_restart_critical" 5%float)
       then
         name ← Py.getitem "name" (Container.name container);
         mret (mk_alert true
                 (critical_issues alert ++ [ContainerRestarts name restarts])
                 (warnings alert))
       else if int_ge_float restarts
                 (Py.dict_get thresholds "container_restart_warning" 3%float)
       then
         name ← Py.getitem "name" (Container.name container);
         mret (mk_alert (has_critical alert) (critical_issues alert)
                 (warnings alert ++ [ContainerRestarts name restarts]))
       else mret alert)
    alert.

End Monitor.

(** A listing entry with a name, a status and a health. *)
Definition listed (name status : string) (health : option string)
    : Listing.t :=
  Listing.mk
    (Container.mk (Some name) (Some status) (Some 0) None None None) health.

(** The alert level of a container's restart count under a threshold
    configuration. *)
Definition restart_level (thresholds : gmap string float)
    (container : Container.t) : option severity :=
  let restarts := Py.get (Container.restarts container) 0 in
  if int_ge_float restarts
       (Py.dict_get thresholds "container_restart_critical" 5%float)
  then Some critical
  else if int_ge_float restarts
            (Py.dict_get thresholds "container_restart_warning" 3%float)
  then Some warning
  else None.

(** The restart messages of one level, in container order. *)
Definition restart_messages (level : severity)
    (thresholds : gmap string float) (containers : list Container.t)
    : list Monitor.alert_message :=
  flat_map (fun c =>
    match restart_level thresholds c, level, Container.name c with
    | Some critical, critical, Some name
    | Some warning, warning, Some name =>
        [Monitor.ContainerRestarts name (Py.get (Container.restarts c) 0)]
    | _, _, _ => []
    end) containers.

(** A container whose restart count calls for a message carries a name. *)
Definition nameable (thresholds : gmap string float) (c : Container.t)
    : Prop :=
  restart_level thresholds c = None \/ is_Some (Container.name c).

(** The containers an alert analysis looks at. *)
Definition alert_containers (metrics : Collected.t) : list Container.t :=
  Py.get (Snapshot.containers (Collected.snapshot metrics)) [].

(** A poll: a snapshot with the given CPU reading and containers, and the
    counters of stopped and unhealthy containers. *)
Definition poll (cpu : float) (containers : list Container.t)
    (stopped unhealthy : Z) : Collected.t :=
  Collected.mk
    (Snapshot.mk None (Some cpu) None None (Some containers))
    (Some (Z.of_nat (length containers))) None (Some stopped)
    (Some unhealthy).

Definition with_thresholds (thresholds : gmap string float)
    : MonitorConfig.t :=
  MonitorConfig.mk (Some thresholds).

(** ** [utils/docker_client.py]: error lines of a container log *)

(** A text is a [string] whose characters stand for code points below
    256; [len], slices and [strip] work on characters. *)
Module Text.

(** The characters [str.strip()] removes. *)
Definition is_space (c : Ascii.ascii) : bool :=
  let n := Ascii.nat_of_ascii c in
  ((9 <=? n) && (n <=? 13) || (28 <=? n) && (n <=? 32)
   || (n =? 133) || (n =? 160))%nat.

Fixpoint lstrip_chars (l : list Ascii.ascii) : list Ascii.ascii :=
  match l with
  | c :: rest => if is_space c then lstrip_chars rest else l
  | [] => []
  end.

(** [s.strip()] *)
Definition strip (s : string) : string :=
  String.string_of_list_ascii
    (rev (lstrip_chars (rev (lstrip_chars (String.list_ascii_of_string s))))).

(** [s.split('\n')] *)
Fixpoint split_lines (s : string) : list string :=
  match s with
  | EmptyString => [EmptyString]
  | String c rest =>
      if Ascii.eqb c (Ascii.ascii_of_nat 10) then EmptyString :: split_lines rest
      else match split_lines rest with
           | line :: lines => String c line :: lines
           | [] => [String c EmptyString]
           end
  end.

(** [re.search(pattern, s)] for a pattern that is a literal. *)
Fixpoint search (pattern s : string) : bool :=
  String.prefix pattern s
  || match s with
     | EmptyString => false
     | String _ rest => search pattern rest
     end.

(** [s[:n]] for [n >= 0] *)
Definition slice_to (n : nat) (s : string) : string :=
  String.string_of_list_ascii (take n (String.list_ascii_of_string s)).

End Text.

Module DockerMonitor.

(** The patterns, each a literal: [ERR\]] matches the text [ERR]]. *)
Definition error_patterns : list string :=
  ["ERROR"; "Error"; "error:"; "ERR]"; "CRITICAL"; "Exception"; "Failed";
   "failed"; "WARN"; "Warning"]%string.

(** [_get_container_errors], from the decoded log text on: [logs] is
    [None] when reading the log raised. *)
Definition _get_container_errors (logs : option string) : list string :=
  match logs with
  | Some logs =>
      let errors :=
        fold_left (fun errors line =>
          let line := Text.strip line in
          if existsb (fun pattern => Text.search pattern line) error_patterns
          then
            (* Limit line length *)
            let line :=
              if (200 <? String.length line)%nat
              then (Text.slice_to 197 line ++ "...")%string
              else line in
            errors ++ [line]
          else errors) (Text.split_lines logs) [] in
      (* Return unique errors (deduplicate) *)
      take 10 (first_seen errors)
  | None => []
  end.

End DockerMonitor.

(** A stripped log line that matches one of the patterns. *)
Definition error_line (logs line : string) : Prop :=
  exists raw,
    In raw (Text.split_lines logs) /\ line = Text.strip raw
    /\ existsb (fun pattern => Text.search pattern line)
         DockerMonitor.error_patterns = true.

(** A tab, an error line, a clean line, the error line again with
    trailing blanks, and a warning. *)
Definition sample_log : string :=
  let nl := String (Ascii.ascii_of_nat 10) EmptyString in
  (String (Ascii.ascii_of_nat 9) "ERROR disk full" ++ nl ++ "all good" ++ nl
   ++ "ERROR disk full  " ++ nl ++ "Warning: slow")%string.
(** * Properties of the retention store *)

Section Loops.
Context {A : Type}.

(** A loop that appends the elements passing a test computes a filter. *)
Lemma fold_left_append_filter (body : list A -> A -> list A)
    (test : A -> bool) :
  (forall acc x, body acc x = if test x then acc ++ [x] else acc) ->
  forall l acc, fold_left body l acc = acc ++ List.filter test l.
Proof.
  intros Hbody l. induction l as [|x l IH]; intros acc; simpl.
  - by rewrite app_nil_r.
  - rewrite IH, Hbody. destruct (test x); [|done].
    by rewrite <- app_assoc.
Qed.

Lemma filter_sublist (test : A -> bool) (l : list A) :
  sublist (List.filter test l) l.
Proof.
  induction l as [|x l IH]; simpl; [constructor|].
  destruct (test x); by constructor.
Qed.

End Loops.

Section Store.
Import HealthStorage.

Lemma cleanup_filter self now history :
  _cleanup_old_entries self now history =
  List.filter
    (survives (now - datetime.timedelta_days (retention_days self)))
    history.
Proof.
  unfold _cleanup_old_entries.
  rewrite fold_left_append_filter with
    (test := survives (now - datetime.timedelta_days (retention_days self)));
    [done|].
  intros acc x. unfold survives, parsed_time, entry_time.
  destruct (Snapshot.timestamp x) as [[t|raw]|]; simpl; done.
Qed.

Lemma last_24h_filter self now :
  get_last_24h self now = List.filter (in_last_24h now) (load_history self).
Proof.
  unfold get_last_24h.
  rewrite fold_left_append_filter with (test := in_last_24h now); [done|].
  intros acc x. unfold in_last_24h, parsed_time, entry_time.
  destruct (Snapshot.timestamp x) as [[t|raw]|]; simpl; done.
Qed.

Lemma load_add_entry self now0 now entry :
  load_history (add_entry self now0 now entry) =
  List.filter
    (survives (now - datetime.timedelta_days (retention_days self)))
    (load_history self ++ [stamped now0 entry]).
Proof.
  unfold add_entry. fold (stamped now0 entry).
  unfold _write_history, load_history at 1. simpl.
  apply cleanup_filter.
Qed.

Lemma retention_add_entry self now0 now entry :
  retention_days (add_entry self now0 now entry) = retention_days self.
Proof. done. Qed.

Lemma retention_add_entries ops : forall self,
  retention_days (add_entries self ops) = retention_days self.
Proof.
  induction ops as [|[[now0 now] e] ops IH]; intros self; simpl; [done|].
  by rewrite IH.
Qed.

Lemma get_latest_last self : get_latest_entry self = last (load_history self).
Proof. unfold get_latest_entry. by destruct (load_history self). Qed.
End Store.

Section StoreClaims.
Import HealthStorage.

(** C3 (age-bounded retention).  Take a store with a horizon of 7 days in
    any state reached by a run of appends, and append once more, the
    cleanup reading the clock at [now].  Every entry then retained whose
    timestamp parses is at most 7 days older than [now]; an entry stamped
    8 days before [now] is gone from [load_history]; an entry stamped 6
    days before [now] that was stored is still there; more generally no
    stored entry within the horizon is removed. *)
Theorem retention_seven_days (f : file) (ops : list (Z * Z * Snapshot.t))
    (now0 now : Z) (entry : Snapshot.t) :
  let self := add_entries (HealthStorage.mk f 7) ops in
  let retained := load_history (add_entry self now0 now entry) in
  (forall x t, In x retained -> parsed_time x = Some t ->
               now - datetime.timedelta_days 7 <= t)
  /\ (forall x, parsed_time x = Some (now - datetime.timedelta_days 8) ->
                ~ In x retained)
  /\ (forall x, In x (load_history self) ->
                parsed_time x = Some (now - datetime.timedelta_days 6) ->
                In x retained)
  /\ (forall x t, In x (load_history self) -> parsed_time x = Some t ->
                  now - datetime.timedelta_days 7 <= t -> In x retained).
Proof.
  intros self retained.
  assert (Hret : retention_days self = 7)
    by (unfold self; by rewrite retention_add_entries).
  assert (Hin : forall x, In x retained <->
            In x (load_history self ++ [stamped now0 entry]) /\
            survives (now - datetime.timedelta_days 7) x = true).
  { intros x. unfold retained. rewrite load_add_entry, Hret.
    apply filter_In. }
  assert (Hold : forall x t, In x retained -> parsed_time x = Some t ->
                   now - datetime.timedelta_days 7 <= t).
  { intros x t [_ Hs]%Hin Ht. unfold survives in Hs. rewrite Ht in Hs. lia. }
  assert (Hkeep : forall x t, In x (load_history self) ->
            parsed_time x = Some t ->
            now - datetime.timedelta_days 7 <= t -> In x retained).
  { intros x t Hx Ht Hle. apply Hin. split.
    - apply in_or_app. by left.
    - unfold survives. rewrite Ht. lia. }
  repeat split.
  - exact Hold.
  - intros x Ht Hx. specialize (Hold x _ Hx Ht).
    unfold datetime.timedelta_days in Hold. lia.
  - intros x Hx Ht. apply (Hkeep x _ Hx Ht).
    unfold datetime.timedelta_days. lia.
  - exact Hkeep.
Qed.

(** C4, as amended.  [get_last_24h] returns exactly the entries of the
    stored history, in storage order, whose timestamp parses and is not
    earlier than [now - 24h]; there is no upper bound. *)
Theorem get_last_24h_lower_bound (self : HealthStorage.t) (now : Z) :
  get_last_24h self now = List.filter (in_last_24h now) (load_history self)
  /\ sublist (get_last_24h self now) (load_history self)
  /\ (forall x, In x (get_last_24h self now) <->
        In x (load_history self) /\
        exists t, parsed_time x = Some t /\
                  now - datetime.timedelta_hours 24 <= t).
Proof.
  rewrite last_24h_filter. split; [done|]. split; [apply filter_sublist|].
  intros x. rewrite filter_In. unfold in_last_24h.
  split; intros [Hx H]; (split; [done|]).
  - destruct (parsed_time x) as [t|]; [|done]. exists t. split; [done|lia].
  - destruct H as (t & -> & Hle). lia.
Qed.


Lemma retention_seven_days_witness :
  let store :=
    HealthStorage.mk
      (Document [Examples.entry_at (2 * Examples.day);
                 Examples.entry_at (4 * Examples.day)]) 7 in
  let now := 10 * Examples.day in
  let retained :=
    load_history (add_entry store now now Examples.entry_unstamped) in
  ~ In (Examples.entry_at (2 * Examples.day)) retained
  /\ In (Examples.entry_at (4 * Examples.day)) retained.
Proof.
  intros store now retained.
  destruct (retention_seven_days
              (Document [Examples.entry_at (2 * Examples.day);
                         Examples.entry_at (4 * Examples.day)])
              [] now now Examples.entry_unstamped) as (_ & H8 & H6 & _).
  split.
  - apply H8. reflexivity.
  - apply H6; [simpl; auto | reflexivity].
Defined.

Lemma get_last_24h_lower_bound_witness :
  In (Examples.entry_at (10 * Examples.day))
     (get_last_24h
        (HealthStorage.mk
           (Document [Examples.entry_at (10 * Examples.day)]) 7)
        (10 * Examples.day)).
Proof.
  apply (proj2 (proj2 (get_last_24h_lower_bound _ _))).
  split; [simpl; auto|]. exists (10 * Examples.day).
  split; [reflexivity | vm_compute; discriminate].
Defined.

(** C4, the claim on an entry stamped after [now]: [get_last_24h] returns
    it, although it lies outside [[now - 24h, now]]. *)
Lemma get_last_24h_future_counterexample :
  let now := 10 * Examples.day in
  let store :=
    HealthStorage.mk (Document [Examples.entry_at (now + 1)]) 7 in
  get_last_24h store now = [Examples.entry_at (now + 1)]
  /\ List.filter (in_closed_window now) (load_history store) = []
  /\ get_last_24h store now
     <> List.filter (in_closed_window now) (load_history store).
Proof. by vm_compute. Qed.


End StoreClaims.

(** * Properties of the threshold evaluator *)

Section Thresholds.
Lemma disks_loop (thresholds : gmap string float)
    (cw := Py.dict_get thresholds "disk_warning" 80%float)
    (cc := Py.dict_get thresholds "disk_critical" 90%float) :
  forall disks ds v,
    mapM disk_fields disks = Some ds ->
    Py.for_ disks
      (fun violations disk =>
         used ← Py.getitem "used_percent" (Disk.used_percent disk);
         mount ← Py.getitem "mount" (Disk.mount disk);
         mret (
           if Py.ge used (Py.dict_get thresholds "disk_critical" 90%float)
           then SystemMetrics.append_critical violations
                (SystemMetrics.DiskCritical mount used)
           else if Py.ge used (Py.dict_get thresholds "disk_warning" 80%float)
           then SystemMetrics.append_warning violations
                (SystemMetrics.DiskHigh mount used)
           else violations)) v
    = Py.Ok (SystemMetrics.mk
        (SystemMetrics.warnings v ++ flat_map (fun '(mount, used) =>
           reported warning (classify cw cc used) (SystemMetrics.DiskHigh mount used)) ds)
        (SystemMetrics.critical v ++ flat_map (fun '(mount, used) =>
           reported critical (classify cw cc used)
                    (SystemMetrics.DiskCritical mount used)) ds)).
Proof.
  intros disks ds v Hds. apply mapM_Some in Hds. revert v.
  induction Hds as [|d [mount used] disks ds Hd _ IH]; intros v.
  - destruct v. simpl. by rewrite !app_nil_r.
  - unfold disk_fields in Hd.
    destruct (Disk.mount d) as [mount'|] eqn:Hm; [|done].
    destruct (Disk.used_percent d) as [used'|] eqn:Hu; [|done].
    injection Hd as -> ->. simpl. rewrite Hu, Hm. simpl.
    rewrite IH. f_equal.
    unfold classify, Py.ge. fold cw cc.
    destruct (cc <=? used)%float; [|destruct (cw <=? used)%float];
      simpl; by rewrite <- ?app_assoc, ?app_nil_r.
Qed.

(** What [check_thresholds] computes, for any configuration. *)
Lemma check_thresholds_effective metrics thresholds ds :
  mapM disk_fields (Py.get (Snapshot.disks metrics) []) = Some ds ->
  SystemMetrics.check_thresholds metrics thresholds =
  Py.Ok (expected_violations (effective_levels thresholds)
           (Py.get (Snapshot.cpu_percent metrics) 0%float)
           (Py.get (Snapshot.ram_percent metrics) 0%float) ds).
Proof.
  intros Hds. unfold SystemMetrics.check_thresholds.
  rewrite (disks_loop thresholds _ ds _ Hds).
  unfold expected_violations, effective_levels, classify, Py.ge. simpl.
  repeat match goal with
         | |- context [if (?a <=? ?b)%float then _ else _] =>
             destruct (a <=? b)%float
         end; simpl; reflexivity.
Qed.
End Thresholds.

Section ThresholdClaims.

Lemma dict_get_union_builtin (thresholds : gmap string float) key dflt :
  levels_dict builtin_levels !! key = Some dflt ->
  Py.dict_get (thresholds ∪ levels_dict builtin_levels) key dflt =
  Py.dict_get thresholds key dflt.
Proof.
  intros Hb. unfold Py.dict_get.
  destruct (thresholds !! key) as [v|] eqn:Ht.
  - by rewrite (lookup_union_Some_l _ _ _ _ Ht).
  - rewrite lookup_union_r by done. by rewrite Hb.
Qed.

Lemma configures_effective thresholds l :
  configures thresholds l -> effective_levels thresholds = l.
Proof.
  intros (H1 & H2 & H3 & H4 & H5 & H6). unfold effective_levels, Py.dict_get.
  rewrite H1, H2, H3, H4, H5, H6. by destruct l.
Qed.

Lemma in_reported bucket c msg x :
  In x (reported bucket c msg) <-> x = msg /\ c = Some bucket /\ bucket <> info.
Proof.
  unfold reported.
  destruct c as [[]|], bucket; simpl; split; intros H;
    try (destruct H as [H|H]; [|done]); try done;
    try (destruct H as (-> & ? & ?); try done; by left);
    try (split; [done|split; done]).
Qed.

(** C7 (threshold classification).  With the six levels configured and
    every disk record complete, [check_thresholds] reports, for CPU, RAM
    and each disk, what the rule "critical from the critical level up,
    else warning from the warning level up, else nothing" gives for that
    value alone; a disk has a message in a bucket exactly when its own
    value is classified so.  CPU 96, 82 and 50 against warning 80 and
    critical 95 are critical (and no warning), warning, and nothing. *)
Theorem threshold_classification :
  (forall metrics thresholds l ds,
     configures thresholds l ->
     mapM disk_fields (Py.get (Snapshot.disks metrics) []) = Some ds ->
     SystemMetrics.check_thresholds metrics thresholds =
     Py.Ok (expected_violations l
              (Py.get (Snapshot.cpu_percent metrics) 0%float)
              (Py.get (Snapshot.ram_percent metrics) 0%float) ds))
  /\ (forall l cpu ram ds mount used,
        In (mount, used) ds ->
        let v := expected_violations l cpu ram ds in
        (In (SystemMetrics.DiskCritical mount used) (SystemMetrics.critical v)
         <-> classify (disk_warning l) (disk_critical l) used = Some critical)
        /\ (In (SystemMetrics.DiskHigh mount used) (SystemMetrics.warnings v)
            <-> classify (disk_warning l) (disk_critical l) used
                = Some warning))
  /\ SystemMetrics.check_thresholds
       (Examples.cpu_only 96%float) Examples.cpu_levels
     = Py.Ok (SystemMetrics.mk [] [SystemMetrics.CpuCritical 96%float])
  /\ SystemMetrics.check_thresholds
       (Examples.cpu_only 82%float) Examples.cpu_levels
     = Py.Ok (SystemMetrics.mk [SystemMetrics.CpuHigh 82%float] [])
  /\ SystemMetrics.check_thresholds
       (Examples.cpu_only 50%float) Examples.cpu_levels
     = Py.Ok (SystemMetrics.mk [] []).
Proof.
  split; [|split; [|by vm_compute]].
  - intros metrics thresholds l ds Hl Hds.
    rewrite (check_thresholds_effective _ _ _ Hds).
    by rewrite (configures_effective _ _ Hl).
  - intros l cpu ram ds mount used Hin v. unfold v, expected_violations.
    simpl. rewrite !in_app_iff, !in_reported, !in_flat_map. split.
    + split.
      * intros [(? & _)|[(? & _)|((m & u) & _ & (Heq & Hc & _)%in_reported)]];
          try discriminate.
        by injection Heq as -> ->.
      * intros Hc. right; right. exists (mount, used). split; [done|].
        apply in_reported. by rewrite Hc.
    + split.
      * intros [(? & _)|[(? & _)|((m & u) & _ & (Heq & Hc & _)%in_reported)]];
          try discriminate.
        by injection Heq as -> ->.
      * intros Hc. right; right. exists (mount, used). split; [done|].
        apply in_reported. by rewrite Hc.
Qed.

(** C2, as amended.  A level the configuration does not supply is not a
    skipped check: [check_thresholds] uses its built-in level in its
    place (CPU 80/95, RAM 85/95, disk 80/90).  So the result is the same
    as with the built-in levels added to the configuration, and with an
    empty configuration every metric is classified against the built-in
    levels. *)
Theorem unconfigured_levels_fall_back (metrics : Snapshot.t)
    (thresholds : gmap string float) :
  SystemMetrics.check_thresholds metrics thresholds =
  SystemMetrics.check_thresholds metrics
    (thresholds ∪ levels_dict builtin_levels)
  /\ (forall ds,
        mapM disk_fields (Py.get (Snapshot.disks metrics) []) = Some ds ->
        SystemMetrics.check_thresholds metrics ∅ =
        Py.Ok (expected_violations builtin_levels
                 (Py.get (Snapshot.cpu_percent metrics) 0%float)
                 (Py.get (Snapshot.ram_percent metrics) 0%float) ds)).
Proof.
  split.
  - unfold SystemMetrics.check_thresholds.
    rewrite !dict_get_union_builtin by done. done.
  - intros ds Hds. by rewrite (check_thresholds_effective _ _ _ Hds).
Qed.
Lemma threshold_classification_witness :
  SystemMetrics.check_thresholds Examples.two_disks
    (levels_dict builtin_levels)
  = Py.Ok (SystemMetrics.mk
             [SystemMetrics.DiskHigh "/data" 85]
             [SystemMetrics.DiskCritical "/" 95]).
Proof.
  apply (proj1 threshold_classification Examples.two_disks
           (levels_dict builtin_levels) builtin_levels
           [("/", 95%float); ("/data", 85%float)]).
  - repeat split; reflexivity.
  - reflexivity.
Defined.

Lemma unconfigured_levels_fall_back_witness :
  SystemMetrics.check_thresholds Examples.two_disks ∅
  = Py.Ok (SystemMetrics.mk
             [SystemMetrics.DiskHigh "/data" 85]
             [SystemMetrics.DiskCritical "/" 95]).
Proof.
  apply (proj2 (unconfigured_levels_fall_back Examples.two_disks ∅)
           [("/", 95%float); ("/data", 85%float)]).
  reflexivity.
Defined.

(** C2, the claim on an empty configuration: a CPU reading of 96, for
    which no level is configured, is reported critical. *)
Lemma unconfigured_metric_counterexample :
  (∅ : gmap string float) !! "cpu_warning" = None
  /\ (∅ : gmap string float) !! "cpu_critical" = None
  /\ SystemMetrics.check_thresholds (Examples.cpu_only 96) ∅
     = Py.Ok (SystemMetrics.mk [] [SystemMetrics.CpuCritical 96]).
Proof. by vm_compute. Qed.
End ThresholdClaims.

(** * Order on binary64 values *)

Section FloatOrder.

Lemma SFcompare_antisym (x y : spec_float) :
  SFcompare y x = option_map CompOpp (SFcompare x y).
Proof.
  destruct x as [sx|sx| |sx mx ex], y as [sy|sy| |sy my ey]; simpl;
    try destruct sx; try destruct sy; simpl; try reflexivity.
  - rewrite (Z.compare_antisym ex ey).
    destruct (ex ?= ey)%Z; simpl; try reflexivity.
    by rewrite (Pos.compare_cont_antisym mx my Eq).
  - rewrite (Z.compare_antisym ex ey).
    destruct (ex ?= ey)%Z; simpl; try reflexivity.
    by rewrite (Pos.compare_cont_antisym mx my Eq).
Qed.

Lemma SFcompare_None (x y : spec_float) :
  SFcompare x y = None -> x = S754_nan \/ y = S754_nan.
Proof.
  destruct x as [sx|sx| |sx mx ex], y as [sy|sy| |sy my ey]; simpl;
    try destruct sx; try destruct sy; simpl; try discriminate; auto.
Qed.

(** On numbers, [y < x] is the negation of [x <= y]. *)
Lemma ltb_negb_leb (x y : float) :
  Prim2SF x <> S754_nan -> Prim2SF y <> S754_nan ->
  (y <? x)%float = negb (x <=? y)%float.
Proof.
  intros Hx Hy. rewrite ltb_spec, leb_spec. unfold SFltb, SFleb.
  rewrite (SFcompare_antisym (Prim2SF x) (Prim2SF y)).
  destruct (SFcompare (Prim2SF x) (Prim2SF y)) as [[]|] eqn:Hc; try done.
  by destruct (SFcompare_None _ _ Hc).
Qed.

Lemma ltb_true_number (x y : float) :
  (x <? y)%float = true -> Prim2SF x <> S754_nan.
Proof.
  rewrite ltb_spec. unfold SFltb. intros H Hx. rewrite Hx in H.
  done.
Qed.
End FloatOrder.

(** * Properties of the problem ranker *)

Section Ranker.

Lemma number_90 : Prim2SF 90%float <> S754_nan.
Proof. by vm_compute. Qed.

(** The severity the uptime check assigns to a flagged entity. *)
Lemma check_uptime_flagged stats issues sev :
  (Stats.uptime_percent stats <? 100)%float = true ->
  Reporter.check_uptime stats (issues, sev) =
  (issues ++ [UptimeIssue (Stats.uptime_percent stats)],
   if (Stats.uptime_percent stats <=? 90)%float then critical else warning).
Proof.
  intros Hlt. unfold Reporter.check_uptime, Py.lt, Py.gt. rewrite Hlt.
  rewrite (ltb_negb_leb _ _ (ltb_true_number _ _ Hlt) number_90).
  by destruct (Stats.uptime_percent stats <=? 90)%float.
Qed.

(** C1, on the code.  For an entity whose uptime is in the critical band
    and whose restart count is 3 or 4, the uptime check assigns
    [critical] and the restart check then replaces it by [warning], which
    is the severity reported. *)
Theorem restarts_lower_critical_uptime (stats : Stats.t) :
  (Stats.uptime_percent stats <? 100)%float = true ->
  (Stats.uptime_percent stats <=? 90)%float = true ->
  3 <= Stats.total_restarts stats < 5 ->
  snd (Reporter.check_uptime stats ([], info)) = critical
  /\ snd (Reporter.assess stats) = warning.
Proof.
  intros Hlt Hle Hr. unfold Reporter.assess.
  rewrite (check_uptime_flagged _ _ _ Hlt), Hle. split; [done|].
  unfold Reporter.check_restarts, Reporter.check_errors.
  replace (Stats.total_restarts stats >? 0) with true by lia.
  replace (Stats.total_restarts stats >=? 5) with false by lia.
  replace (Stats.total_restarts stats >=? 3) with true by lia.
  by destruct (Stats.errors stats).
Qed.

Lemma restarts_lower_critical_uptime_witness :
  snd (Reporter.check_uptime (Examples.stats_of 50 3 []) ([], info))
    = critical
  /\ snd (Reporter.assess (Examples.stats_of 50 3 [])) = warning.
Proof.
  apply (restarts_lower_critical_uptime (Examples.stats_of 50 3 []));
    [reflexivity | reflexivity | simpl; lia].
Defined.

(** C6, as amended.  For an entity flagged by the uptime check
    ([uptime_percent < 100]) the severity of that check is [critical] when
    [uptime_percent <= 90] and [warning] when [90 < uptime_percent]; at
    exactly 90 it is [critical]. *)
Theorem uptime_bands (stats : Stats.t) (issues : list issue)
    (sev : severity) :
  (Stats.uptime_percent stats <? 100)%float = true ->
  ((Stats.uptime_percent stats <=? 90)%float = true ->
     snd (Reporter.check_uptime stats (issues, sev)) = critical)
  /\ ((90 <? Stats.uptime_percent stats)%float = true ->
        snd (Reporter.check_uptime stats (issues, sev)) = warning)
  /\ ((Stats.uptime_percent stats <=? 90)%float = true
      \/ (90 <? Stats.uptime_percent stats)%float = true)
  /\ (Stats.uptime_percent stats = 90%float ->
        snd (Reporter.check_uptime stats (issues, sev)) = critical).
Proof.
  intros Hlt. rewrite (check_uptime_flagged _ _ _ Hlt). simpl.
  rewrite (ltb_negb_leb _ _ (ltb_true_number _ _ Hlt) number_90).
  destruct (Stats.uptime_percent stats <=? 90)%float eqn:Hle; simpl.
  - repeat split; try done. by left.
  - repeat split; try done; [by right|].
    intros H90. rewrite H90 in Hle. by vm_compute in Hle.
Qed.

Lemma uptime_bands_witness :
  snd (Reporter.check_uptime (Examples.stats_of 95 0 []) ([], info))
    = warning
  /\ snd (Reporter.check_uptime (Examples.stats_of 90 0 []) ([], info))
    = critical.
Proof.
  split.
  - apply (uptime_bands (Examples.stats_of 95 0 []) [] info);
      reflexivity.
  - apply (uptime_bands (Examples.stats_of 90 0 []) [] info);
      reflexivity.
Defined.

(** C6, the claim at uptime 90: the uptime check assigns [critical], not
    [warning], and that is the severity reported. *)
Lemma uptime_90_counterexample :
  (Stats.uptime_percent (Examples.stats_of 90 0 []) <? 100)%float = true
  /\ snd (Reporter.check_uptime (Examples.stats_of 90 0 []) ([], info))
     <> warning
  /\ map Problem.severity_
       (Reporter.identify_problematic_containers
          [("web", Examples.stats_of 90 0 [])]) = [critical].
Proof. by vm_compute. Qed.
End Ranker.

(** * Properties of the entity health aggregation *)

Section Dictionaries.
Context {V : Type}.

Lemma lookup_store (k k' : string) (v : V) (d : list (string * V)) :
  Dict.lookup k (Dict.store k' v d) =
  if String.eqb k k' then Some v else Dict.lookup k d.
Proof.
  induction d as [|[k0 w] d IH]; simpl.
  - done.
  - destruct (String.eqb k' k0) eqn:E0; simpl.
    + apply String.eqb_eq in E0 as ->.
      by destruct (String.eqb k k0).
    + rewrite IH. destruct (String.eqb k k0) eqn:E1; [|done].
      apply String.eqb_eq in E1 as ->.
      rewrite String.eqb_sym in E0. by rewrite E0.
Qed.

Lemma lookup_snoc (k k' : string) (v : V) (d : list (string * V)) :
  Dict.lookup k (d ++ [(k', v)]) =
  match Dict.lookup k d with
  | Some w => Some w
  | None => if String.eqb k k' then Some v else None
  end.
Proof.
  induction d as [|[k0 w] d IH]; simpl; [done|].
  by destruct (String.eqb k k0).
Qed.
End Dictionaries.

Section Loops2.
Context {A S : Type}.

Lemma for_app (body : S -> A -> Py.result S) (l1 l2 : list A) (s : S) :
  Py.for_ (l1 ++ l2) body s = Py.bind (Py.for_ l1 body s) (Py.for_ l2 body).
Proof.
  revert s. induction l1 as [|x l1 IH]; intros s; simpl; [done|].
  destruct (body s x) as [s'|e]; simpl; [apply IH|done].
Qed.

Lemma for_map {B} (f : B -> A) (body : S -> A -> Py.result S)
    (l : list B) (s : S) :
  Py.for_ (map f l) body s = Py.for_ l (fun s x => body s (f x)) s.
Proof.
  revert s. induction l as [|x l IH]; intros s; simpl; [done|].
  destruct (body s (f x)) as [s'|e]; simpl; [apply IH|done].
Qed.

Lemma for_ext (body body' : S -> A -> Py.result S) (l : list A) (s : S) :
  (forall s x, body s x = body' s x) ->
  Py.for_ l body s = Py.for_ l body' s.
Proof.
  intros Hb. revert s. induction l as [|x l IH]; intros s; simpl; [done|].
  rewrite Hb. destruct (body' s x) as [s'|e]; simpl; [apply IH|done].
Qed.
End Loops2.

Section Aggregation.
Variable py_sum : list float -> float.

(** The nested loops visit the records of [observations]. *)
Lemma first_loop_flat (history : list Snapshot.t) :
  forall cs,
    Py.for_ history
      (fun container_stats entry =>
         Py.for_ (Py.get (Snapshot.containers entry) [])
                 (Reporter.observe) container_stats) cs
    = Py.for_ (observations history) Reporter.observe cs.
Proof.
  induction history as [|entry history IH]; intros cs; simpl; [done|].
  rewrite for_app.
  destruct (Py.for_ (Py.get (Snapshot.containers entry) [])
              Reporter.observe cs) as [cs'|e]; simpl; [apply IH|done].
Qed.

Lemma count_snoc (name : string) (seen : list Container.t)
    (c : Container.t) :
  running_count name (seen ++ [c]) =
    running_count name seen
    + (if is_named name c && is_running c then 1 else 0)
  /\ down_count name (seen ++ [c]) =
    down_count name seen
    + (if is_named name c && negb (is_running c) then 1 else 0).
Proof.
  unfold running_count, down_count. rewrite !List.filter_app. simpl.
  destruct (is_named name c), (is_running c); simpl;
    rewrite ?length_app; simpl; lia.
Qed.

Lemma observe_tallied seen cs c cs' :
  tallied seen cs ->
  Reporter.observe cs c = Py.Ok cs' ->
  tallied (seen ++ [c]) cs'.
Proof.
  intros Hinv. unfold Reporter.observe.
  destruct (Container.name c) as [n|] eqn:Hn; simpl; [|done].
  set (cs1 := if negb (Dict.mem n cs) then _ else cs).
  assert (Hcs1 : forall k, String.eqb k n = false ->
                           Dict.lookup k cs1 = Dict.lookup k cs).
  { intros k Hk. unfold cs1. destruct (negb (Dict.mem n cs)); [|done].
    by rewrite lookup_store, Hk. }
  destruct (Dict.lookup n cs1) as [t|] eqn:Ht; simpl; [|done].
  assert (Hcount : Tally.uptime_checks t = running_count n seen
                   /\ Tally.down_checks t = down_count n seen).
  { specialize (Hinv n). unfold cs1, Dict.mem in Ht.
    destruct (Dict.lookup n cs) as [t0|] eqn:Hl; simpl in Ht.
    - rewrite Hl in Ht. by injection Ht as <-.
    - rewrite lookup_store, String.eqb_refl in Ht. injection Ht as <-.
      simpl. destruct Hinv as [-> ->]. done. }
  destruct (Container.status c) as [status|] eqn:Hs; simpl; [|done].
  destruct Hcount as [Hup Hdown].
  destruct (String.eqb status "running") eqn:Hrun;
    intros [= <-]; intros k; rewrite lookup_store;
    destruct (count_snoc k seen c) as [-> ->];
    unfold is_named, is_running; rewrite Hn, Hs, Hrun;
    (destruct (String.eqb k n) eqn:Hk;
     [ apply String.eqb_eq in Hk as ->; rewrite String.eqb_refl; simpl;
       split; lia
     | rewrite String.eqb_sym, Hk; simpl; rewrite Hcs1 by done;
       specialize (Hinv k); destruct (Dict.lookup k cs);
       destruct Hinv; split; lia ]).
Qed.

Lemma first_loop_tallied (l : list Container.t) :
  forall seen cs cs',
    tallied seen cs ->
    Py.for_ l Reporter.observe cs = Py.Ok cs' ->
    tallied (seen ++ l) cs'.
Proof.
  induction l as [|c l IH]; intros seen cs cs' Hinv; simpl.
  - intros [= <-]. by rewrite app_nil_r.
  - destruct (Reporter.observe cs c) as [cs1|e] eqn:Hobs; simpl; [|done].
    intros Hrest. replace (seen ++ c :: l) with ((seen ++ [c]) ++ l)
      by (by rewrite <- app_assoc).
    apply (IH _ cs1); [|done]. by apply (observe_tallied seen cs).
Qed.

Lemma tallied_nil : tallied [] [].
Proof. intros name. by simpl. Qed.

(** What the second loop leaves under a name is the summary of the tally
    the first loop left under it. *)
Lemma second_loop_lookup (config : Config.t) (cs : list (string * Tally.t)) :
  forall acc out name st,
    Py.for_ cs
      (fun done_ '(name, stats) =>
         stats ← Reporter.summarize py_sum config stats;
         mret (done_ ++ [(name, stats)])) acc = Py.Ok out ->
    Dict.lookup name out = Some st ->
    Dict.lookup name acc = Some st
    \/ (Dict.lookup name acc = None
        /\ exists t, Dict.lookup name cs = Some t
                     /\ Reporter.summarize py_sum config t = Py.Ok st).
Proof.
  induction cs as [|[k t] cs IH]; intros acc out name st; simpl.
  - intros [= <-] Hl. by left.
  - destruct (Reporter.summarize py_sum config t) as [s|e] eqn:Hsum;
      simpl; [|done].
    intros Hrest Hl. destruct (IH _ _ _ _ Hrest Hl) as [Hacc|[Hacc Hcs]].
    + rewrite lookup_snoc in Hacc.
      destruct (Dict.lookup name acc) as [w|]; [by left|]. right.
      split; [done|]. destruct (String.eqb name k); [|done].
      injection Hacc as <-. by exists t.
    + rewrite lookup_snoc in Hacc.
      destruct (Dict.lookup name acc) as [w|]; [done|]. right.
      split; [done|]. by destruct (String.eqb name k).
Qed.

Lemma summarize_uptime config t st :
  Reporter.summarize py_sum config t = Py.Ok st ->
  Stats.uptime_checks st = Tally.uptime_checks t
  /\ Stats.down_checks st = Tally.down_checks t
  /\ Stats.uptime_percent st =
     uptime_ratio (Tally.uptime_checks t) (Tally.down_checks t).
Proof.
  unfold Reporter.summarize, uptime_ratio.
  destruct (Reporter.avg_max py_sum (Tally.mem_values t)) as [am mm].
  destruct (Reporter.avg_max py_sum (Tally.cpu_values t)) as [ac mc].
  destruct (Config.reporting config) as [r|]; simpl; [|done].
  by intros [= <-].
Qed.
End Aggregation.

(** * Rounding to two decimals *)

Section Rounding.

(** [Py.round2] returns the float of a nearest hundredth. *)
Lemma round2_nearest (x : float) (s : bool) (m : positive) (e : Z) :
  Prim2SF x = S754_finite s m e ->
  exists k, 0 <= k /\ nearest_hundredth m e k
            /\ Py.round2 x = hundredths_float s m e k x.
Proof.
  intros Hx. unfold Py.round2, nearest_hundredth, hundredths_float.
  rewrite Hx. destruct (Z.leb_spec 0 e) as [He|He].
  - rewrite Z.max_l, Z.max_r, Z.pow_0_r by lia.
    exists (100 * Z.pos m * 2 ^ e).
    assert (0 <= 2 ^ e) by (apply Z.pow_nonneg; lia).
    split; [lia|]. split; [split; lia|].
    by rewrite Z.mul_1_r, Z.eqb_refl.
  - rewrite Z.max_r, Z.max_l, Z.pow_0_r, Z.mul_1_r by lia.
    replace (Z.pos m * 100) with (100 * Z.pos m) by lia.
    set (n := 100 * Z.pos m). set (d := 2 ^ (- e)).
    assert (Hd : 0 < d) by (apply Z.pow_pos_nonneg; lia).
    assert (Hn : 0 < n) by lia.
    pose proof (Z.div_mod n d ltac:(lia)) as Hdm.
    pose proof (Z.mod_pos_bound n d Hd) as Hr.
    assert (Hq : 0 <= n / d) by (apply Z.div_pos; lia).
    set (q := n / d) in *. set (r := n mod d) in *.
    destruct (Z.eqb_spec r 0) as [Hr0|Hr0].
    + exists q. split; [done|]. split; [split; lia|].
      destruct (Z.eqb_spec n (q * d)); [done|lia].
    + destruct (Z.compare_spec (2 * r) d) as [Heq|Hlt|Hgt].
      * destruct (Z.even q) eqn:Hev.
        -- exists q. split; [done|]. split; [split; [lia|done]|].
           destruct (Z.eqb_spec n (q * d)); [lia|]. by destruct q.
        -- exists (q + 1). split; [lia|]. split.
           ++ split; [lia|]. intros _.
              rewrite Z.even_add, Hev. done.
           ++ destruct (Z.eqb_spec n ((q + 1) * d)); [lia|].
              by destruct (q + 1).
      * exists q. split; [done|]. split; [split; lia|].
        destruct (Z.eqb_spec n (q * d)); [lia|]. by destruct q.
      * exists (q + 1). split; [lia|]. split; [split; lia|].
        destruct (Z.eqb_spec n ((q + 1) * d)); [lia|]. by destruct (q + 1).
Qed.

(** There is one nearest hundredth. *)
Lemma nearest_hundredth_unique (m : positive) (e k k' : Z) :
  nearest_hundredth m e k -> nearest_hundredth m e k' -> k = k'.
Proof.
  unfold nearest_hundredth.
  set (num := 100 * Z.pos m * 2 ^ Z.max e 0).
  set (den := 2 ^ Z.max (- e) 0).
  assert (Hd : 0 < den) by (apply Z.pow_pos_nonneg; lia).
  intros [H1 E1] [H2 E2].
  assert (Hclose : k' = k \/ k' = k + 1 \/ k = k' + 1) by nia.
  destruct Hclose as [-> | [-> | ->]]; [done| |].
  - assert (T1 : 2 * Z.abs (num - k * den) = den) by nia.
    assert (T2 : 2 * Z.abs (num - (k + 1) * den) = den) by nia.
    specialize (E1 T1). specialize (E2 T2).
    rewrite Z.even_add, E1 in E2. done.
  - assert (T1 : 2 * Z.abs (num - k' * den) = den) by nia.
    assert (T2 : 2 * Z.abs (num - (k' + 1) * den) = den) by nia.
    specialize (E1 T2). specialize (E2 T1).
    rewrite Z.even_add, E2 in E1. done.
Qed.

Lemma round2_hundredths (x : float) (s : bool) (m : positive) (e k : Z) :
  Prim2SF x = S754_finite s m e ->
  nearest_hundredth m e k ->
  Py.round2 x = hundredths_float s m e k x.
Proof.
  intros Hx Hk. destruct (round2_nearest x s m e Hx) as (k0 & _ & Hk0 & ->).
  by rewrite (nearest_hundredth_unique _ _ _ _ Hk Hk0).
Qed.
End Rounding.

Section AggregationClaims.

(** C8 (uptime computation).  For every entity in the result of
    [analyze_container_health], the two counters are the numbers of
    records of the window that show it running and not running, and
    [uptime_percent] is [running / (running + down) * 100] rounded to two
    decimals; the summary of a tally without observation has
    [uptime_percent = 0]; 9 running observations out of 10 give exactly
    90.0.  The rounding: 2 of 3 give 66.67, 22 of 24 give 91.67, 1 of 3
    gives 33.33, and the halfway cases 1 of 32 (3.125) and 3 of 32 (9.375)
    give 3.12 and 9.38; in general the result is the float for [k / 100],
    [k] being the integer nearest to a hundred times the exact value of
    the float [running / (running + down) * 100], the even one on a
    tie. *)
Theorem uptime_percent_formula :
  (forall py_sum history config stats name st,
     Reporter.analyze_container_health py_sum history config = Py.Ok stats ->
     Dict.lookup name stats = Some st ->
     let running := running_count name (observations history) in
     let down := down_count name (observations history) in
     Stats.uptime_checks st = running
     /\ Stats.down_checks st = down
     /\ Stats.uptime_percent st = uptime_ratio running down
     /\ (running = 9 -> down = 1 -> Stats.uptime_percent st = 90%float))
  /\ (forall py_sum config t st,
        Reporter.summarize py_sum config t = Py.Ok st ->
        Tally.uptime_checks t + Tally.down_checks t = 0 ->
        Stats.uptime_percent st = 0%float)
  /\ uptime_ratio 9 1 = 90%float
  /\ (exists stats st,
       Reporter.analyze_container_health
         Examples.plain_sum Examples.nine_of_ten Examples.config
       = Py.Ok stats
       /\ Dict.lookup "web" stats = Some st
       /\ Stats.uptime_percent st = 90%float)
  /\ uptime_ratio 2 1 = (6667 / 100)%float
  /\ uptime_ratio 22 2 = (9167 / 100)%float
  /\ uptime_ratio 1 2 = (3333 / 100)%float
  /\ uptime_ratio 1 31 = (312 / 100)%float
  /\ uptime_ratio 3 29 = (938 / 100)%float
  /\ (forall running down total s m e k,
        (running + down)%Z = Z.pos total ->
        let ratio :=
          PrimFloat.mul (Py.int_truediv running total) 100%float in
        Prim2SF ratio = S754_finite s m e ->
        nearest_hundredth m e k ->
        uptime_ratio running down = hundredths_float s m e k ratio).
Proof.
  split_and!.
  - intros py_sum history config stats name st Hrun Hl running down.
    unfold Reporter.analyze_container_health in Hrun.
    rewrite first_loop_flat in Hrun.
    destruct (Py.for_ (observations history) (Reporter.observe) [])
      as [cs|e] eqn:Hfirst; simpl in Hrun; [|done].
    pose proof (first_loop_tallied _ _ _ _ tallied_nil Hfirst) as Hinv.
    simpl in Hinv. specialize (Hinv name).
    destruct (second_loop_lookup py_sum _ _ _ _ _ _ Hrun Hl)
      as [Hacc|[_ (t & Ht & Hsum)]]; [done|].
    rewrite Ht in Hinv. destruct Hinv as [Hup Hdown].
    apply summarize_uptime in Hsum as (Hu & Hd & Hp).
    rewrite Hu, Hd, Hp, Hup, Hdown. fold running down.
    repeat split; try done. by intros -> ->.
  - intros py_sum config t st Hsum Hzero.
    apply summarize_uptime in Hsum as (_ & _ & ->).
    unfold uptime_ratio. by rewrite Hzero.
  - by vm_compute.
  - eexists _, _. split; [by vm_compute|]. split; by vm_compute.
  - by vm_compute.
  - by vm_compute.
  - by vm_compute.
  - by vm_compute.
  - by vm_compute.
  - intros running down total s m e k Htotal ratio Hratio Hk.
    unfold uptime_ratio. rewrite Htotal. fold ratio.
    by apply round2_hundredths.
Qed.

Lemma uptime_percent_formula_witness :
  exists st,
    Dict.lookup "web" two_of_three_stats = Some st
    /\ Stats.uptime_checks st = 2
    /\ Stats.down_checks st = 1
    /\ Stats.uptime_percent st = (6667 / 100)%float.
Proof.
  destruct uptime_percent_formula as (H & _ & _ & _ & Hrounded & _).
  eexists. split; [vm_compute; reflexivity|].
  destruct (H Examples.plain_sum two_of_three Examples.config
              two_of_three_stats "web" _
              ltac:(vm_compute; reflexivity) ltac:(vm_compute; reflexivity))
    as (Hup & Hdown & Hp & _).
  split; [exact Hup|]. split; [exact Hdown|].
  rewrite Hp. exact Hrounded.
Defined.
End AggregationClaims.

Section Totality.
Variable py_sum : list float -> float.

Lemma observe_with_defaults cs c :
  Reporter.observe cs (container_with_defaults c) = Reporter.observe cs c.
Proof.
  unfold Reporter.observe, container_with_defaults. simpl.
  destruct (Container.name c) as [n|]; simpl; [|done].
  destruct (Dict.lookup n _) as [t|]; simpl; [|done].
  destruct (Container.status c) as [s|]; simpl; [|done].
  destruct (Container.mem_mb c), (Container.cpu_percent c),
    (Container.restarts c), (Container.errors c); simpl; done.
Qed.

Lemma observations_with_defaults history :
  observations (map snapshot_with_defaults history) =
  map container_with_defaults (observations history).
Proof.
  induction history as [|entry history IH]; simpl; [done|].
  by rewrite map_app, IH.
Qed.

Lemma observe_identified cs c :
  identified c -> exists cs', Reporter.observe cs c = Py.Ok cs'.
Proof.
  intros [[n Hn] [s Hs]]. unfold Reporter.observe. rewrite Hn, Hs. simpl.
  assert (Hl : is_Some (Dict.lookup n
            (if negb (Dict.mem n cs)
             then Dict.store n (Tally.mk n 0 0 0 [] [] []) cs else cs))).
  { unfold Dict.mem. destruct (Dict.lookup n cs) as [t|] eqn:Ht; simpl.
    - by rewrite Ht.
    - by rewrite lookup_store, String.eqb_refl. }
  destruct Hl as [t ->]. simpl.
  destruct (String.eqb s "running"); eauto.
Qed.

Lemma first_loop_total (l : list Container.t) :
  Forall identified l ->
  forall cs, exists cs', Py.for_ l Reporter.observe cs = Py.Ok cs'.
Proof.
  induction 1 as [|c l Hc _ IH]; intros cs; simpl; [eauto|].
  destruct (observe_identified cs c Hc) as [cs1 ->]. simpl. apply IH.
Qed.

Lemma second_loop_total (reporting : Reporting.t)
    (cs : list (string * Tally.t)) :
  forall acc, exists out,
    Py.for_ cs
      (fun done_ '(name, stats) =>
         stats ← Reporter.summarize py_sum
                   (Config.mk (Some reporting)) stats;
         mret (done_ ++ [(name, stats)])) acc = Py.Ok out.
Proof.
  induction cs as [|[k t] cs IH]; intros acc; simpl; [eauto|].
  unfold Reporter.summarize at 1.
  destruct (Reporter.avg_max py_sum (Tally.mem_values t)) as [am mm].
  destruct (Reporter.avg_max py_sum (Tally.cpu_values t)) as [ac mc].
  simpl. apply IH.
Qed.
End Totality.

Section TotalityClaims.

(** C9, as amended.  ['name'] and ['status'] are indexed, not defaulted:
    the aggregation returns a result on every window whose container
    records all carry both (the configuration having its ['reporting']
    section), and raises [KeyError] on a record that lacks one.  The other
    keys are optional: leaving out ['restarts'], ['mem_mb'],
    ['cpu_percent'], ['errors'] or the ['containers'] list gives the same
    result as supplying 0, 0.0, 0.0, the empty list and the empty list. *)
Theorem aggregation_total_on_identified :
  (forall py_sum history reporting,
     Forall identified (observations history) ->
     exists stats,
       Reporter.analyze_container_health py_sum history
         (Config.mk (Some reporting)) = Py.Ok stats)
  /\ (forall py_sum history config,
        Reporter.analyze_container_health py_sum
          (map snapshot_with_defaults history) config
        = Reporter.analyze_container_health py_sum history config)
  /\ (forall cs c,
        Container.name c = None ->
        Reporter.observe cs c = Py.Raise (Py.KeyError "name"))
  /\ (forall cs c name,
        Container.name c = Some name -> Container.status c = None ->
        Reporter.observe cs c = Py.Raise (Py.KeyError "status")).
Proof.
  split; [|split; [|split]].
  - intros py_sum history reporting Hid.
    unfold Reporter.analyze_container_health. rewrite first_loop_flat.
    destruct (first_loop_total _ Hid []) as [cs ->]. simpl.
    apply second_loop_total.
  - intros py_sum history config.
    unfold Reporter.analyze_container_health.
    rewrite !first_loop_flat, observations_with_defaults, for_map.
    by rewrite (for_ext _ Reporter.observe _ _ observe_with_defaults).
  - intros cs c Hn. unfold Reporter.observe. by rewrite Hn.
  - intros cs c name Hn Hs. unfold Reporter.observe. rewrite Hn, Hs. simpl.
    assert (Hl : is_Some (Dict.lookup name
              (if negb (Dict.mem name cs)
               then Dict.store name (Tally.mk name 0 0 0 [] [] []) cs
               else cs))).
    { unfold Dict.mem. destruct (Dict.lookup name cs) as [t|] eqn:Ht; simpl.
      - by rewrite Ht.
      - by rewrite lookup_store, String.eqb_refl. }
    by destruct Hl as [t ->].
Qed.

Lemma aggregation_total_on_identified_witness :
  exists stats,
    Reporter.analyze_container_health Examples.plain_sum
      Examples.nine_of_ten Examples.config = Py.Ok stats.
Proof.
  apply (proj1 aggregation_total_on_identified Examples.plain_sum
           Examples.nine_of_ten (Reporting.mk (Some 5) (Some 5) (Some 10))).
  repeat constructor; by eexists.
Defined.

(** C9, the claim on a record without ['status']: the aggregation raises
    [KeyError] instead of returning statistics. *)
Lemma missing_status_counterexample :
  Reporter.analyze_container_health Examples.plain_sum
    [Examples.web None] Examples.config
  = Py.Raise (Py.KeyError "status").
Proof. by vm_compute. Qed.
End TotalityClaims.

(** * Further properties of the retention store *)

Section StoreMore.
Import HealthStorage.

Lemma filter_filter_absorb {A} (p q : A -> bool) (l : list A) :
  (forall x, p x = true -> q x = true) ->
  List.filter p (List.filter q l) = List.filter p l.
Proof.
  intros Hpq. induction l as [|x l IH]; simpl; [done|].
  destruct (q x) eqn:Hq; simpl.
  - by rewrite IH.
  - destruct (p x) eqn:Hp; [|done]. apply Hpq in Hp. congruence.
Qed.

Lemma filter_length_le {A} (p : A -> bool) (l : list A) :
  (length (List.filter p l) <= length l)%nat.
Proof.
  induction l as [|x l IH]; simpl; [done|]. destruct (p x); simpl; lia.
Qed.

Lemma survives_mono (c c' : Z) (x : Snapshot.t) :
  c <= c' -> survives c' x = true -> survives c x = true.
Proof.
  unfold survives. destruct (parsed_time x); [lia|done].
Qed.

Lemma entries_between_filter self start end_ :
  get_entries_between self start end_ =
  List.filter (in_range start end_) (load_history self).
Proof.
  unfold get_entries_between.
  rewrite fold_left_append_filter with (test := in_range start end_); [done|].
  intros acc x. unfold in_range, parsed_time, entry_time.
  destruct (Snapshot.timestamp x) as [[t|raw]|]; simpl; done.
Qed.

(** X1.  The cleanup only drops entries: what it returns is a subsequence
    of its input, in the same order; and running it again at the same
    clock reading changes nothing. *)
Theorem cleanup_idempotent (self : HealthStorage.t) (now : Z)
    (history : list Snapshot.t) :
  sublist (_cleanup_old_entries self now history) history
  /\ _cleanup_old_entries self now (_cleanup_old_entries self now history)
     = _cleanup_old_entries self now history.
Proof.
  rewrite !cleanup_filter. split; [apply filter_sublist|].
  by apply filter_filter_absorb.
Qed.

(** X2.  A run of appends whose cleanups all read the clock no later than
    the last one leaves exactly what a single cleanup at the last reading
    leaves of the whole log: the former history followed by every appended
    entry. *)
Theorem appends_as_one_cleanup (self : HealthStorage.t)
    (ops : list (Z * Z * Snapshot.t)) (now0 now : Z) (entry : Snapshot.t) :
  Forall (fun op => cleanup_clock op <= now) ops ->
  load_history (add_entry (add_entries self ops) now0 now entry) =
  List.filter
    (survives (now - datetime.timedelta_days (retention_days self)))
    (load_history self ++ stamps ops ++ [stamped now0 entry]).
Proof.
  intros Hops. set (c := now - datetime.timedelta_days (retention_days self)).
  assert (Hrun : forall ops self',
            retention_days self' = retention_days self ->
            Forall (fun op => cleanup_clock op <= now) ops ->
            List.filter (survives c) (load_history (add_entries self' ops))
            = List.filter (survives c) (load_history self' ++ stamps ops)).
  { clear Hops ops. induction ops as [|[[n0 n] e] ops IH];
      intros self' Hr Hall; simpl.
    - by rewrite app_nil_r.
    - inversion Hall as [|? ? Hn Hall']; subst. simpl in Hn.
      rewrite IH by done. rewrite load_add_entry, Hr.
      rewrite (List.filter_app _ (List.filter _ _)).
      rewrite filter_filter_absorb.
      + rewrite <- List.filter_app. by rewrite <- app_assoc.
      + intros x. apply survives_mono.
        unfold c, datetime.timedelta_days. lia. }
  rewrite load_add_entry, retention_add_entries. fold c.
  rewrite app_assoc, (List.filter_app _ (load_history _)).
  rewrite (List.filter_app _ (_ ++ _) [_]). f_equal.
  by apply Hrun.
Qed.

Lemma appends_as_one_cleanup_witness :
  load_history
    (add_entry
       (add_entries
          (HealthStorage.mk (Document [Examples.entry_at (2 * Examples.day)]) 7)
          [(5 * Examples.day, 5 * Examples.day, Examples.entry_unstamped)])
       (10 * Examples.day) (10 * Examples.day) Examples.entry_garbled)
  = [Examples.entry_at (5 * Examples.day); Examples.entry_garbled].
Proof.
  rewrite appends_as_one_cleanup.
  - reflexivity.
  - repeat constructor. vm_compute. discriminate.
Defined.

(** X3.  An appended entry whose own timestamp is older than the horizon
    is not stored: the append only cleans the former history, and
    [get_latest_entry] then returns the last of what is left of it. *)
Theorem stale_append_dropped (self : HealthStorage.t) (now0 now t : Z)
    (entry : Snapshot.t) :
  Snapshot.timestamp entry = Some (datetime.Iso t) ->
  t < now - datetime.timedelta_days (retention_days self) ->
  load_history (add_entry self now0 now entry)
    = _cleanup_old_entries self now (load_history self)
  /\ get_latest_entry (add_entry self now0 now entry)
     = last (_cleanup_old_entries self now (load_history self)).
Proof.
  intros Ht Hold.
  assert (Hload : load_history (add_entry self now0 now entry)
                  = _cleanup_old_entries self now (load_history self)).
  { rewrite load_add_entry, cleanup_filter, List.filter_app.
    unfold stamped. rewrite Ht. simpl.
    unfold survives, parsed_time. rewrite Ht.
    replace (_ <=? t) with false by lia. by rewrite app_nil_r. }
  split; [done|]. by rewrite get_latest_last, Hload.
Qed.

Lemma stale_append_dropped_witness :
  load_history
    (add_entry
       (HealthStorage.mk (Document [Examples.entry_at (9 * Examples.day)]) 7)
       (10 * Examples.day) (10 * Examples.day)
       (Examples.entry_at (1 * Examples.day)))
  = [Examples.entry_at (9 * Examples.day)].
Proof.
  apply (proj1 (stale_append_dropped
    (HealthStorage.mk (Document [Examples.entry_at (9 * Examples.day)]) 7)
    (10 * Examples.day) (10 * Examples.day) (1 * Examples.day)
    (Examples.entry_at (1 * Examples.day)) eq_refl ltac:(vm_compute; reflexivity))).
Defined.

(** X4.  [get_entries_between] returns, in storage order, exactly the
    entries whose timestamp parses and lies in the closed range; it returns
    nothing when the range is empty; over [[now - 24h, now]] it is the
    two-sided window, and a subsequence of what [get_last_24h] returns. *)
Theorem entries_between_closed_range (self : HealthStorage.t)
    (start end_ now : Z) :
  (forall x, In x (get_entries_between self start end_) <->
     In x (load_history self) /\
     exists t, parsed_time x = Some t /\ start <= t <= end_)
  /\ sublist (get_entries_between self start end_) (load_history self)
  /\ (end_ < start -> get_entries_between self start end_ = [])
  /\ get_entries_between self (now - datetime.timedelta_hours 24) now
     = List.filter (in_closed_window now) (load_history self)
  /\ sublist (get_entries_between self (now - datetime.timedelta_hours 24) now)
             (get_last_24h self now).
Proof.
  rewrite !entries_between_filter, last_24h_filter.
  split; [|split; [apply filter_sublist|split; [|split; [done|]]]].
  - intros x. rewrite filter_In. unfold in_range.
    split; intros [Hx H]; (split; [done|]).
    + destruct (parsed_time x) as [t|]; [|done]. exists t. split; [done|lia].
    + destruct H as (t & -> & Hle). lia.
  - intros Hempty. induction (load_history self) as [|x l IH]; simpl; [done|].
    unfold in_range at 1. destruct (parsed_time x) as [t|]; [|done].
    replace ((start <=? t) && (t <=? end_)) with false by lia. done.
  - rewrite <- (filter_filter_absorb
                  (in_range (now - datetime.timedelta_hours 24) now)
                  (in_last_24h now)).
    + apply filter_sublist.
    + intros x. unfold in_range, in_last_24h.
      destruct (parsed_time x); [lia|done].
Qed.

Lemma entries_between_closed_range_witness :
  get_entries_between
    (HealthStorage.mk (Document [Examples.entry_at (3 * Examples.day)]) 7)
    (5 * Examples.day) (4 * Examples.day) = [].
Proof.
  apply (proj1 (proj2 (proj2 (entries_between_closed_range _ _ _ 0)))).
  vm_compute. reflexivity.
Defined.

(** X5.  With a horizon of at least one day the eviction done by an append
    does not touch the 24-hour window read at the same clock: the query
    after the append returns the former history and the new entry, filtered
    by the window alone. *)
Theorem eviction_spares_last_24h (self : HealthStorage.t) (now0 now : Z)
    (entry : Snapshot.t) :
  1 <= retention_days self ->
  get_last_24h (add_entry self now0 now entry) now =
  List.filter (in_last_24h now) (load_history self ++ [stamped now0 entry]).
Proof.
  intros Hr. rewrite last_24h_filter, load_add_entry.
  apply filter_filter_absorb. intros x. unfold in_last_24h, survives.
  destruct (parsed_time x) as [t|]; [|done].
  unfold datetime.timedelta_hours, datetime.timedelta_days. nia.
Qed.

Lemma eviction_spares_last_24h_witness :
  get_last_24h
    (add_entry
       (HealthStorage.mk (Document [Examples.entry_at (2 * Examples.day)]) 7)
       (10 * Examples.day) (10 * Examples.day) Examples.entry_unstamped)
    (10 * Examples.day)
  = [Examples.entry_at (10 * Examples.day)].
Proof.
  rewrite eviction_spares_last_24h.
  - reflexivity.
  - vm_compute. discriminate.
Defined.

End StoreMore.

(** * The retention store on arbitrary file contents *)

Section JsonStore.
Import HealthStorageJson.

Lemma cleanup_step_plain cutoff acc e :
  cleanup_step cutoff acc (Plain e) =
  Ok (if survives cutoff e then acc ++ [Plain e] else acc).
Proof.
  unfold cleanup_step, survives, parsed_time. simpl.
  destruct (Snapshot.timestamp e) as [[t|raw]|]; simpl; [|done|done].
  by destruct (cutoff <=? t).
Qed.

Lemma query_step_plain cutoff acc e :
  query_step cutoff acc (Plain e) =
  Ok (if match parsed_time e with
          | Some t => cutoff <=? t
          | None => false
          end then acc ++ [Plain e] else acc).
Proof.
  unfold query_step, parsed_time. simpl.
  destruct (Snapshot.timestamp e) as [[t|raw]|]; simpl; [|done|done].
  by destruct (cutoff <=? t).
Qed.

Lemma cleanup_step_raises cutoff acc x :
  plain x = false -> cleanup_step cutoff acc x = Raise TypeError.
Proof. by destruct x. Qed.

Lemma query_step_raises cutoff acc x :
  plain x = false -> query_step cutoff acc x = Raise TypeError.
Proof. by destruct x. Qed.

(** A loop whose body returns on plain entries and raises [TypeError] on
    the others. *)
Section Loop.
Variable step : list item -> item -> result (list item).
Variable test : Snapshot.t -> bool.
Hypothesis step_plain : forall acc e,
  step acc (Plain e) = Ok (if test e then acc ++ [Plain e] else acc).
Hypothesis step_raises : forall acc x,
  plain x = false -> step acc x = Raise TypeError.

Lemma loop_plain (l : list Snapshot.t) : forall acc,
  for_ (map Plain l) step acc = Ok (acc ++ map Plain (List.filter test l)).
Proof.
  induction l as [|e l IH]; intros acc; simpl.
  - by rewrite app_nil_r.
  - rewrite step_plain. simpl. rewrite IH. destruct (test e); [|done].
    simpl. by rewrite <- app_assoc.
Qed.

Lemma loop_raises (l : list item) (x : item) :
  In x l -> plain x = false ->
  forall acc, for_ l step acc = Raise TypeError.
Proof.
  intros Hin Hx. induction l as [|y l IH]; intros acc; [done|]. simpl.
  destruct (plain y) eqn:Hy; [|by rewrite step_raises].
  destruct y as [e| | |]; try done.
  rewrite step_plain. simpl. apply IH.
  destruct Hin as [<-|Hin]; [by rewrite Hx in Hy|exact Hin].
Qed.

Lemma loop_complete (l : list item) : forall acc out,
  for_ l step acc = Ok out -> exists typed, l = map Plain typed.
Proof.
  induction l as [|y l IH]; intros acc out H; [by exists []|].
  simpl in H. destruct (plain y) eqn:Hy; [|by rewrite step_raises in H].
  destruct y as [e| | |]; try done.
  rewrite step_plain in H. simpl in H.
  destruct (IH _ _ H) as [typed ->]. by exists (e :: typed).
Qed.
End Loop.

Lemma stamp_plain now0 e : stamp now0 (Plain e) = Ok (Plain (stamped now0 e)).
Proof.
  unfold stamp, stamped. by destruct (Snapshot.timestamp e).
Qed.

Lemma in_calendar_sub now days :
  cutoff_in_calendar now days ->
  timedelta_days days = Ok (datetime.timedelta_days days)
  /\ sub now (datetime.timedelta_days days)
     = Ok (now - datetime.timedelta_days days).
Proof.
  intros [Hd [Hlo Hhi]]. unfold timedelta_days, sub.
  destruct (Z.leb_spec (Z.abs days) 999999999); [|lia].
  destruct (Z.leb_spec 0 (now - datetime.timedelta_days days)); [|lia].
  destruct (Z.ltb_spec (now - datetime.timedelta_days days) calendar_end);
    [done|lia].
Qed.

Lemma sub_inv now delta cutoff :
  sub now delta = Ok cutoff ->
  cutoff = now - delta /\ 0 <= now - delta < calendar_end.
Proof.
  unfold sub.
  destruct (Z.leb_spec 0 (now - delta)); simpl; [|done].
  destruct (Z.ltb_spec (now - delta) calendar_end); [|done].
  intros [= <-]. lia.
Qed.

Lemma timedelta_days_inv days delta :
  timedelta_days days = Ok delta ->
  delta = datetime.timedelta_days days /\ Z.abs days <= 999999999.
Proof.
  unfold timedelta_days.
  destruct (Z.leb_spec (Z.abs days) 999999999); [|done].
  by intros [= <-].
Qed.

Lemma json_cleanup_plain self now (typed : list Snapshot.t) :
  cutoff_in_calendar now (retention_days self) ->
  _cleanup_old_entries self now (map Plain typed) =
  Ok (map Plain
        (List.filter
           (survives (now - datetime.timedelta_days (retention_days self)))
           typed)).
Proof.
  intros Hcal. unfold _cleanup_old_entries.
  destruct (in_calendar_sub _ _ Hcal) as [-> Hsub]. simpl.
  rewrite Hsub. simpl.
  by rewrite (loop_plain _ _ (cleanup_step_plain _)).
Qed.

(** What a completed cleanup was given, and what it returns. *)
Lemma json_cleanup_inv self now history out :
  _cleanup_old_entries self now history = Ok out ->
  cutoff_in_calendar now (retention_days self)
  /\ exists typed,
       history = map Plain typed
       /\ out = map Plain
            (List.filter
               (survives
                  (now - datetime.timedelta_days (retention_days self)))
               typed).
Proof.
  unfold _cleanup_old_entries. intros H.
  destruct (timedelta_days (retention_days self)) as [delta|e] eqn:Hd;
    [|done].
  apply timedelta_days_inv in Hd as [-> Habs]. simpl in H.
  destruct (sub now _) as [cutoff|e] eqn:Hs; [|done].
  apply sub_inv in Hs as [-> Hrange]. simpl in H.
  split; [done|].
  destruct (loop_complete _ _ (cleanup_step_plain _)
              (cleanup_step_raises _) _ _ _ H) as [typed ->].
  exists typed. split; [done|].
  rewrite (loop_plain _ _ (cleanup_step_plain _)) in H. by injection H as <-.
Qed.

Lemma json_cleanup_raises self now history x :
  cutoff_in_calendar now (retention_days self) ->
  In x history -> plain x = false ->
  _cleanup_old_entries self now history = Raise TypeError.
Proof.
  intros Hcal Hin Hx. unfold _cleanup_old_entries.
  destruct (in_calendar_sub _ _ Hcal) as [-> Hsub]. simpl.
  rewrite Hsub. simpl.
  by apply (loop_raises _ _ (cleanup_step_plain _) (cleanup_step_raises _))
    with (x := x).
Qed.

Lemma json_load_plain (s : HealthStorage.t) :
  load_history (store_of s) = Ok (map Plain (HealthStorage.load_history s)).
Proof.
  unfold load_history, store_of, HealthStorage.load_history. simpl.
  by destruct (HealthStorage.history_file s).
Qed.

Lemma json_load_written self data :
  load_history (_write_history self data) = Ok data.
Proof. done. Qed.

Lemma map_plain_snoc (typed : list Snapshot.t) (e : Snapshot.t) :
  map Plain typed ++ [Plain e] = map Plain (typed ++ [e]).
Proof. by rewrite map_app. Qed.

Lemma map_plain_inj (l l' : list Snapshot.t) :
  map Plain l = map Plain l' -> l = l'.
Proof.
  revert l'. induction l as [|x l IH]; intros [|y l'] H; try done.
  simpl in H. injection H as -> H. by rewrite (IH _ H).
Qed.

(** What a completed append was given, and what it wrote. *)
Lemma json_add_entry_inv self now0 now entry self' :
  add_entry self now0 now entry = Ok self' ->
  cutoff_in_calendar now (retention_days self)
  /\ exists e typed,
       entry = Plain e
       /\ load_history self = Ok (map Plain typed)
       /\ self' = _write_history self
            (map Plain
               (List.filter
                  (survives
                     (now - datetime.timedelta_days (retention_days self)))
                  (typed ++ [stamped now0 e]))).
Proof.
  unfold add_entry. intros H.
  destruct (stamp now0 entry) as [entry'|ex] eqn:Hst; [|done]. simpl in H.
  destruct (load_history self) as [history|ex] eqn:Hload; [|done].
  simpl in H.
  destruct (_cleanup_old_entries self now (history ++ [entry']))
    as [out|ex] eqn:Hc; [|done].
  simpl in H. injection H as <-.
  apply json_cleanup_inv in Hc as [Hcal (typed & Hty & ->)].
  split; [done|].
  destruct typed as [|e0 typed0 _] using rev_ind.
  { by destruct history. }
  rewrite map_app in Hty. simpl in Hty.
  apply app_inj_tail in Hty as [-> ->].
  destruct entry as [e| | |]; try done.
  rewrite stamp_plain in Hst. injection Hst as <-. by exists e, typed0.
Qed.

Lemma json_add_entry_typed self now0 now e typed :
  load_history self = Ok (map Plain typed) ->
  cutoff_in_calendar now (retention_days self) ->
  add_entry self now0 now (Plain e) =
  Ok (_write_history self
        (map Plain
           (List.filter
              (survives
                 (now - datetime.timedelta_days (retention_days self)))
              (typed ++ [stamped now0 e])))).
Proof.
  intros Hload Hcal. unfold add_entry. rewrite stamp_plain. simpl.
  rewrite Hload. simpl.
  rewrite map_plain_snoc, (json_cleanup_plain _ _ _ Hcal). done.
Qed.

(** On the histories of [HealthStorage] the two embeddings agree. *)
Lemma json_add_entry_plain (s : HealthStorage.t) now0 now e :
  cutoff_in_calendar now (HealthStorage.retention_days s) ->
  add_entry (store_of s) now0 now (Plain e) =
  Ok (store_of (HealthStorage.add_entry s now0 now e)).
Proof.
  intros Hcal.
  rewrite (json_add_entry_typed _ _ _ _ _ (json_load_plain s) Hcal).
  unfold _write_history, store_of. simpl.
  by rewrite cleanup_filter.
Qed.

Lemma json_last_24h_typed self now typed :
  load_history self = Ok (map Plain typed) ->
  0 <= now - datetime.timedelta_hours 24 < calendar_end ->
  get_last_24h self now =
  Ok (map Plain (List.filter (in_last_24h now) typed)).
Proof.
  intros Hload Hrange. unfold get_last_24h. rewrite Hload. simpl.
  unfold sub.
  destruct (Z.leb_spec 0 (now - datetime.timedelta_hours 24)); [|lia].
  destruct (Z.ltb_spec (now - datetime.timedelta_hours 24) calendar_end);
    [|lia].
  simpl. by rewrite (loop_plain _ _ (query_step_plain _)).
Qed.

Lemma json_last_24h_plain (s : HealthStorage.t) now :
  0 <= now - datetime.timedelta_hours 24 < calendar_end ->
  get_last_24h (store_of s) now =
  Ok (map Plain (HealthStorage.get_last_24h s now)).
Proof.
  intros Hrange.
  rewrite (json_last_24h_typed _ _ _ (json_load_plain s) Hrange).
  by rewrite last_24h_filter.
Qed.

Lemma json_last_24h_inv self now out :
  get_last_24h self now = Ok out ->
  exists typed,
    load_history self = Ok (map Plain typed)
    /\ out = map Plain (List.filter (in_last_24h now) typed).
Proof.
  unfold get_last_24h. intros H.
  destruct (load_history self) as [history|ex]; [|done]. simpl in H.
  destruct (sub now _) as [cutoff|ex] eqn:Hs; [|done].
  apply sub_inv in Hs as [-> Hrange]. simpl in H.
  destruct (loop_complete _ _ (query_step_plain _)
              (query_step_raises _) _ _ _ H) as [typed ->].
  exists typed. split; [done|].
  rewrite (loop_plain _ _ (query_step_plain _)) in H. by injection H as <-.
Qed.

Lemma json_latest_last self history :
  load_history self = Ok history -> get_latest_entry self = Ok (last history).
Proof.
  intros Hload. unfold get_latest_entry. rewrite Hload. simpl.
  by destruct history.
Qed.

Lemma json_latest_plain (s : HealthStorage.t) :
  get_latest_entry (store_of s) =
  Ok (Plain <$> HealthStorage.get_latest_entry s).
Proof.
  rewrite (json_latest_last _ _ (json_load_plain s)), get_latest_last.
  by rewrite fmap_last.
Qed.


End JsonStore.

Section JsonStoreClaims.
Import HealthStorageJson.

(** C5, on the code.  A stored entry whose ['timestamp'] is there but is
    not a string (null, a number) has a timestamp that does not parse,
    yet the eviction does not keep it and the query does not skip it:
    [datetime.fromisoformat] raises [TypeError], which neither loop
    catches.  On a store that holds such an entry every append and every
    24-hour query ends in an exception, [TypeError] whenever the cutoff
    can be computed, and the append writes nothing. *)
Theorem nonstring_timestamp_aborts (self : HealthStorageJson.t)
    (history : list item) (x : item) :
  load_history self = Ok history ->
  In x history ->
  non_string_stamped x = true ->
  (forall now0 now entry,
     (exists e, add_entry self now0 now entry = Raise e)
     /\ (cutoff_in_calendar now (retention_days self) ->
         add_entry self now0 now entry = Raise TypeError))
  /\ (forall now,
        (exists e, get_last_24h self now = Raise e)
        /\ (0 <= now - datetime.timedelta_hours 24 < calendar_end ->
            get_last_24h self now = Raise TypeError)).
Proof.
  intros Hload Hin Hx.
  assert (Hnp : plain x = false) by by destruct x.
  assert (Hno : forall typed, history <> map Plain typed).
  { intros typed ->. apply in_map_iff in Hin as (y & <- & _). done. }
  split.
  - intros now0 now entry. split.
    + destruct (add_entry self now0 now entry) as [self'|e] eqn:Hadd;
        [|by exists e].
      apply json_add_entry_inv in Hadd as [_ (e & typed & _ & Hl & _)].
      rewrite Hload in Hl. injection Hl as Hl. by destruct (Hno typed).
    + intros Hcal. unfold add_entry.
      destruct (stamp now0 entry) as [entry'|e] eqn:Hst; simpl.
      * rewrite Hload. simpl.
        rewrite (json_cleanup_raises self now (history ++ [entry']) x Hcal);
          [done| |done].
        apply in_or_app. by left.
      * destruct entry as [e0| | |]; [rewrite stamp_plain in Hst| | |];
          simpl in Hst; congruence.
  - intros now. split.
    + destruct (get_last_24h self now) as [out|e] eqn:Hq; [|by exists e].
      apply json_last_24h_inv in Hq as (typed & Hl & _).
      rewrite Hload in Hl. injection Hl as Hl. by destruct (Hno typed).
    + intros Hrange. unfold get_last_24h. rewrite Hload. simpl.
      unfold sub.
      destruct (Z.leb_spec 0 (now - datetime.timedelta_hours 24)); [|lia].
      destruct (Z.ltb_spec (now - datetime.timedelta_hours 24) calendar_end);
        [|lia].
      simpl.
      by apply (loop_raises _ _ (query_step_plain _) (query_step_raises _))
        with (x := x).
Qed.

Lemma nonstring_timestamp_aborts_witness :
  let store :=
    HealthStorageJson.mk
      (Document (NonStringStamped (Examples.cpu_only 10)
                 :: map Plain sample_history)) 7 in
  add_entry store sample_now sample_now (Plain (Examples.cpu_only 20))
  = Raise TypeError
  /\ get_last_24h store sample_now = Raise TypeError.
Proof.
  intros store.
  destruct (nonstring_timestamp_aborts store
              (NonStringStamped (Examples.cpu_only 10)
               :: map Plain sample_history)
              (NonStringStamped (Examples.cpu_only 10)))
    as [Hadd Hquery]; [reflexivity | by left | reflexivity |].
  split.
  - apply Hadd. unfold cutoff_in_calendar. vm_compute.
    repeat split; discriminate.
  - apply Hquery. vm_compute. split; [discriminate | reflexivity].
Defined.




(** X6.  An append that completes makes the stored history longer by at
    most one entry.  A history file that is missing, is not valid JSON or
    holds JSON that is not a list counts as empty: the append acts as on
    an empty list.  A file that cannot be opened for another reason, or
    whose bytes are not text, does not: [load_history] catches only
    [JSONDecodeError] and [FileNotFoundError], so it raises, and so does
    the append, which then writes nothing. *)
Theorem append_growth (self : HealthStorageJson.t) (now0 now : Z)
    (entry : Snapshot.t) :
  (forall self',
     add_entry self now0 now (Plain entry) = Ok self' ->
     exists history history',
       load_history self = Ok history
       /\ load_history self' = Ok history'
       /\ (length history' <= length history + 1)%nat)
  /\ (loads (history_file self) = true ->
      holds_list (history_file self) = false ->
      load_history self = Ok []
      /\ add_entry self now0 now (Plain entry)
         = add_entry (HealthStorageJson.mk (Document []) (retention_days self))
                     now0 now (Plain entry))
  /\ (history_file self = NotText ->
      load_history self = Raise UnicodeDecodeError
      /\ add_entry self now0 now (Plain entry) = Raise UnicodeDecodeError)
  /\ (history_file self = Unopenable ->
      load_history self = Raise OSError
      /\ add_entry self now0 now (Plain entry) = Raise OSError).
Proof.
  split_and!.
  - intros self' Hadd.
    apply json_add_entry_inv in Hadd as [_ (e & typed & _ & Hload & ->)].
    eexists _, _. split; [exact Hload|]. split; [apply json_load_written|].
    rewrite !length_map.
    etransitivity; [apply filter_length_le|]. rewrite length_app. simpl. lia.
  - intros Hl Hnl.
    assert (Hempty : load_history self = Ok []).
    { unfold load_history. by destruct (history_file self). }
    split; [done|]. unfold add_entry. rewrite stamp_plain. simpl.
    by rewrite Hempty.
  - intros Hf. unfold add_entry, load_history.
    by rewrite stamp_plain, Hf.
  - intros Hf. unfold add_entry, load_history.
    by rewrite stamp_plain, Hf.
Qed.

Lemma append_growth_witness :
  add_entry (HealthStorageJson.mk InvalidJson 7) sample_now (sample_now + 1)
            (Plain Examples.entry_unstamped)
  = Ok (HealthStorageJson.mk
          (Document [Plain (Examples.entry_at sample_now)]) 7)
  /\ add_entry (HealthStorageJson.mk NotText 7) sample_now (sample_now + 1)
               (Plain Examples.entry_unstamped)
     = Raise UnicodeDecodeError.
Proof.
  split.
  - destruct (append_growth (HealthStorageJson.mk InvalidJson 7)
                sample_now (sample_now + 1) Examples.entry_unstamped)
      as (_ & Hempty & _).
    destruct Hempty as [_ ->]; [reflexivity | reflexivity |].
    vm_compute. reflexivity.
  - destruct (append_growth (HealthStorageJson.mk NotText 7)
                sample_now (sample_now + 1) Examples.entry_unstamped)
      as (_ & _ & Hraise & _).
    apply Hraise. reflexivity.
Defined.


End JsonStoreClaims.

(** * Further properties of the problem ranker *)

Section RankerMore.

Lemma insert_skip (p : Problem.t) (l1 l2 : list Problem.t) :
  Forall (fun q => Reporter.severity_order (Problem.severity_ q)
                   < Reporter.severity_order (Problem.severity_ p)) l1 ->
  Reporter.insert_by_key p (l1 ++ l2) = l1 ++ Reporter.insert_by_key p l2.
Proof.
  induction 1 as [|q l1 Hq _ IH]; simpl; [done|].
  replace (_ <=? _) with false by lia. by rewrite IH.
Qed.

Lemma insert_here (p : Problem.t) (l : list Problem.t) :
  Forall (fun q => Reporter.severity_order (Problem.severity_ p)
                   <= Reporter.severity_order (Problem.severity_ q)) l ->
  Reporter.insert_by_key p l = p :: l.
Proof.
  destruct 1 as [|q l Hq _]; simpl; [done|].
  by replace (_ <=? _) with true by lia.
Qed.

Lemma has_severity_Forall (s : severity) (l : list Problem.t) :
  Forall (fun q => Problem.severity_ q = s) (List.filter (has_severity s) l).
Proof.
  apply List.Forall_forall. intros q [_ Hq]%filter_In. unfold has_severity in Hq.
  destruct (Problem.severity_ q), s; simpl in Hq; done.
Qed.

(** X7.  The problem list is sorted stably: it is the critical problems,
    then the warnings, then the rest, each group in the order in which the
    entities were met. *)
Theorem sort_groups_by_severity (problems : list Problem.t) :
  Reporter.sort_by_severity problems =
  List.filter (has_severity critical) problems
  ++ List.filter (has_severity warning) problems
  ++ List.filter (has_severity info) problems.
Proof.
  induction problems as [|p ps IH]; simpl; [done|]. rewrite IH.
  pose proof (has_severity_Forall critical ps) as Hc.
  pose proof (has_severity_Forall warning ps) as Hw.
  pose proof (has_severity_Forall info ps) as Hi.
  assert (Hh : forall s, has_severity s p =
            (Reporter.severity_order (Problem.severity_ p)
             =? Reporter.severity_order s)) by done.
  rewrite !Hh. clear Hh.
  destruct (Problem.severity_ p) eqn:Hp; simpl.
  - rewrite app_assoc, insert_skip, insert_here, <- app_assoc; [done| |].
    + eapply Forall_impl; [exact Hi|]. intros q ->. rewrite Hp. simpl. lia.
    + apply Forall_app. split; (eapply Forall_impl; [eassumption|]);
        intros q ->; rewrite Hp; simpl; lia.
  - rewrite insert_skip, insert_here; [done| |].
    + apply Forall_app. split; (eapply Forall_impl; [eassumption|]);
        intros q ->; rewrite Hp; simpl; lia.
    + eapply Forall_impl; [exact Hc|]. intros q ->. rewrite Hp. simpl. lia.
  - rewrite insert_here; [done|]. rewrite Hp. simpl.
    apply List.Forall_forall. intros q _. destruct (Problem.severity_ q); simpl; lia.
Qed.

Lemma assess_issues (stats : Stats.t) :
  fst (Reporter.assess stats) = [] <-> flagged stats = false.
Proof.
  unfold Reporter.assess, Reporter.check_uptime, Reporter.check_restarts,
    Reporter.check_errors, flagged.
  destruct (Py.lt (Stats.uptime_percent stats) 100); simpl;
    destruct (Stats.total_restarts stats >? 0); simpl;
    destruct (Stats.errors stats); simpl; split; intros H; try done.
Qed.

Lemma problems_loop (cs : list (string * Stats.t)) :
  forall acc,
    fold_left (fun problems '(name, stats) =>
      let '(issues, severity) := Reporter.assess stats in
      match issues with
      | [] => problems
      | _ :: _ =>
          problems ++
          [Problem.mk name severity issues (take 3 (Stats.errors stats))
             (Problem.mk_summary (Stats.uptime_percent stats)
                (Stats.total_restarts stats) (Stats.avg_mem_mb stats))]
      end) cs acc
    = acc ++ flat_map (fun '(name, stats) =>
               if flagged stats then [problem_of name stats] else []) cs.
Proof.
  induction cs as [|[n s] cs IH]; intros acc; simpl.
  - by rewrite app_nil_r.
  - rewrite IH. unfold problem_of.
    destruct (Reporter.assess s) as [issues sev] eqn:Ha.
    pose proof (assess_issues s) as Hf. rewrite Ha in Hf. simpl in Hf.
    destruct issues as [|i issues].
    + rewrite (proj1 Hf eq_refl). done.
    + destruct (flagged s); [|discriminate (proj2 Hf eq_refl)].
      simpl. by rewrite <- app_assoc.
Qed.

Lemma in_sorted (p : Problem.t) (l : list Problem.t) :
  In p (Reporter.sort_by_severity l) <-> In p l.
Proof.
  rewrite sort_groups_by_severity, !in_app_iff, !filter_In.
  unfold has_severity. split; [tauto|]. intros Hp.
  destruct (Problem.severity_ p); simpl; tauto.
Qed.

(** X8.  The problem list holds exactly one record for each entity that
    has an uptime below 100, a positive restart count or a recorded error,
    built from that entity's statistics alone; an entity with none of the
    three is never listed, so the list is no longer than the
    dictionary. *)
Theorem problems_are_flagged_entities (cs : list (string * Stats.t)) :
  (forall p, In p (Reporter.identify_problematic_containers cs) <->
     exists name stats,
       In (name, stats) cs /\ flagged stats = true
       /\ p = problem_of name stats)
  /\ length (Reporter.identify_problematic_containers cs)
     = length (List.filter (fun '(_, stats) => flagged stats) cs)
  /\ (length (Reporter.identify_problematic_containers cs) <= length cs)%nat.
Proof.
  unfold Reporter.identify_problematic_containers. rewrite problems_loop.
  simpl.
  assert (Hlen : length (Reporter.sort_by_severity
                   (flat_map (fun '(name, stats) =>
                      if flagged stats then [problem_of name stats] else [])
                      cs))
                 = length (List.filter (fun '(_, stats) => flagged stats) cs)).
  { rewrite sort_groups_by_severity, !length_app.
    induction cs as [|[n s] cs IH]; simpl; [done|].
    destruct (flagged s); simpl; [|exact IH].
    assert (Hh : forall sev, has_severity sev (problem_of n s) =
              (Reporter.severity_order (Problem.severity_ (problem_of n s))
               =? Reporter.severity_order sev)) by done.
    rewrite !Hh.
    destruct (Problem.severity_ (problem_of n s)); simpl; lia. }
  split; [|split; [exact Hlen|rewrite Hlen; apply filter_length_le]].
  intros p. rewrite in_sorted, in_flat_map. split.
  - intros [[n s] [Hin Hp]]. destruct (flagged s) eqn:Hf; [|done].
    destruct Hp as [<-|[]]. by exists n, s.
  - intros (n & s & Hin & Hf & ->). exists (n, s). split; [done|].
    rewrite Hf. by left.
Qed.

Lemma problems_are_flagged_entities_witness :
  In (problem_of "web" (Examples.stats_of 95 0 []))
     (Reporter.identify_problematic_containers
        [("db", Examples.stats_of 100 0 []);
         ("web", Examples.stats_of 95 0 [])]).
Proof.
  apply (proj1 (problems_are_flagged_entities _)).
  exists "web", (Examples.stats_of 95 0 []).
  split; [simpl; auto|]. split; reflexivity.
Defined.

(** X9.  The severity reported for an entity: critical from 5 restarts
    up; warning for 3 or 4 restarts; below 3 restarts, what the uptime
    check gave when uptime is under 100 (critical up to 90, warning above),
    and otherwise warning when an error was recorded, info when not. *)
Theorem severity_table (stats : Stats.t) :
  let sev := snd (Reporter.assess stats) in
  (5 <= Stats.total_restarts stats -> sev = critical)
  /\ (3 <= Stats.total_restarts stats < 5 -> sev = warning)
  /\ (Stats.total_restarts stats < 3 ->
      (Stats.uptime_percent stats <? 100)%float = true ->
      sev = if (Stats.uptime_percent stats <=? 90)%float
            then critical else warning)
  /\ (Stats.total_restarts stats < 3 ->
      (Stats.uptime_percent stats <? 100)%float = false ->
      sev = match Stats.errors stats with
            | [] => info
            | _ :: _ => warning
            end).
Proof.
  unfold Reporter.assess. repeat split.
  - intros Hr. destruct (Reporter.check_uptime stats ([], info)) as [i s].
    unfold Reporter.check_restarts, Reporter.check_errors.
    replace (_ >? 0) with true by lia. replace (_ >=? 5) with true by lia.
    by destruct (Stats.errors stats).
  - intros Hr. destruct (Reporter.check_uptime stats ([], info)) as [i s].
    unfold Reporter.check_restarts, Reporter.check_errors.
    replace (_ >? 0) with true by lia. replace (_ >=? 5) with false by lia.
    replace (_ >=? 3) with true by lia.
    by destruct (Stats.errors stats).
  - intros Hr Hlt. rewrite (check_uptime_flagged _ _ _ Hlt).
    unfold Reporter.check_restarts, Reporter.check_errors.
    replace (_ >=? 5) with false by lia. replace (_ >=? 3) with false by lia.
    destruct (_ >? 0), (Stats.errors stats), (_ <=? 90)%float; done.
  - intros Hr Hlt. unfold Reporter.check_uptime, Py.lt. rewrite Hlt.
    unfold Reporter.check_restarts, Reporter.check_errors.
    replace (_ >=? 5) with false by lia. replace (_ >=? 3) with false by lia.
    destruct (_ >? 0), (Stats.errors stats); done.
Qed.

Lemma severity_table_witness :
  snd (Reporter.assess (Examples.stats_of 100 7 [])) = critical
  /\ snd (Reporter.assess (Examples.stats_of 100 1 [])) = info.
Proof.
  split.
  - apply (proj1 (severity_table (Examples.stats_of 100 7 []))).
    vm_compute. discriminate.
  - apply (proj2 (proj2 (proj2 (severity_table (Examples.stats_of 100 1 []))))).
    + vm_compute. reflexivity.
    + reflexivity.
Defined.
End RankerMore.

(** * Further properties of the entity health aggregation *)

Section AggregationMore.
Variable py_sum : list float -> float.

Lemma mem_keys {V} (k : string) (d : list (string * V)) :
  Dict.mem k d = existsb (String.eqb k) (map fst d).
Proof.
  unfold Dict.mem. induction d as [|[k0 v] d IH]; simpl; [done|].
  destruct (String.eqb k k0); simpl; [done|exact IH].
Qed.

Lemma store_keys {V} (k : string) (v : V) (d : list (string * V)) :
  map fst (Dict.store k v d) = add_unique (map fst d) k.
Proof.
  unfold add_unique. induction d as [|[k0 w] d IH]; simpl; [done|].
  destruct (String.eqb k k0); simpl; [done|].
  rewrite IH. by destruct (existsb (String.eqb k) (map fst d)).
Qed.

Lemma add_unique_idem (l : list string) (k : string) :
  add_unique (add_unique l k) k = add_unique l k.
Proof.
  unfold add_unique. destruct (existsb (String.eqb k) l) eqn:H.
  - by rewrite H.
  - rewrite existsb_app. simpl. rewrite String.eqb_refl.
    by rewrite orb_true_r.
Qed.

Lemma records_snoc (name : string) (seen : list Container.t)
    (c : Container.t) :
  records_of name (seen ++ [c]) =
  records_of name seen ++ (if is_named name c then [c] else []).
Proof.
  unfold records_of. rewrite List.filter_app. simpl.
  by destruct (is_named name c).
Qed.

Lemma observe_aggregated seen cs c cs' :
  aggregated seen cs ->
  Reporter.observe cs c = Py.Ok cs' ->
  aggregated (seen ++ [c]) cs'.
Proof.
  intros [Hkeys Hlook]. unfold Reporter.observe.
  destruct (Container.name c) as [n|] eqn:Hn; simpl; [|done].
  set (cs1 := if negb (Dict.mem n cs) then _ else cs).
  assert (Hk1 : map fst cs1 = add_unique (map fst cs) n).
  { unfold cs1. destruct (Dict.mem n cs) eqn:Hm; simpl.
    - unfold add_unique. by rewrite <- mem_keys, Hm.
    - apply store_keys. }
  assert (Ht1 : Dict.lookup n cs1 =
                Some (fold_left tally_update (records_of n seen)
                        (fresh_tally n))).
  { unfold cs1, Dict.mem. specialize (Hlook n).
    unfold tally_of in Hlook.
    destruct (Dict.lookup n cs) as [t0|] eqn:Hl; simpl.
    - rewrite Hl. by destruct (records_of n seen).
    - rewrite lookup_store, String.eqb_refl.
      by destruct (records_of n seen). }
  assert (Hother : forall k, String.eqb k n = false ->
                             Dict.lookup k cs1 = Dict.lookup k cs).
  { intros k Hk. unfold cs1. destruct (negb (Dict.mem n cs)); [|done].
    by rewrite lookup_store, Hk. }
  rewrite Ht1. simpl.
  destruct (Container.status c) as [status|] eqn:Hs; simpl; [|done].
  set (t := fold_left tally_update (records_of n seen) (fresh_tally n)).
  assert (Hupd :
    (let '(uptime_checks, down_checks) :=
       if String.eqb status "running"
       then (Tally.uptime_checks t + 1, Tally.down_checks t)
       else (Tally.uptime_checks t, Tally.down_checks t + 1) in
     Py.Ok (Dict.store n
       (Tally.mk (Tally.name t) uptime_checks down_checks
          (Z.max (Tally.total_restarts t)
                 (Py.get (Container.restarts c) 0))
          (fold_left (fun errors error =>
                        if existsb (String.eqb error) errors then errors
                        else errors ++ [error])
                     (Py.get (Container.errors c) []) (Tally.errors t))
          match Container.mem_mb c with
          | Some mem_mb =>
              if Py.truthy mem_mb then Tally.mem_values t ++ [mem_mb]
              else Tally.mem_values t
          | None => Tally.mem_values t
          end
          match Container.cpu_percent c with
          | Some cpu_percent =>
              if Py.truthy cpu_percent
              then Tally.cpu_values t ++ [cpu_percent]
              else Tally.cpu_values t
          | None => Tally.cpu_values t
          end) cs1))
    = Py.Ok (Dict.store n (tally_update t c) cs1)).
  { unfold tally_update, is_running, sample. rewrite Hs.
    destruct (String.eqb status "running");
      destruct (Container.mem_mb c) as [m|]; try destruct (Py.truthy m);
      destruct (Container.cpu_percent c) as [p|]; try destruct (Py.truthy p);
      by rewrite ?app_nil_r. }
  intros Hobs. unfold mret, result_ret in Hobs.
  rewrite Hupd in Hobs. injection Hobs as <-. split.
  - rewrite store_keys, Hk1, add_unique_idem, Hkeys.
    unfold observed_names, first_seen. rewrite omap_app. simpl. rewrite Hn.
    simpl. by rewrite fold_left_app.
  - intros k. rewrite lookup_store, records_snoc. unfold is_named at 1.
    rewrite Hn. destruct (String.eqb k n) eqn:Hk.
    + apply String.eqb_eq in Hk as ->. rewrite String.eqb_refl.
      unfold tally_of. rewrite records_snoc. unfold is_named at 1.
      rewrite Hn, String.eqb_refl, fold_left_app. simpl. fold t.
      by destruct (records_of n seen).
    + rewrite String.eqb_sym, Hk, app_nil_r, Hother by done.
      rewrite Hlook. unfold tally_of. rewrite records_snoc.
      unfold is_named at 1. rewrite Hn, String.eqb_sym, Hk.
      by rewrite app_nil_r.
Qed.
End AggregationMore.

Section Dedup.

Lemma existsb_eqb_In (x : string) (l : list string) :
  existsb (String.eqb x) l = true <-> In x l.
Proof.
  rewrite existsb_exists. split.
  - intros (y & Hy & ->%String.eqb_eq). done.
  - intros Hx. exists x. split; [done|apply String.eqb_refl].
Qed.

Lemma in_add_unique (l : list string) (x y : string) :
  In y (add_unique l x) <-> In y l \/ y = x.
Proof.
  unfold add_unique. destruct (existsb (String.eqb x) l) eqn:H.
  - apply existsb_eqb_In in H. split; [tauto|]. by intros [?| ->].
  - rewrite in_app_iff. simpl. intuition.
Qed.

Lemma NoDup_add_unique (l : list string) (x : string) :
  NoDup l -> NoDup (add_unique l x).
Proof.
  intros Hl. unfold add_unique.
  destruct (existsb (String.eqb x) l) eqn:H; [done|].
  apply NoDup_app. split; [done|]. split; [|apply NoDup_singleton].
  intros y Hy ->%list_elem_of_singleton.
  apply list_elem_of_In, existsb_eqb_In in Hy. congruence.
Qed.

Lemma fold_add_unique (xs : list string) :
  forall acc,
    (NoDup acc -> NoDup (fold_left add_unique xs acc))
    /\ (forall y, In y (fold_left add_unique xs acc) <-> In y acc \/ In y xs)
    /\ exists more, fold_left add_unique xs acc = acc ++ more.
Proof.
  induction xs as [|x xs IH]; intros acc; simpl.
  - split; [done|]. split; [tauto|]. exists []. by rewrite app_nil_r.
  - destruct (IH (add_unique acc x)) as (Hnd & Hin & more & Hmore).
    split; [|split].
    + intros Hacc. by apply Hnd, NoDup_add_unique.
    + intros y. rewrite Hin, in_add_unique. intuition.
    + rewrite Hmore. unfold add_unique.
      destruct (existsb (String.eqb x) acc); [by exists more|].
      exists ([x] ++ more). by rewrite app_assoc.
Qed.

Lemma first_seen_spec (l : list string) :
  NoDup (first_seen l) /\ forall y, In y (first_seen l) <-> In y l.
Proof.
  destruct (fold_add_unique l []) as (Hnd & Hin & _). split.
  - apply Hnd. constructor.
  - intros y. unfold first_seen. rewrite Hin. simpl. tauto.
Qed.
End Dedup.

Section TallyFields.

Lemma fold_tally_name (rs : list Container.t) :
  forall t, Tally.name (fold_left tally_update rs t) = Tally.name t.
Proof. induction rs as [|c rs IH]; intros t; simpl; [done|]. by rewrite IH. Qed.

Lemma fold_tally_counts (rs : list Container.t) :
  forall t,
    let t' := fold_left tally_update rs t in
    Tally.uptime_checks t' + Tally.down_checks t'
      = Tally.uptime_checks t + Tally.down_checks t + Z.of_nat (length rs)
    /\ Tally.uptime_checks t <= Tally.uptime_checks t'
    /\ Tally.down_checks t <= Tally.down_checks t'.
Proof.
  induction rs as [|c rs IH]; intros t; simpl; [lia|].
  destruct (IH (tally_update t c)) as (H1 & H2 & H3). simpl in *.
  destruct (is_running c); lia.
Qed.

Lemma fold_tally_restarts (rs : list Container.t) :
  forall t,
    let t' := fold_left tally_update rs t in
    Tally.total_restarts t <= Tally.total_restarts t'
    /\ (forall c, In c rs ->
          Py.get (Container.restarts c) 0 <= Tally.total_restarts t')
    /\ (Tally.total_restarts t' = Tally.total_restarts t
        \/ exists c, In c rs
             /\ Tally.total_restarts t' = Py.get (Container.restarts c) 0).
Proof.
  induction rs as [|c rs IH]; intros t; simpl.
  - split; [lia|]. split; [done|by left].
  - destruct (IH (tally_update t c)) as (H1 & H2 & H3). simpl in *.
    split; [lia|]. split.
    + intros c' [<-|Hc']; [lia|by apply H2].
    + destruct H3 as [H3|(c' & Hc' & H3)].
      * destruct (Z.max_spec (Tally.total_restarts t)
                    (Py.get (Container.restarts c) 0)) as [[_ Hm]|[_ Hm]].
        -- right. exists c. split; [by left|lia].
        -- left. lia.
      * right. exists c'. split; [by right|done].
Qed.

Lemma fold_tally_errors (rs : list Container.t) :
  forall t,
    Tally.errors (fold_left tally_update rs t) =
    fold_left add_unique
      (flat_map (fun c => Py.get (Container.errors c) []) rs)
      (Tally.errors t).
Proof.
  induction rs as [|c rs IH]; intros t; simpl; [done|].
  by rewrite IH, fold_left_app.
Qed.

Lemma fold_tally_samples (rs : list Container.t) :
  forall t,
    Tally.mem_values (fold_left tally_update rs t) =
      Tally.mem_values t ++ flat_map (fun c => sample (Container.mem_mb c)) rs
    /\ Tally.cpu_values (fold_left tally_update rs t) =
      Tally.cpu_values t
      ++ flat_map (fun c => sample (Container.cpu_percent c)) rs.
Proof.
  induction rs as [|c rs IH]; intros t; simpl.
  - by rewrite !app_nil_r.
  - destruct (IH (tally_update t c)) as [-> ->]. simpl.
    by rewrite <- !app_assoc.
Qed.
End TallyFields.

Section PerEntity.
Variable py_sum : list float -> float.

Lemma first_loop_aggregated (l : list Container.t) :
  forall seen cs cs',
    aggregated seen cs ->
    Py.for_ l Reporter.observe cs = Py.Ok cs' ->
    aggregated (seen ++ l) cs'.
Proof.
  induction l as [|c l IH]; intros seen cs cs' Hinv; simpl.
  - intros [= <-]. by rewrite app_nil_r.
  - destruct (Reporter.observe cs c) as [cs1|e] eqn:Hobs; simpl; [|done].
    intros Hrest. replace (seen ++ c :: l) with ((seen ++ [c]) ++ l)
      by (by rewrite <- app_assoc).
    apply (IH _ cs1); [|done]. by apply (observe_aggregated seen cs).
Qed.

Lemma aggregated_nil : aggregated [] [].
Proof. split; [done|]. intros name. done. Qed.

Lemma second_loop_keys (config : Config.t) (cs : list (string * Tally.t)) :
  forall acc out,
    Py.for_ cs
      (fun done_ '(name, stats) =>
         stats ← Reporter.summarize py_sum config stats;
         mret (done_ ++ [(name, stats)])) acc = Py.Ok out ->
    map fst out = map fst acc ++ map fst cs.
Proof.
  induction cs as [|[k t] cs IH]; intros acc out; simpl.
  - intros [= <-]. by rewrite app_nil_r.
  - destruct (Reporter.summarize py_sum config t) as [s|e]; simpl; [|done].
    intros Hrest. rewrite (IH _ _ Hrest), map_app. simpl.
    by rewrite <- app_assoc.
Qed.

Lemma second_loop_kept (config : Config.t) (cs : list (string * Tally.t)) :
  forall acc out name st,
    Py.for_ cs
      (fun done_ '(name, stats) =>
         stats ← Reporter.summarize py_sum config stats;
         mret (done_ ++ [(name, stats)])) acc = Py.Ok out ->
    Dict.lookup name acc = Some st ->
    Dict.lookup name out = Some st.
Proof.
  induction cs as [|[k t] cs IH]; intros acc out name st; simpl.
  - by intros [= <-].
  - destruct (Reporter.summarize py_sum config t) as [s|e]; simpl; [|done].
    intros Hrest Hacc. apply (IH _ _ _ _ Hrest).
    by rewrite lookup_snoc, Hacc.
Qed.

Lemma second_loop_found (config : Config.t) (cs : list (string * Tally.t)) :
  forall acc out name t,
    Py.for_ cs
      (fun done_ '(name, stats) =>
         stats ← Reporter.summarize py_sum config stats;
         mret (done_ ++ [(name, stats)])) acc = Py.Ok out ->
    Dict.lookup name acc = None ->
    Dict.lookup name cs = Some t ->
    exists st, Reporter.summarize py_sum config t = Py.Ok st
               /\ Dict.lookup name out = Some st.
Proof.
  induction cs as [|[k t0] cs IH]; intros acc out name t; simpl; [done|].
  destruct (Reporter.summarize py_sum config t0) as [s|e] eqn:Hsum;
    simpl; [|done].
  intros Hrest Hacc Hl. destruct (String.eqb name k) eqn:Hk.
  - injection Hl as ->. exists s. split; [done|].
    apply (second_loop_kept _ _ _ _ _ _ Hrest).
    by rewrite lookup_snoc, Hacc, Hk.
  - apply (IH _ _ _ _ Hrest); [|done]. by rewrite lookup_snoc, Hacc, Hk.
Qed.

Lemma summarize_fields config t st :
  Reporter.summarize py_sum config t = Py.Ok st ->
  Stats.name st = Tally.name t
  /\ Stats.uptime_checks st = Tally.uptime_checks t
  /\ Stats.down_checks st = Tally.down_checks t
  /\ Stats.total_restarts st = Tally.total_restarts t
  /\ Stats.mem_values st = Tally.mem_values t
  /\ Stats.cpu_values st = Tally.cpu_values t
  /\ (Stats.avg_mem_mb st, Stats.max_mem_mb st)
     = Reporter.avg_max py_sum (Tally.mem_values t)
  /\ (Stats.avg_cpu_percent st, Stats.max_cpu_percent st)
     = Reporter.avg_max py_sum (Tally.cpu_values t)
  /\ exists reporting,
       Config.reporting config = Some reporting
       /\ Stats.errors st =
          Py.slice_to (Py.get (Reporting.max_errors_in_report reporting) 10)
                      (Tally.errors t).
Proof.
  unfold Reporter.summarize.
  destruct (Reporter.avg_max py_sum (Tally.mem_values t)) as [am mm].
  destruct (Reporter.avg_max py_sum (Tally.cpu_values t)) as [ac mc].
  destruct (Config.reporting config) as [r|]; simpl; [|done].
  intros [= <-]. simpl. repeat split; try done. by exists r.
Qed.

(** The result of the aggregation, entity by entity. *)
Lemma analyze_per_entity history config stats :
  Reporter.analyze_container_health py_sum history config = Py.Ok stats ->
  map fst stats = first_seen (observed_names (observations history))
  /\ forall name,
       match records_of name (observations history) with
       | [] => Dict.lookup name stats = None
       | _ :: _ =>
           exists st,
             Reporter.summarize py_sum config
               (tally_of name (observations history)) = Py.Ok st
             /\ Dict.lookup name stats = Some st
       end.
Proof.
  intros Hrun. unfold Reporter.analyze_container_health in Hrun.
  rewrite first_loop_flat in Hrun.
  destruct (Py.for_ (observations history) (Reporter.observe) [])
    as [cs|e] eqn:Hfirst; simpl in Hrun; [|done].
  destruct (first_loop_aggregated _ _ _ _ aggregated_nil Hfirst)
    as [Hkeys Hlook]. simpl in Hkeys, Hlook.
  split; [by rewrite (second_loop_keys _ _ _ _ Hrun)|].
  intros name. specialize (Hlook name).
  destruct (records_of name (observations history)) as [|r rs].
  - destruct (Dict.lookup name stats) as [st|] eqn:Hst; [|done].
    destruct (second_loop_lookup py_sum _ _ _ _ _ _ Hrun Hst)
      as [H|[_ (t & Ht & _)]]; [done|congruence].
  - by apply (second_loop_found _ _ _ _ _ _ Hrun).
Qed.
End PerEntity.

Section AggregationExtras.

Lemma lookup_of_In {V} (d : list (string * V)) (k : string) (v : V) :
  NoDup (map fst d) -> In (k, v) d -> Dict.lookup k d = Some v.
Proof.
  induction d as [|[k0 w] d IH]; simpl; [done|].
  intros Hnd%NoDup_cons [Heq|Hin].
  - injection Heq as -> ->. by rewrite String.eqb_refl.
  - destruct Hnd as [Hk0 Hnd]. destruct (String.eqb k k0) eqn:Hk.
    + apply String.eqb_eq in Hk as ->. destruct Hk0.
      apply list_elem_of_In, in_map_iff. by exists (k0, v).
    + by apply IH.
Qed.

Lemma in_observed_names (name : string) (seen : list Container.t) :
  In name (observed_names seen) <->
  exists c, In c seen /\ Container.name c = Some name.
Proof.
  unfold observed_names. induction seen as [|c seen IH]; simpl.
  - split; [done|]. by intros (c & [] & _).
  - destruct (Container.name c) as [n|] eqn:Hn; simpl; rewrite IH.
    + split.
      * intros [->|(c' & Hc' & Hn')]; [by exists c; auto|].
        exists c'. auto.
      * intros (c' & [->|Hc'] & Hn'); [left; congruence|].
        right. by exists c'.
    + split.
      * intros (c' & Hc' & Hn'). exists c'. auto.
      * intros (c' & [->|Hc'] & Hn'); [congruence|]. by exists c'.
Qed.

Lemma records_nonempty (name : string) (seen : list Container.t) :
  records_of name seen <> [] <->
  exists c, In c seen /\ Container.name c = Some name.
Proof.
  unfold records_of. split.
  - destruct (List.filter (is_named name) seen) as [|c rs] eqn:Hf; [done|].
    intros _. assert (Hc : In c (List.filter (is_named name) seen))
      by (rewrite Hf; by left).
    apply filter_In in Hc as [Hc Hn]. exists c. split; [done|].
    unfold is_named in Hn. destruct (Container.name c) as [n|]; [|done].
    by apply String.eqb_eq in Hn as ->.
  - intros (c & Hc & Hn) Hf.
    assert (Hin : In c (List.filter (is_named name) seen)).
    { apply filter_In. split; [done|]. unfold is_named.
      by rewrite Hn, String.eqb_refl. }
    by rewrite Hf in Hin.
Qed.

(** X10.  The result of the aggregation has one entry for each name that
    occurs in the window, in the order in which the names are first met,
    and no name twice; the entry under a name carries that name. *)
Theorem entities_in_first_seen_order py_sum history config stats :
  Reporter.analyze_container_health py_sum history config = Py.Ok stats ->
  map fst stats = first_seen (observed_names (observations history))
  /\ NoDup (map fst stats)
  /\ (forall name, In name (map fst stats) <->
        exists c, In c (observations history)
                  /\ Container.name c = Some name)
  /\ (forall name st, In (name, st) stats -> Stats.name st = name).
Proof.
  intros Hrun. destruct (analyze_per_entity _ _ _ _ Hrun) as [Hkeys Hent].
  destruct (first_seen_spec (observed_names (observations history)))
    as [Hnd Hin].
  rewrite Hkeys. split; [done|]. split; [done|]. split.
  - intros name. by rewrite Hin, in_observed_names.
  - intros name st Hst. apply lookup_of_In in Hst; [|by rewrite Hkeys].
    specialize (Hent name).
    destruct (records_of name (observations history)); [congruence|].
    destruct Hent as (st' & Hsum & Hl). rewrite Hl in Hst.
    injection Hst as ->.
    apply summarize_fields in Hsum as (-> & _).
    unfold tally_of. by rewrite fold_tally_name.
Qed.

Lemma entities_in_first_seen_order_witness :
  map fst Samples.window_stats = ["web"; "db"].
Proof.
  apply (proj1 (entities_in_first_seen_order Examples.plain_sum
                  Samples.window Examples.config Samples.window_stats
                  ltac:(vm_compute; reflexivity))).
Defined.

(** X11.  The statistics of an entity depend on the records of that entity
    alone: they are the summary of the tally folded over its own records,
    and two windows that hold the same records for an entity give it the
    same statistics, whatever else they contain. *)
Theorem entity_stats_from_own_records py_sum config history1 history2
    stats1 stats2 name :
  Reporter.analyze_container_health py_sum history1 config = Py.Ok stats1 ->
  Reporter.analyze_container_health py_sum history2 config = Py.Ok stats2 ->
  records_of name (observations history1)
    = records_of name (observations history2) ->
  Dict.lookup name stats1 = Dict.lookup name stats2
  /\ (forall st, Dict.lookup name stats1 = Some st ->
        Reporter.summarize py_sum config
          (tally_of name (observations history1)) = Py.Ok st).
Proof.
  intros H1 H2 Hrec.
  destruct (analyze_per_entity _ _ _ _ H1) as [_ He1].
  destruct (analyze_per_entity _ _ _ _ H2) as [_ He2].
  specialize (He1 name). specialize (He2 name).
  unfold tally_of in *. rewrite <- Hrec in He2.
  destruct (records_of name (observations history1)) as [|r rs].
  - split; [congruence|]. intros st Hst. congruence.
  - destruct He1 as (st1 & Hs1 & Hl1), He2 as (st2 & Hs2 & Hl2).
    split; [congruence|]. intros st Hst. congruence.
Qed.

Lemma entity_stats_from_own_records_witness :
  Dict.lookup "web" Samples.window_stats
  = Dict.lookup "web" Samples.web_window_stats.
Proof.
  apply (proj1 (entity_stats_from_own_records Examples.plain_sum
                  Examples.config Samples.window Samples.web_window
                  Samples.window_stats Samples.web_window_stats "web"
                  ltac:(vm_compute; reflexivity)
                  ltac:(vm_compute; reflexivity)
                  ltac:(vm_compute; reflexivity))).
Defined.

Lemma in_records_of (name : string) (seen : list Container.t)
    (c : Container.t) :
  In c (records_of name seen) <-> In c seen /\ Container.name c = Some name.
Proof.
  unfold records_of. rewrite filter_In. unfold is_named.
  destruct (Container.name c) as [n|]; [|by intuition].
  split; intros [Hc Hn]; (split; [done|]).
  - by apply String.eqb_eq in Hn as ->.
  - injection Hn as ->. apply String.eqb_refl.
Qed.

Lemma entity_tally py_sum history config stats name st :
  Reporter.analyze_container_health py_sum history config = Py.Ok stats ->
  Dict.lookup name stats = Some st ->
  records_of name (observations history) <> []
  /\ Reporter.summarize py_sum config
       (tally_of name (observations history)) = Py.Ok st.
Proof.
  intros Hrun Hst. destruct (analyze_per_entity _ _ _ _ Hrun) as [_ Hent].
  specialize (Hent name).
  destruct (records_of name (observations history)); [congruence|].
  destruct Hent as (st' & Hsum & Hl). split; [done|]. congruence.
Qed.

(** X12.  For every entity of the result the two counters are
    non-negative and add up to the number of records the window holds for
    it, which is at least one: the "no observation" value of
    [uptime_percent] never occurs in a result, the percentage is always the
    rounded ratio. *)
Theorem counters_cover_records py_sum history config stats name st :
  Reporter.analyze_container_health py_sum history config = Py.Ok stats ->
  Dict.lookup name stats = Some st ->
  let total := Stats.uptime_checks st + Stats.down_checks st in
  total = Z.of_nat (length (records_of name (observations history)))
  /\ 0 <= Stats.uptime_checks st /\ 0 <= Stats.down_checks st
  /\ 1 <= total
  /\ Stats.uptime_percent st =
     Py.round2 (PrimFloat.mul
                  (Py.int_truediv (Stats.uptime_checks st) (Z.to_pos total))
                  100%float).
Proof.
  intros Hrun Hst total.
  destruct (entity_tally _ _ _ _ _ _ Hrun Hst) as [Hne Hsum].
  pose proof (summarize_uptime _ _ _ _ Hsum) as (Hu & Hd & Hp).
  unfold tally_of in Hu, Hd, Hp.
  destruct (fold_tally_counts (records_of name (observations history))
              (fresh_tally name)) as (Hsum' & Hup & Hdown).
  simpl in Hsum', Hup, Hdown.
  assert (Htot : total
            = Z.of_nat (length (records_of name (observations history))))
    by (unfold total; lia).
  assert (Hpos : 1 <= total).
  { rewrite Htot.
    destruct (records_of name (observations history)); [done|simpl; lia]. }
  repeat split; try lia.
  rewrite Hp, <- Hu, <- Hd. unfold uptime_ratio. subst total.
  destruct (Stats.uptime_checks st + Stats.down_checks st) as [|p|p];
    try lia. done.
Qed.

Lemma counters_cover_records_witness :
  Stats.uptime_checks
    (Stats.mk "db" 1 1 4 [] [300%float] [] 50 300 300 0 0)
  + Stats.down_checks
      (Stats.mk "db" 1 1 4 [] [300%float] [] 50 300 300 0 0) = 2.
Proof.
  apply (proj1 (counters_cover_records Examples.plain_sum Samples.window
                  Examples.config Samples.window_stats "db" _
                  ltac:(vm_compute; reflexivity)
                  ltac:(vm_compute; reflexivity))).
Defined.

(** X13.  [total_restarts] of an entity is the largest restart count its
    records report, a missing count read as 0, and never below 0: it
    bounds every record of the entity, and it is 0 or attained by one of
    them. *)
Theorem restarts_high_water_mark py_sum history config stats name st :
  Reporter.analyze_container_health py_sum history config = Py.Ok stats ->
  Dict.lookup name stats = Some st ->
  0 <= Stats.total_restarts st
  /\ (forall c, In c (observations history) ->
        Container.name c = Some name ->
        Py.get (Container.restarts c) 0 <= Stats.total_restarts st)
  /\ (Stats.total_restarts st = 0
      \/ exists c, In c (observations history)
           /\ Container.name c = Some name
           /\ Container.restarts c = Some (Stats.total_restarts st)).
Proof.
  intros Hrun Hst.
  destruct (entity_tally _ _ _ _ _ _ Hrun Hst) as [_ Hsum].
  apply summarize_fields in Hsum as (_ & _ & _ & -> & _).
  unfold tally_of.
  destruct (fold_tally_restarts (records_of name (observations history))
              (fresh_tally name)) as (Hlo & Hall & Hatt).
  simpl in Hlo, Hatt. split; [done|]. split.
  - intros c Hc Hn. apply Hall. by apply in_records_of.
  - destruct Hatt as [Hz|(c & Hc & Hatt)]; [by left|].
    apply in_records_of in Hc as [Hc Hn].
    destruct (Container.restarts c) as [r|] eqn:Hr; simpl in Hatt.
    + right. exists c. by rewrite Hr, Hatt.
    + by left.
Qed.

Lemma restarts_high_water_mark_witness :
  0 <= Stats.total_restarts
         (Stats.mk "db" 1 1 4 [] [300%float] [] 50 300 300 0 0).
Proof.
  apply (proj1 (restarts_high_water_mark Examples.plain_sum Samples.window
                  Examples.config Samples.window_stats "db" _
                  ltac:(vm_compute; reflexivity)
                  ltac:(vm_compute; reflexivity))).
Defined.

(** X14.  The errors kept for an entity are the distinct error strings of
    its records, in first-seen order, cut to the configured maximum (10
    when the configuration names none): no string twice, each one reported
    by a record of the entity, and at most the maximum when that is not
    negative. *)
Theorem errors_distinct_and_capped py_sum history config stats name st :
  Reporter.analyze_container_health py_sum history config = Py.Ok stats ->
  Dict.lookup name stats = Some st ->
  exists reporting,
    Config.reporting config = Some reporting
    /\ let cap := Py.get (Reporting.max_errors_in_report reporting) 10 in
       Stats.errors st =
         Py.slice_to cap
           (first_seen
              (flat_map (fun c => Py.get (Container.errors c) [])
                        (records_of name (observations history))))
       /\ NoDup (Stats.errors st)
       /\ (forall e, In e (Stats.errors st) ->
             exists c errs, In c (observations history)
               /\ Container.name c = Some name
               /\ Container.errors c = Some errs /\ In e errs)
       /\ (0 <= cap -> Z.of_nat (length (Stats.errors st)) <= cap).
Proof.
  intros Hrun Hst.
  destruct (entity_tally _ _ _ _ _ _ Hrun Hst) as [_ Hsum].
  apply summarize_fields in Hsum
    as (_ & _ & _ & _ & _ & _ & _ & _ & (r & Hr & He)).
  exists r. split; [done|]. intros cap. fold cap in He.
  unfold tally_of in He. rewrite fold_tally_errors in He. simpl in He.
  fold (first_seen (flat_map (fun c => Py.get (Container.errors c) [])
                      (records_of name (observations history)))) in He.
  set (all := first_seen _) in He.
  assert (Hsub : sublist (Stats.errors st) all).
  { rewrite He. unfold Py.slice_to. destruct (0 <=? cap); apply sublist_take. }
  destruct (first_seen_spec
              (flat_map (fun c => Py.get (Container.errors c) [])
                 (records_of name (observations history)))) as [Hnd Hin].
  fold all in Hnd, Hin.
  split; [done|]. split; [by eapply sublist_NoDup|]. split.
  - intros e He'. apply list_elem_of_In in He'.
    apply (fun H => elem_of_sublist _ _ _ H Hsub) in He'.
    apply list_elem_of_In, Hin in He'.
    apply in_flat_map in He' as (c & Hc & Hec).
    apply in_records_of in Hc as [Hc Hn].
    destruct (Container.errors c) as [errs|] eqn:Herrs; [|done].
    by exists c, errs.
  - intros Hcap. rewrite He. unfold Py.slice_to.
    replace (0 <=? cap) with true by lia. rewrite length_take. lia.
Qed.

Lemma errors_distinct_and_capped_witness :
  exists reporting,
    Config.reporting Examples.config = Some reporting
    /\ NoDup (Stats.errors
                (Stats.mk "web" 2 0 2 ["E1"; "E2"] [120%float] []
                          100 120 120 0 0)).
Proof.
  destruct (errors_distinct_and_capped Examples.plain_sum Samples.window
              Examples.config Samples.window_stats "web" _
              ltac:(vm_compute; reflexivity)
              ltac:(vm_compute; reflexivity))
    as (r & Hr & _ & Hnd & _).
  exists r. split; [exact Hr | exact Hnd].
Defined.

Lemma sample_truthy (field : option float) :
  Forall (fun v => Py.truthy v = true) (sample field)
  /\ (length (sample field) <= 1)%nat.
Proof.
  unfold sample. destruct field as [v|]; [|by split; [constructor|simpl; lia]].
  destruct (Py.truthy v) eqn:Hv; split; simpl; try lia; repeat constructor.
  done.
Qed.

Lemma samples_truthy (field : Container.t -> option float)
    (rs : list Container.t) :
  Forall (fun v => Py.truthy v = true) (flat_map (fun c => sample (field c)) rs)
  /\ (length (flat_map (fun c => sample (field c)) rs) <= length rs)%nat.
Proof.
  induction rs as [|c rs [IH1 IH2]]; simpl; [by split; [constructor|]|].
  destruct (sample_truthy (field c)) as [H1 H2]. split.
  - by apply Forall_app.
  - rewrite length_app. lia.
Qed.

(** X15.  The memory and CPU samples kept for an entity are the readings
    of its records that are present and not zero, in order: a record
    without the key, or with a reading of 0 as stopped containers report
    it, adds no sample.  An entity without any sample gets an average and
    a maximum of 0. *)
Theorem zero_samples_skipped py_sum history config stats name st :
  Reporter.analyze_container_health py_sum history config = Py.Ok stats ->
  Dict.lookup name stats = Some st ->
  let rs := records_of name (observations history) in
  Stats.mem_values st = flat_map (fun c => sample (Container.mem_mb c)) rs
  /\ Stats.cpu_values st
     = flat_map (fun c => sample (Container.cpu_percent c)) rs
  /\ Forall (fun v => Py.truthy v = true) (Stats.mem_values st)
  /\ Forall (fun v => Py.truthy v = true) (Stats.cpu_values st)
  /\ (length (Stats.mem_values st) <= length rs)%nat
  /\ (Stats.mem_values st = [] ->
      Stats.avg_mem_mb st = 0%float /\ Stats.max_mem_mb st = 0%float)
  /\ (Stats.cpu_values st = [] ->
      Stats.avg_cpu_percent st = 0%float
      /\ Stats.max_cpu_percent st = 0%float).
Proof.
  intros Hrun Hst rs.
  destruct (entity_tally _ _ _ _ _ _ Hrun Hst) as [_ Hsum].
  apply summarize_fields in Hsum
    as (_ & _ & _ & _ & Hm & Hc & Hmem & Hcpu & _).
  unfold tally_of in Hm, Hc. fold rs in Hm, Hc.
  destruct (fold_tally_samples rs (fresh_tally name)) as [Hm' Hc'].
  simpl in Hm', Hc'. rewrite Hm' in Hm. rewrite Hc' in Hc.
  destruct (samples_truthy Container.mem_mb rs) as [Htm Hlm].
  destruct (samples_truthy Container.cpu_percent rs) as [Htc _].
  rewrite <- Hm in Htm, Hlm. rewrite <- Hc in Htc.
  split_and!; try done.
  - intros Hnil. unfold tally_of in Hmem. fold rs in Hmem.
    rewrite Hm', <- Hm, Hnil in Hmem. by injection Hmem.
  - intros Hnil. unfold tally_of in Hcpu. fold rs in Hcpu.
    rewrite Hc', <- Hc, Hnil in Hcpu. by injection Hcpu.
Qed.

Lemma zero_samples_skipped_witness :
  Stats.mem_values
    (Stats.mk "db" 1 1 4 [] [300%float] [] 50 300 300 0 0) = [300%float].
Proof.
  apply (proj1 (zero_samples_skipped Examples.plain_sum Samples.window
                  Examples.config Samples.window_stats "db" _
                  ltac:(vm_compute; reflexivity)
                  ltac:(vm_compute; reflexivity))).
Defined.

(** X16.  The ['reporting'] section of the configuration is read once per
    entity, in the second loop: a window without any container record is
    aggregated to the empty result under every configuration, and a window
    with records, all of them named and with a status, raises
    [KeyError('reporting')] when the section is missing. *)
Theorem reporting_section_read_per_entity py_sum history :
  (observations history = [] ->
   forall config,
     Reporter.analyze_container_health py_sum history config = Py.Ok [])
  /\ (observations history <> [] ->
      Forall identified (observations history) ->
      Reporter.analyze_container_health py_sum history (Config.mk None)
      = Py.Raise (Py.KeyError "reporting")).
Proof.
  split.
  - intros Hobs config. unfold Reporter.analyze_container_health.
    by rewrite first_loop_flat, Hobs.
  - intros Hne Hid. unfold Reporter.analyze_container_health.
    rewrite first_loop_flat.
    destruct (first_loop_total _ Hid []) as [cs Hcs]. rewrite Hcs. simpl.
    destruct (first_loop_aggregated _ _ _ _ aggregated_nil Hcs)
      as [Hkeys _]. simpl in Hkeys.
    destruct cs as [|[k t] cs].
    + destruct (observations history) as [|c obs] eqn:Hobs; [done|].
      inversion Hid as [|? ? [[n Hn] _] _]; subst.
      destruct (first_seen_spec (observed_names (c :: obs))) as [_ Hin].
      assert (Hn' : In n (first_seen (observed_names (c :: obs)))).
      { apply Hin, in_observed_names. exists c. split; [by left|done]. }
      by rewrite <- Hkeys in Hn'.
    + simpl. unfold Reporter.summarize.
      destruct (Reporter.avg_max py_sum (Tally.mem_values t)) as [am mm].
      by destruct (Reporter.avg_max py_sum (Tally.cpu_values t)) as [ac mc].
Qed.

Lemma reporting_section_read_per_entity_witness :
  Reporter.analyze_container_health Examples.plain_sum Samples.window
    Samples.no_reporting = Py.Raise (Py.KeyError "reporting").
Proof.
  apply (proj2 (reporting_section_read_per_entity Examples.plain_sum
                  Samples.window)).
  - discriminate.
  - repeat constructor; by eexists.
Defined.
End AggregationExtras.

(** * Properties of the resource ranking *)

Section FloatOrderMore.

Lemma SFleb_trans (x y z : spec_float) :
  SFleb x y = true -> SFleb y z = true -> SFleb x z = true.
Proof.
  unfold SFleb.
  destruct x as [sx|sx| |sx mx ex], y as [sy|sy| |sy my ey],
    z as [sz|sz| |sz mz ez]; simpl;
    try destruct sx; try destruct sy; try destruct sz; simpl;
    try done.
  all: change (Pos.compare_cont Eq) with Pos.compare.
  all: destruct (Z.compare_spec ex ey), (Z.compare_spec ey ez),
         (Z.compare_spec ex ez); simpl; try done; try lia.
  all: subst; try lia.
  all: destruct (Pos.compare_spec mx my), (Pos.compare_spec my mz),
         (Pos.compare_spec mx mz); simpl; try done; try lia.
Qed.

Lemma leb_trans (x y z : float) :
  (x <=? y)%float = true -> (y <=? z)%float = true ->
  (x <=? z)%float = true.
Proof. rewrite !leb_spec. apply SFleb_trans. Qed.

(** On numbers, [x < y] failing means [y <= x]. *)
Lemma not_ltb_leb (x y : float) :
  is_number x -> is_number y ->
  (x <? y)%float = false -> (y <=? x)%float = true.
Proof.
  intros Hx Hy H. rewrite (ltb_negb_leb y x Hy Hx) in H.
  by destruct (y <=? x)%float.
Qed.

Lemma ltb_leb (x y : float) :
  (x <? y)%float = true -> (x <=? y)%float = true.
Proof.
  rewrite ltb_spec, leb_spec. unfold SFltb, SFleb.
  by destruct (SFcompare (Prim2SF x) (Prim2SF y)) as [[]|].
Qed.
End FloatOrderMore.

Section RankingLemmas.
Context {A : Type} (key : A -> float).

Local Abbreviation ge_key := (fun a b : A => (key b <=? key a)%float = true).

Lemma insert_desc_perm (x : A) (l : list A) :
  Permutation (Ranking.insert_desc key x l) (x :: l).
Proof.
  induction l as [|y l IH]; simpl; [done|].
  destruct (Py.lt (key x) (key y)); [|done].
  rewrite IH. apply perm_swap.
Qed.

Lemma sorted_desc_perm (l : list A) :
  Permutation (Ranking.sorted_desc key l) l.
Proof.
  induction l as [|x l IH]; simpl; [done|].
  rewrite insert_desc_perm. by constructor.
Qed.

Lemma insert_desc_sorted (x : A) (l : list A) :
  is_number (key x) -> Forall (fun y => is_number (key y)) l ->
  StronglySorted ge_key l ->
  StronglySorted ge_key (Ranking.insert_desc key x l).
Proof.
  intros Hx Hnum Hs. induction Hs as [|y l Hs IH Hy]; simpl.
  - repeat constructor.
  - apply Forall_cons in Hnum as [Hny Hnum].
    destruct (Py.lt (key x) (key y)) eqn:Hlt; unfold Py.lt in Hlt.
    + constructor; [by apply IH|].
      apply List.Forall_forall. intros z Hz.
      apply (Permutation_in _ (insert_desc_perm x l)) in Hz as [<-|Hz].
      * by apply ltb_leb.
      * by apply (proj1 (List.Forall_forall _ _) Hy).
    + assert (Hyx : ge_key x y) by (by apply not_ltb_leb).
      constructor; [by constructor|]. constructor; [done|].
      apply List.Forall_forall. intros z Hz.
      apply (proj1 (List.Forall_forall _ _) Hy) in Hz.
      simpl in *. by apply (leb_trans _ (key y)).
Qed.

Lemma sorted_desc_sorted (l : list A) :
  Forall (fun y => is_number (key y)) l ->
  StronglySorted ge_key (Ranking.sorted_desc key l).
Proof.
  induction 1 as [|x l Hx Hl IH]; simpl; [constructor|].
  apply insert_desc_sorted; [done| |done].
  apply Forall_forall. intros y Hy%list_elem_of_In.
  apply (Permutation_in _ (sorted_desc_perm l)) in Hy.
  by apply (proj1 (Forall_forall _ _) Hl), list_elem_of_In.
Qed.

Lemma sorted_app_inv (l1 l2 : list A) :
  StronglySorted ge_key (l1 ++ l2) ->
  StronglySorted ge_key l1
  /\ forall x y, In x l1 -> In y l2 -> ge_key x y.
Proof.
  induction l1 as [|a l1 IH]; simpl.
  - intros _. split; [constructor|]. by intros x y [].
  - intros Hs. inversion Hs as [|? ? Hs' Ha]; subst.
    destruct (IH Hs') as [Hs1 Hcross]. split.
    + constructor; [done|]. apply List.Forall_forall. intros z Hz.
      apply (proj1 (List.Forall_forall _ _) Ha), in_or_app. by left.
    + intros x y [<-|Hx] Hy; [|by apply Hcross].
      apply (proj1 (List.Forall_forall _ _) Ha), in_or_app. by right.
Qed.

(** A slice from the front of the sorted list is a top selection. *)
Lemma slice_top_selection (n : Z) (l : list A) :
  Forall (fun y => is_number (key y)) l ->
  top_selection key (Py.slice_to n (Ranking.sorted_desc key l)) l.
Proof.
  intros Hnum.
  assert (Htake : forall k,
            top_selection key (take k (Ranking.sorted_desc key l)) l).
  { intros k. exists (drop k (Ranking.sorted_desc key l)).
    rewrite take_drop. split; [apply sorted_desc_perm|].
    apply sorted_app_inv. rewrite take_drop. by apply sorted_desc_sorted. }
  unfold Py.slice_to. destruct (0 <=? n); apply Htake.
Qed.
End RankingLemmas.

Section RankingClaims.

(** X17.  [get_top_resource_consumers] needs the ['reporting'] section
    even for an empty dictionary.  With it, both rankings are cut to
    [top_memory_containers] (5 when absent): the setting
    [top_cpu_containers] is never read, so the CPU ranking has the same
    length as the memory ranking, the smaller of that setting and the
    number of entities. *)
Theorem rankings_sized_by_memory_setting
    (container_stats : list (string * Stats.t)) :
  Ranking.get_top_resource_consumers container_stats (Config.mk None)
    = Py.Raise (Py.KeyError "reporting")
  /\ (forall r, exists out,
        Ranking.get_top_resource_consumers container_stats
          (Config.mk (Some r)) = Py.Ok out
        /\ let n := Py.get (Reporting.top_memory_containers r) 5 in
           (0 <= n ->
            length (TopResources.top_memory out)
              = Nat.min (Z.to_nat n) (length container_stats)
            /\ length (TopResources.top_cpu out)
              = Nat.min (Z.to_nat n) (length container_stats)))
  /\ (forall r r',
        Reporting.top_memory_containers r = Reporting.top_memory_containers r'
        -> Ranking.get_top_resource_consumers container_stats
             (Config.mk (Some r))
           = Ranking.get_top_resource_consumers container_stats
               (Config.mk (Some r'))).
Proof.
  split; [done|]. split.
  - intros r. eexists. split; [reflexivity|]. intros n Hn. simpl. fold n.
    unfold Py.slice_to. replace (0 <=? n) with true by lia.
    rewrite !length_map, !length_take.
    rewrite (Permutation_length (sorted_desc_perm Stats.avg_mem_mb _)).
    rewrite (Permutation_length (sorted_desc_perm Stats.avg_cpu_percent _)).
    by rewrite length_map.
  - intros r r' Hr. unfold Ranking.get_top_resource_consumers. simpl.
    by rewrite Hr.
Qed.

Lemma rankings_sized_by_memory_setting_witness :
  Ranking.get_top_resource_consumers
    [consumer "A" 500; consumer "B" 1200; consumer "C" 300]
    (Config.mk (Some (Reporting.mk (Some 2) (Some 1) None)))
  = Ranking.get_top_resource_consumers
      [consumer "A" 500; consumer "B" 1200; consumer "C" 300]
      (Config.mk (Some (Reporting.mk (Some 2) (Some 3) None))).
Proof.
  apply (proj2 (proj2 (rankings_sized_by_memory_setting _))).
  reflexivity.
Defined.

(** X18.  When no average is NaN, each ranking is a selection of the
    largest: its entries are built from a descending run of statistics,
    and no entity left out has a larger average than one that is
    listed. *)
Theorem rankings_select_largest
    (container_stats : list (string * Stats.t)) (config : Config.t)
    (out : TopResources.t) :
  Ranking.get_top_resource_consumers container_stats config = Py.Ok out ->
  (Forall (fun c => is_number (Stats.avg_mem_mb c)) (map snd container_stats) ->
   exists listed,
     TopResources.top_memory out = map memory_entry listed
     /\ top_selection Stats.avg_mem_mb listed (map snd container_stats))
  /\ (Forall (fun c => is_number (Stats.avg_cpu_percent c))
        (map snd container_stats) ->
      exists listed,
        TopResources.top_cpu out = map cpu_entry listed
        /\ top_selection Stats.avg_cpu_percent listed
             (map snd container_stats)).
Proof.
  unfold Ranking.get_top_resource_consumers.
  destruct (Config.reporting config) as [r|]; simpl; [|done].
  intros [= <-]. simpl. split; intros Hnum.
  - eexists. split; [reflexivity|]. by apply slice_top_selection.
  - eexists. split; [reflexivity|]. by apply slice_top_selection.
Qed.

Lemma rankings_select_largest_witness :
  exists listed,
    TopResources.top_memory
      (TopResources.mk
         [memory_entry (snd (consumer "B" 1200));
          memory_entry (snd (consumer "A" 500))]
         [cpu_entry (snd (consumer "A" 500));
          cpu_entry (snd (consumer "B" 1200))])
    = map memory_entry listed
    /\ top_selection Stats.avg_mem_mb listed
         (map snd [consumer "A" 500; consumer "B" 1200; consumer "C" 300]).
Proof.
  apply (proj1 (rankings_select_largest
           [consumer "A" 500; consumer "B" 1200; consumer "C" 300]
           (Config.mk (Some (Reporting.mk (Some 2) None None)))
           _ ltac:(vm_compute; reflexivity))).
  repeat constructor; by vm_compute.
Defined.
End RankingClaims.

(** * Properties of the monitor *)

Section MonitorLemmas.
Import Monitor.

Lemma count_status_total (test : string -> bool) (cs : list Listing.t) :
  Forall (fun c => is_Some (Container.status (Listing.info c))) cs ->
  forall n, exists m,
    Py.for_ cs
      (fun n c =>
         status ← Py.getitem "status" (Container.status (Listing.info c));
         mret (if test status then n + 1 else n)) n = Py.Ok m.
Proof.
  induction 1 as [|c cs [s Hs] _ IH]; intros n; simpl; [eauto|].
  rewrite Hs. simpl. apply IH.
Qed.

Lemma count_status_partition (test : string -> bool) (cs : list Listing.t) :
  forall a b r s,
    Py.for_ cs
      (fun n c =>
         status ← Py.getitem "status" (Container.status (Listing.info c));
         mret (if test status then n + 1 else n)) a = Py.Ok r ->
    Py.for_ cs
      (fun n c =>
         status ← Py.getitem "status" (Container.status (Listing.info c));
         mret (if negb (test status) then n + 1 else n)) b = Py.Ok s ->
    r + s = a + b + Z.of_nat (length cs) /\ a <= r /\ b <= s.
Proof.
  induction cs as [|c cs IH]; intros a b r s; simpl.
  - intros [= <-] [= <-]. lia.
  - destruct (Container.status (Listing.info c)) as [st|]; simpl; [|done].
    intros Hr Hs. destruct (IH _ _ _ _ Hr Hs) as (H1 & H2 & H3).
    destruct (test st); simpl in *; lia.
Qed.

Lemma count_status_missing (test : string -> bool) (cs : list Listing.t) :
  ~ Forall (fun c => is_Some (Container.status (Listing.info c))) cs ->
  forall n,
    Py.for_ cs
      (fun n c =>
         status ← Py.getitem "status" (Container.status (Listing.info c));
         mret (if test status then n + 1 else n)) n
    = Py.Raise (Py.KeyError "status").
Proof.
  induction cs as [|c cs IH]; intros Hnot n; simpl.
  - destruct Hnot. constructor.
  - destruct (Container.status (Listing.info c)) as [st|] eqn:Hst; simpl;
      [|done].
    apply IH. intros Hall. apply Hnot. constructor; [by eexists|done].
Qed.

Lemma restart_messages_cons level thresholds c cs :
  restart_messages level thresholds (c :: cs) =
  match restart_level thresholds c, level, Container.name c with
  | Some critical, critical, Some name
  | Some warning, warning, Some name =>
      [ContainerRestarts name (Py.get (Container.restarts c) 0)]
  | _, _, _ => []
  end ++ restart_messages level thresholds cs.
Proof. reflexivity. Qed.

Lemma restart_loop (thresholds : gmap string float)
    (cs : list Container.t) :
  forall a a',
    Py.for_ cs
      (fun alert container =>
         let restarts := Py.get (Container.restarts container) 0 in
         if int_ge_float restarts
              (Py.dict_get thresholds "container_restart_critical" 5%float)
         then
           name ← Py.getitem "name" (Container.name container);
           mret (mk_alert true
                   (critical_issues alert ++ [ContainerRestarts name restarts])
                   (warnings alert))
         else if int_ge_float restarts
                   (Py.dict_get thresholds "container_restart_warning"
                      3%float)
         then
           name ← Py.getitem "name" (Container.name container);
           mret (mk_alert (has_critical alert) (critical_issues alert)
                   (warnings alert ++ [ContainerRestarts name restarts]))
         else mret alert) a = Py.Ok a' ->
    Forall (nameable thresholds) cs
    /\ has_critical a' =
       has_critical a
       || match restart_messages critical thresholds cs with
          | [] => false
          | _ :: _ => true
          end
    /\ critical_issues a'
       = critical_issues a ++ restart_messages critical thresholds cs
    /\ warnings a' = warnings a ++ restart_messages warning thresholds cs.
Proof.
  induction cs as [|c cs IH]; intros a a'.
  - simpl. intros [= <-]. rewrite orb_false_r, !app_nil_r.
    by split; [constructor|].
  - rewrite !restart_messages_cons.
    assert (Hlvl : restart_level thresholds c =
      if int_ge_float (Py.get (Container.restarts c) 0)
           (Py.dict_get thresholds "container_restart_critical" 5%float)
      then Some critical
      else if int_ge_float (Py.get (Container.restarts c) 0)
                (Py.dict_get thresholds "container_restart_warning" 3%float)
      then Some warning else None) by reflexivity.
    cbn [Py.for_].
    destruct (int_ge_float _ (Py.dict_get thresholds
                "container_restart_critical" 5%float)) eqn:Hc.
    + destruct (Container.name c) as [n|] eqn:Hn; [|discriminate].
      cbn [Py.getitem mbind result_bind Py.bind mret result_ret].
      intros (Hall & Hh & Hci & Hw)%IH. rewrite Hlvl. cbn in Hh, Hci, Hw.
      split; [constructor; [right; by eexists|done]|].
      rewrite Hh, Hci, Hw. cbn. by rewrite orb_true_r, <- app_assoc.
    + destruct (int_ge_float _ (Py.dict_get thresholds
                  "container_restart_warning" 3%float)) eqn:Hw'.
      * destruct (Container.name c) as [n|] eqn:Hn; [|discriminate].
        cbn [Py.getitem mbind result_bind Py.bind mret result_ret].
        intros (Hall & Hh & Hci & Hw)%IH. rewrite Hlvl. cbn in Hh, Hci, Hw.
        split; [constructor; [right; by eexists|done]|].
        rewrite Hh, Hci, Hw. cbn. by rewrite <- ?app_assoc.
      * cbn [mbind result_bind Py.bind mret result_ret].
        intros (Hall & Hh & Hci & Hw)%IH. rewrite Hlvl.
        split; [constructor; [by left|done]|]. done.
Qed.
End MonitorLemmas.

Section MonitorClaims.
Import Monitor.

(** X19.  When Docker lists the containers and each entry has a status,
    [collect_metrics] returns a snapshot stamped with the clock reading that
    holds the listed containers, and the counters beside it partition the
    listing: running and stopped add up to the total, which is the length
    of the listing, and the unhealthy are no more than the total. *)
Theorem collected_counts_partition (now : Z) (cpu ram : float)
    (disks : list Disk.t) (containers : list Listing.t) :
  Forall (fun c => is_Some (Container.status (Listing.info c))) containers ->
  exists m running stopped unhealthy,
    collect_metrics now cpu ram disks (Some containers) = Py.Ok m
    /\ Collected.containers_total m = Some (Z.of_nat (length containers))
    /\ Collected.containers_running m = Some running
    /\ Collected.containers_stopped m = Some stopped
    /\ Collected.containers_unhealthy m = Some unhealthy
    /\ running + stopped = Z.of_nat (length containers)
    /\ 0 <= running /\ 0 <= stopped
    /\ 0 <= unhealthy <= Z.of_nat (length containers)
    /\ Snapshot.containers (Collected.snapshot m)
       = Some (map Listing.info containers)
    /\ Snapshot.timestamp (Collected.snapshot m) = Some (datetime.Iso now).
Proof.
  intros Hst. unfold collect_metrics, count_status.
  destruct (count_status_total (fun s => String.eqb s "running")
              containers Hst 0) as [r Hr].
  destruct (count_status_total (fun s => negb (String.eqb s "running"))
              containers Hst 0) as [s Hs].
  destruct (count_status_partition _ _ _ _ _ _ Hr Hs) as (Hsum & H0r & H0s).
  rewrite Hr. cbn [mbind result_bind Py.bind]. rewrite Hs. cbn.
  eexists _, r, s, (count_unhealthy containers). split; [reflexivity|].
  cbn. split_and!; try done; try lia.
  all: unfold count_unhealthy.
  all: pose proof (filter_length_le
    (fun c => match Listing.health c with
              | Some h => String.eqb h "unhealthy"
              | None => false
              end) containers).
  all: lia.
Qed.

Lemma collected_counts_partition_witness :
  exists m running stopped unhealthy,
    collect_metrics 7 50 60 []
      (Some [listed "web" "running" (Some "healthy");
             listed "db" "exited" None;
             listed "api" "running" (Some "unhealthy")]) = Py.Ok m
    /\ Collected.containers_running m = Some running
    /\ Collected.containers_stopped m = Some stopped
    /\ Collected.containers_unhealthy m = Some unhealthy
    /\ running + stopped = 3.
Proof.
  destruct (collected_counts_partition 7 50 60 []
              [listed "web" "running" (Some "healthy");
               listed "db" "exited" None;
               listed "api" "running" (Some "unhealthy")])
    as (m & r & s & u & Hm & _ & Hr & Hs & Hu & Hsum & _).
  - repeat constructor; by eexists.
  - exists m, r, s, u. split_and!; done.
Defined.

(** X20.  When the Docker client fails before it has listed the
    containers, [collect_metrics] does not return a degraded snapshot: the
    key ['containers_total'] was never set and the log line that reads it
    raises [KeyError].  When the listing arrived and an entry has no
    status, the result keeps the total already stored, an empty container
    list and no other counter. *)
Theorem docker_failure_aborts_collection (now : Z) (cpu ram : float)
    (disks : list Disk.t) :
  collect_metrics now cpu ram disks None
    = Py.Raise (Py.KeyError "containers_total")
  /\ forall containers,
       ~ Forall (fun c => is_Some (Container.status (Listing.info c)))
           containers ->
       collect_metrics now cpu ram disks (Some containers) =
       Py.Ok (Collected.mk
                (Snapshot.mk (Some (datetime.Iso now)) (Some cpu) (Some ram)
                   (Some disks) (Some []))
                (Some (Z.of_nat (length containers))) None None None).
Proof.
  split; [done|]. intros containers Hnot.
  unfold collect_metrics, count_status.
  by rewrite (count_status_missing (fun s => String.eqb s "running") _ Hnot).
Qed.

Lemma docker_failure_aborts_collection_witness :
  collect_metrics 7 50 60 []
    (Some [Listing.mk (Container.mk (Some "web") None None None None None)
             None])
  = Py.Ok (Collected.mk
             (Snapshot.mk (Some (datetime.Iso 7)) (Some 50%float)
                (Some 60%float) (Some []) (Some []))
             (Some 1) None None None).
Proof.
  apply (proj2 (docker_failure_aborts_collection 7 50 60 [])).
  intros H. inversion H as [|? ? [s Hs] _]. discriminate.
Defined.
End MonitorClaims.

Section AlertClaims.
Import Monitor.

Lemma restart_loop_total (thresholds : gmap string float)
    (cs : list Container.t) :
  Forall (nameable thresholds) cs ->
  forall a, exists a',
    Py.for_ cs
      (fun alert container =>
         let restarts := Py.get (Container.restarts container) 0 in
         if int_ge_float restarts
              (Py.dict_get thresholds "container_restart_critical" 5%float)
         then
           name ← Py.getitem "name" (Container.name container);
           mret (mk_alert true
                   (critical_issues alert ++ [ContainerRestarts name restarts])
                   (warnings alert))
         else if int_ge_float restarts
                   (Py.dict_get thresholds "container_restart_warning"
                      3%float)
         then
           name ← Py.getitem "name" (Container.name container);
           mret (mk_alert (has_critical alert) (critical_issues alert)
                   (warnings alert ++ [ContainerRestarts name restarts]))
         else mret alert) a = Py.Ok a'.
Proof.
  induction 1 as [|c cs Hc _ IH]; intros a; [by eexists|].
  cbn [Py.for_]. unfold nameable, restart_level in Hc.
  destruct (int_ge_float _ (Py.dict_get thresholds
              "container_restart_critical" 5%float)).
  - destruct Hc as [Hc|[n ->]]; [done|]. apply IH.
  - destruct (int_ge_float _ (Py.dict_get thresholds
                "container_restart_warning" 3%float)).
    + destruct Hc as [Hc|[n ->]]; [done|]. apply IH.
    + apply IH.
Qed.

(** What [analyze_for_critical_alerts] returns. *)
Lemma alert_shape (metrics : Collected.t) (config : MonitorConfig.t)
    (a : alert) :
  analyze_for_critical_alerts metrics config = Py.Ok a ->
  exists thresholds v,
    MonitorConfig.thresholds config = Some thresholds
    /\ SystemMetrics.check_thresholds (Collected.snapshot metrics) thresholds
       = Py.Ok v
    /\ Forall (nameable thresholds) (alert_containers metrics)
    /\ let unhealthy := Py.get (Collected.containers_unhealthy metrics) 0 in
       let stopped := Py.get (Collected.containers_stopped metrics) 0 in
       critical_issues a =
         map Violation (SystemMetrics.critical v)
         ++ (if unhealthy >? 0 then [ContainersUnhealthy unhealthy] else [])
         ++ restart_messages critical thresholds (alert_containers metrics)
       /\ warnings a =
         map Violation (SystemMetrics.warnings v)
         ++ (if stopped >? 0 then [ContainersStopped stopped] else [])
         ++ restart_messages warning thresholds (alert_containers metrics)
       /\ (has_critical a = true <-> critical_issues a <> []).
Proof.
  unfold analyze_for_critical_alerts.
  destruct (MonitorConfig.thresholds config) as [t|]; [|done].
  cbn [Py.getitem mbind result_bind Py.bind].
  destruct (SystemMetrics.check_thresholds (Collected.snapshot metrics) t)
    as [v|e] eqn:Hv; [|done].
  cbn [mbind result_bind Py.bind].
  intros (Hall & Hh & Hci & Hw)%restart_loop.
  exists t, v. split; [done|]. split; [done|]. split; [done|].
  fold (alert_containers metrics) in Hh, Hci, Hw.
  cbv zeta.
  set (unhealthy := Py.get (Collected.containers_unhealthy metrics) 0) in *.
  set (stopped := Py.get (Collected.containers_stopped metrics) 0) in *.
  destruct (SystemMetrics.critical v) as [|m ms] eqn:Hcv,
    (unhealthy >? 0) eqn:Hu, (stopped >? 0) eqn:Hs;
    cbn in Hh, Hci, Hw; rewrite Hh, Hci, Hw;
    (split_and!; [by rewrite <- ?app_assoc..|]);
    destruct (restart_messages critical t (alert_containers metrics));
    cbn; done.
Qed.

(** X21.  In a returned alert, [has_critical] is set exactly when
    [critical_issues] is not empty; the critical issues are the critical
    threshold violations, then the unhealthy count if positive, then the
    restart messages of critical level, and the warnings are the threshold
    warnings, then the stopped count if positive, then the restart messages
    of warning level. *)
Theorem alert_flag_matches_issues (metrics : Collected.t)
    (config : MonitorConfig.t) (a : alert) :
  analyze_for_critical_alerts metrics config = Py.Ok a ->
  (has_critical a = true <-> critical_issues a <> [])
  /\ exists thresholds v,
       MonitorConfig.thresholds config = Some thresholds
       /\ SystemMetrics.check_thresholds (Collected.snapshot metrics)
            thresholds = Py.Ok v
       /\ let unhealthy := Py.get (Collected.containers_unhealthy metrics) 0 in
          let stopped := Py.get (Collected.containers_stopped metrics) 0 in
          critical_issues a =
            map Violation (SystemMetrics.critical v)
            ++ (if unhealthy >? 0 then [ContainersUnhealthy unhealthy] else [])
            ++ restart_messages critical thresholds (alert_containers metrics)
          /\ warnings a =
            map Violation (SystemMetrics.warnings v)
            ++ (if stopped >? 0 then [ContainersStopped stopped] else [])
            ++ restart_messages warning thresholds (alert_containers metrics).
Proof.
  intros (t & v & Ht & Hv & _ & Hci & Hw & Hflag)%alert_shape.
  split; [done|]. by exists t, v.
Qed.

Lemma alert_flag_matches_issues_witness :
  has_critical
    (mk_alert true [Violation (SystemMetrics.CpuCritical 96)]
       [ContainersStopped 1]) = true
  <-> critical_issues
        (mk_alert true [Violation (SystemMetrics.CpuCritical 96)]
           [ContainersStopped 1]) <> [].
Proof.
  apply (proj1 (alert_flag_matches_issues (poll 96 [] 1 0)
                  (with_thresholds Examples.cpu_levels) _
                  ltac:(vm_compute; reflexivity))).
Defined.

Lemma int_ge_float_5 (r : Z) : int_ge_float r 5%float = (5 <=? r).
Proof.
  unfold int_ge_float. set (x := Prim2SF 5). vm_compute in x. subst x.
  cbn. lia.
Qed.

Lemma int_ge_float_3 (r : Z) : int_ge_float r 3%float = (3 <=? r).
Proof.
  unfold int_ge_float. set (x := Prim2SF 3). vm_compute in x. subst x.
  cbn. lia.
Qed.

Lemma in_restart_messages level thresholds cs name r :
  In (ContainerRestarts name r) (restart_messages level thresholds cs) <->
  level <> info
  /\ exists c, In c cs /\ Container.name c = Some name
       /\ Py.get (Container.restarts c) 0 = r
       /\ restart_level thresholds c = Some level.
Proof.
  unfold restart_messages. rewrite in_flat_map. split.
  - intros (c & Hc & Hin).
    destruct (restart_level thresholds c) as [[]|] eqn:Hl, level,
      (Container.name c) as [n|] eqn:Hn; try done;
      destruct Hin as [[= <- <-]|[]]; (split; [done|]); by exists c.
  - intros (Hlevel & c & Hc & Hn & Hr & Hl). exists c. split; [done|].
    rewrite Hl, Hn, Hr. destruct level; try done; by left.
Qed.

(** X22.  When the configuration names no restart levels, the alert
    analysis uses 5 and 3: a container is named among the critical issues
    exactly when its restart count is at least 5, and among the warnings
    exactly when it is 3 or 4; a container without restart count counts
    as 0 restarts. *)
Theorem restart_alert_default_levels (metrics : Collected.t)
    (thresholds : gmap string float) (a : alert) :
  thresholds !! "container_restart_critical" = None ->
  thresholds !! "container_restart_warning" = None ->
  analyze_for_critical_alerts metrics (MonitorConfig.mk (Some thresholds))
    = Py.Ok a ->
  forall name r,
    (In (ContainerRestarts name r) (critical_issues a) <->
       5 <= r /\ exists c, In c (alert_containers metrics)
                  /\ Container.name c = Some name
                  /\ Py.get (Container.restarts c) 0 = r)
    /\ (In (ContainerRestarts name r) (warnings a) <->
          3 <= r < 5 /\ exists c, In c (alert_containers metrics)
                           /\ Container.name c = Some name
                           /\ Py.get (Container.restarts c) 0 = r).
Proof.
  intros Hc Hw (t & v & [= <-] & _ & _ & Hci & Hwa & _)%alert_shape name r.
  cbv zeta in Hci, Hwa. rewrite Hci, Hwa, !in_app_iff, !in_restart_messages.
  assert (Hlevel : forall c,
            restart_level thresholds c =
            if 5 <=? Py.get (Container.restarts c) 0 then Some critical
            else if 3 <=? Py.get (Container.restarts c) 0 then Some warning
            else None).
  { intros c. unfold restart_level, Py.dict_get. rewrite Hc, Hw.
    by rewrite int_ge_float_5, int_ge_float_3. }
  split; split.
  - intros [Hin|[Hin|(_ & c & Hcin & Hn & Hr & Hl)]].
    + apply in_map_iff in Hin as (x & Hx & _). done.
    + destruct (Py.get (Collected.containers_unhealthy metrics) 0 >? 0);
        [|done]. by destruct Hin as [|[]].
    + rewrite Hlevel, Hr in Hl. split; [|by exists c].
      destruct (5 <=? r) eqn:H5; [lia|]. by destruct (3 <=? r).
  - intros (H5 & c & Hcin & Hn & Hr). right; right. split; [done|].
    exists c. split_and!; try done. rewrite Hlevel, Hr.
    by replace (5 <=? r) with true by lia.
  - intros [Hin|[Hin|(_ & c & Hcin & Hn & Hr & Hl)]].
    + apply in_map_iff in Hin as (x & Hx & _). done.
    + destruct (Py.get (Collected.containers_stopped metrics) 0 >? 0);
        [|done]. by destruct Hin as [|[]].
    + rewrite Hlevel, Hr in Hl. split; [|by exists c].
      destruct (5 <=? r) eqn:H5; [done|]. destruct (3 <=? r) eqn:H3; [lia|done].
  - intros (H35 & c & Hcin & Hn & Hr). right; right. split; [done|].
    exists c. split_and!; try done. rewrite Hlevel, Hr.
    replace (5 <=? r) with false by lia. by replace (3 <=? r) with true by lia.
Qed.

Lemma restart_alert_default_levels_witness :
  In (ContainerRestarts "web" 4)
     (warnings (mk_alert false [] [ContainerRestarts "web" 4])).
Proof.
  apply (proj2 (restart_alert_default_levels
           (poll 10 [Samples.record "web" "running" (Some 4) None None] 0 0)
           Examples.cpu_levels _ eq_refl eq_refl
           ltac:(vm_compute; reflexivity) "web" 4)).
  split; [lia|]. eexists. split; [by left|]. split; reflexivity.
Defined.

(** X23.  The alert analysis raises [KeyError('thresholds')] on a
    configuration without that section.  With the section and complete
    disk records it returns an alert exactly when every container whose
    restart count reaches a level has a name: the name is read only to
    word a restart message. *)
Theorem alert_analysis_errors (metrics : Collected.t) :
  analyze_for_critical_alerts metrics (MonitorConfig.mk None)
    = Py.Raise (Py.KeyError "thresholds")
  /\ forall thresholds ds,
       mapM disk_fields
         (Py.get (Snapshot.disks (Collected.snapshot metrics)) []) = Some ds ->
       (Forall (nameable thresholds) (alert_containers metrics) <->
        exists a,
          analyze_for_critical_alerts metrics
            (MonitorConfig.mk (Some thresholds)) = Py.Ok a).
Proof.
  split; [done|]. intros thresholds ds Hds. split.
  - intros Hall. unfold analyze_for_critical_alerts.
    cbn [MonitorConfig.thresholds Py.getitem mbind result_bind Py.bind].
    rewrite (check_thresholds_effective _ _ _ Hds).
    cbn [mbind result_bind Py.bind].
    by apply restart_loop_total.
  - intros [a (t & v & [= <-] & _ & Hall & _)%alert_shape]. done.
Qed.

Lemma alert_analysis_errors_witness :
  exists a,
    analyze_for_critical_alerts
      (poll 10 [Container.mk None None (Some 1) None None None] 0 0)
      (MonitorConfig.mk (Some Examples.cpu_levels)) = Py.Ok a.
Proof.
  apply (proj2 (alert_analysis_errors
           (poll 10 [Container.mk None None (Some 1) None None None] 0 0))
           Examples.cpu_levels [] eq_refl).
  repeat constructor.
Defined.
End AlertClaims.

(** * Properties of the log scan *)

Section LogScan.

Lemma length_of_chars (l : list Ascii.ascii) :
  String.length (String.string_of_list_ascii l) = length l.
Proof. induction l as [|c l IH]; simpl; [done|]. by rewrite IH. Qed.

Lemma length_string_app (s1 s2 : string) :
  String.length (s1 ++ s2)%string = (String.length s1 + String.length s2)%nat.
Proof. induction s1 as [|c s1 IH]; simpl; [done|]. by rewrite IH. Qed.

Lemma fold_left_append_map {A B} (test : A -> bool) (f : A -> B)
    (body : list B -> A -> list B) :
  (forall acc x, body acc x = if test x then acc ++ [f x] else acc) ->
  forall l acc,
    fold_left body l acc
    = acc ++ flat_map (fun x => if test x then [f x] else []) l.
Proof.
  intros Hbody l. induction l as [|x l IH]; intros acc; simpl.
  - by rewrite app_nil_r.
  - rewrite IH, Hbody. destruct (test x); [|done].
    by rewrite <- app_assoc.
Qed.

(** X24.  The error lines reported for a container are distinct, at most
    10, and none is longer than 200 characters: each is a stripped line of
    the log that matches a pattern, or, when that line is longer than 200
    characters, its first 197 characters followed by three dots.  A log
    that cannot be read gives no error line. *)
Theorem container_errors_bounded (logs : string) :
  let errors := DockerMonitor._get_container_errors (Some logs) in
  NoDup errors
  /\ (length errors <= 10)%nat
  /\ (forall line, In line errors ->
        (String.length line <= 200)%nat
        /\ exists full,
             error_line logs full
             /\ (line = full
                 \/ (200 < String.length full)%nat
                    /\ line = (Text.slice_to 197 full ++ "...")%string))
  /\ DockerMonitor._get_container_errors None = [].
Proof.
  intros errors. unfold errors, DockerMonitor._get_container_errors.
  set (test := fun raw =>
         existsb (fun pattern => Text.search pattern (Text.strip raw))
                 DockerMonitor.error_patterns).
  set (cut := fun raw =>
         if (200 <? String.length (Text.strip raw))%nat
         then (Text.slice_to 197 (Text.strip raw) ++ "...")%string
         else Text.strip raw).
  rewrite (fold_left_append_map test cut) by done. simpl app.
  set (found := flat_map _ _).
  destruct (first_seen_spec found) as [Hnd Hin].
  split; [apply (sublist_NoDup _ (first_seen found));
          [done|apply sublist_take]|].
  split; [rewrite length_take; lia|]. split; [|done].
  intros line Hline%list_elem_of_In.
  apply (fun H => elem_of_sublist _ _ _ H (sublist_take _ _)) in Hline.
  apply list_elem_of_In, Hin in Hline. unfold found in Hline.
  apply in_flat_map in Hline as (raw & Hraw & Hline).
  destruct (test raw) eqn:Htest; [|done]. destruct Hline as [<-|[]].
  unfold cut. destruct (200 <? String.length (Text.strip raw))%nat eqn:Hlen.
  - split.
    + rewrite length_string_app. unfold Text.slice_to.
      rewrite length_of_chars, length_take.
      change (String.length "...") with 3%nat. lia.
    + exists (Text.strip raw). split; [by exists raw|].
      right. split; [|done]. by apply Nat.ltb_lt.
  - split; [apply Nat.ltb_ge in Hlen; lia|].
    exists (Text.strip raw). split; [by exists raw|]. by left.
Qed.

Lemma container_errors_bounded_witness :
  (length (DockerMonitor._get_container_errors (Some sample_log)) <= 10)%nat.
Proof.
  apply (proj1 (proj2 (container_errors_bounded sample_log))).
Defined.
End LogScan.
